(** * Site-scoped access control of the interaction-management backend

    A shallow embedding of the Python backend (src/backend): the
    repositories and services are functions over an explicit [Store]
    (the relational tables, the Redis key space and the process-local token
    blacklist); a raised Python exception is the [Raise] branch of [result].
    External collaborators the code only calls into (PyJWT, bcrypt, the
    SQL engine's ORDER BY, Python's [int]) are the fields of the class
    [External]. *)

From Stdlib Require Import ZArith Ascii String List Lia Bool Permutation.
From stdpp Require Import gmap strings list pretty.

Local Open Scope string_scope.
Local Open Scope Z_scope.

(** ** Python values, exceptions, and the state-and-exception monad *)

(** The values a decoded JSON payload can carry for a field. *)
Inductive value :=
| VNone
| VInt (n : Z)
| VStr (s : string)
| VDateTime (t : Z).

(** The exception classes the modelled code raises.  [StoreError] stands for
    whatever the database or Redis driver raises (IntegrityError, DataError,
    ResponseError, ...); [HTTPAbort] is [flask.abort(code)]. *)
Inductive exn :=
| ResourceNotFoundError
| ValueError (msg : string)
| ResourceConflictError (msg : string)
| ValidationError (msg : string)
| ZeroDivisionError
| StoreError
| BadRequest
| Unauthorized
| Forbidden
| HTTPAbort (code : Z).

Inductive result (A : Type) :=
| Ok (a : A)
| Raise (e : exn).
Arguments Ok {A} a.
Arguments Raise {A} e.

(** ** The tables (database/models, auth/models, sites/models,
       interactions/models) *)

Module Interaction.
(** interactions/models.py, class Interaction: one field per column. *)
Record t := mk {
  interaction_id : Z;
  site_id : Z;
  title : string;
  type : string;
  lead : string;
  start_datetime : Z;
  timezone : string;
  end_datetime : option Z;
  location : option string;
  description : option string;
  notes : option string;
  created_by : Z;
  created_at : Z;
  updated_by : option Z;
  updated_at : option Z
}.

Definition set_interaction_id (v : Z) (i : t) : t :=
  mk v (site_id i) (title i) (type i) (lead i) (start_datetime i) (timezone i)
     (end_datetime i) (location i) (description i) (notes i)
     (created_by i) (created_at i) (updated_by i) (updated_at i).
Definition set_site_id (v : Z) (i : t) : t :=
  mk (interaction_id i) v (title i) (type i) (lead i) (start_datetime i) (timezone i)
     (end_datetime i) (location i) (description i) (notes i)
     (created_by i) (created_at i) (updated_by i) (updated_at i).
Definition set_title (v : string) (i : t) : t :=
  mk (interaction_id i) (site_id i) v (type i) (lead i) (start_datetime i) (timezone i)
     (end_datetime i) (location i) (description i) (notes i)
     (created_by i) (created_at i) (updated_by i) (updated_at i).
Definition set_type (v : string) (i : t) : t :=
  mk (interaction_id i) (site_id i) (title i) v (lead i) (start_datetime i) (timezone i)
     (end_datetime i) (location i) (description i) (notes i)
     (created_by i) (created_at i) (updated_by i) (updated_at i).
Definition set_lead (v : string) (i : t) : t :=
  mk (interaction_id i) (site_id i) (title i) (type i) v (start_datetime i) (timezone i)
     (end_datetime i) (location i) (description i) (notes i)
     (created_by i) (created_at i) (updated_by i) (updated_at i).
Definition set_start_datetime (v : Z) (i : t) : t :=
  mk (interaction_id i) (site_id i) (title i) (type i) (lead i) v (timezone i)
     (end_datetime i) (location i) (description i) (notes i)
     (created_by i) (created_at i) (updated_by i) (updated_at i).
Definition set_timezone (v : string) (i : t) : t :=
  mk (interaction_id i) (site_id i) (title i) (type i) (lead i) (start_datetime i) v
     (end_datetime i) (location i) (description i) (notes i)
     (created_by i) (created_at i) (updated_by i) (updated_at i).
Definition set_end_datetime (v : option Z) (i : t) : t :=
  mk (interaction_id i) (site_id i) (title i) (type i) (lead i) (start_datetime i) (timezone i)
     v (location i) (description i) (notes i)
     (created_by i) (created_at i) (updated_by i) (updated_at i).
Definition set_location (v : option string) (i : t) : t :=
  mk (interaction_id i) (site_id i) (title i) (type i) (lead i) (start_datetime i) (timezone i)
     (end_datetime i) v (description i) (notes i)
     (created_by i) (created_at i) (updated_by i) (updated_at i).
Definition set_description (v : option string) (i : t) : t :=
  mk (interaction_id i) (site_id i) (title i) (type i) (lead i) (start_datetime i) (timezone i)
     (end_datetime i) (location i) v (notes i)
     (created_by i) (created_at i) (updated_by i) (updated_at i).
Definition set_notes (v : option string) (i : t) : t :=
  mk (interaction_id i) (site_id i) (title i) (type i) (lead i) (start_datetime i) (timezone i)
     (end_datetime i) (location i) (description i) v
     (created_by i) (created_at i) (updated_by i) (updated_at i).
Definition set_created_by (v : Z) (i : t) : t :=
  mk (interaction_id i) (site_id i) (title i) (type i) (lead i) (start_datetime i) (timezone i)
     (end_datetime i) (location i) (description i) (notes i)
     v (created_at i) (updated_by i) (updated_at i).
Definition set_created_at (v : Z) (i : t) : t :=
  mk (interaction_id i) (site_id i) (title i) (type i) (lead i) (start_datetime i) (timezone i)
     (end_datetime i) (location i) (description i) (notes i)
     (created_by i) v (updated_by i) (updated_at i).
Definition set_updated_by (v : option Z) (i : t) : t :=
  mk (interaction_id i) (site_id i) (title i) (type i) (lead i) (start_datetime i) (timezone i)
     (end_datetime i) (location i) (description i) (notes i)
     (created_by i) (created_at i) v (updated_at i).
Definition set_updated_at (v : option Z) (i : t) : t :=
  mk (interaction_id i) (site_id i) (title i) (type i) (lead i) (start_datetime i) (timezone i)
     (end_datetime i) (location i) (description i) (notes i)
     (created_by i) (created_at i) (updated_by i) v.

(** The writes [setattr(interaction, key, value)] can make.  A column takes
    a value of its declared type ([None] only where [nullable=True]); a
    value of another kind is refused by the store when the session is
    flushed, which is the [None] result here.  The relationship attributes
    [site] and [creator] cannot hold a payload value ([None] would null a
    NOT NULL foreign key) and [updater] only [None]; the methods and the
    table name are attributes whose assignment touches no column, and so
    are the attributes the ORM base class adds, which are left out.  What a
    payload writes to [updated_by] and [updated_at] is overwritten by the
    audit stamp before the flush, so a value of the wrong kind there is
    harmless. *)
Definition as_int (v : value) : option Z :=
  match v with VInt n => Some n | _ => None end.
Definition as_str (v : value) : option string :=
  match v with VStr s => Some s | _ => None end.
Definition as_datetime (v : value) : option Z :=
  match v with VDateTime d => Some d | _ => None end.
Definition as_nullable {A} (f : value -> option A) (v : value) : option (option A) :=
  match v with VNone => Some None | _ => option_map Some (f v) end.

Definition COLUMNS : list string :=
  ["interaction_id"; "site_id"; "title"; "type"; "lead"; "start_datetime";
   "timezone"; "end_datetime"; "location"; "description"; "notes";
   "created_by"; "created_at"; "updated_by"; "updated_at"].
Definition RELATIONSHIPS : list string := ["site"; "creator"; "updater"].
Definition OTHER_ATTRIBUTES : list string :=
  ["update"; "to_dict"; "__init__"; "__repr__"; "__tablename__"].

(** [hasattr] for the names the class body declares.  The further names
    under which every mapped class has an attribute ([__class__],
    [__dict__], [metadata], ...) are library matter.  The look-up of a sort
    attribute takes them into account
    ([InteractionRepository.class_hasattr]); as a payload key of [update],
    such a name is no column: its assignment raises or leaves every column
    as it is, and it is the latter that [set_fields] does with every name
    that is not declared here. *)
Definition hasattr (key : string) : bool :=
  bool_decide (key ∈ (COLUMNS ++ RELATIONSHIPS ++ OTHER_ATTRIBUTES)%list).

(** Whether a relationship attribute can be assigned the payload value. *)
Definition relationship_accepts (key : string) (v : value) : bool :=
  if String.eqb key "updater" then match v with VNone => true | _ => false end
  else false.

Definition setattr (key : string) (v : value) (i : t) : option t :=
  if String.eqb key "interaction_id" then option_map (fun x => set_interaction_id x i) (as_int v)
  else if String.eqb key "site_id" then option_map (fun x => set_site_id x i) (as_int v)
  else if String.eqb key "title" then option_map (fun x => set_title x i) (as_str v)
  else if String.eqb key "type" then option_map (fun x => set_type x i) (as_str v)
  else if String.eqb key "lead" then option_map (fun x => set_lead x i) (as_str v)
  else if String.eqb key "start_datetime" then
    option_map (fun x => set_start_datetime x i) (as_datetime v)
  else if String.eqb key "timezone" then option_map (fun x => set_timezone x i) (as_str v)
  else if String.eqb key "end_datetime" then
    option_map (fun x => set_end_datetime x i) (as_nullable as_datetime v)
  else if String.eqb key "location" then
    option_map (fun x => set_location x i) (as_nullable as_str v)
  else if String.eqb key "description" then
    option_map (fun x => set_description x i) (as_nullable as_str v)
  else if String.eqb key "notes" then
    option_map (fun x => set_notes x i) (as_nullable as_str v)
  else if String.eqb key "created_by" then option_map (fun x => set_created_by x i) (as_int v)
  else if String.eqb key "created_at" then
    option_map (fun x => set_created_at x i) (as_datetime v)
  else if String.eqb key "updated_by" then
    Some (from_option (fun x => set_updated_by x i) i (as_nullable as_int v))
  else if String.eqb key "updated_at" then
    Some (from_option (fun x => set_updated_at x i) i (as_nullable as_datetime v))
  else if bool_decide (key ∈ RELATIONSHIPS) then
    if relationship_accepts key v then Some i else None
  else Some i.

(** The flush of a new object whose attributes were assigned by name: every
    NOT NULL column must hold a value of its type, a nullable one may be
    unset, and an unset primary key is drawn from the sequence. *)
Definition required {A} (f : value -> option A) (attrs : gmap string value)
    (key : string) : option A :=
  attrs !! key ≫= f.

Definition nullable {A} (f : value -> option A) (attrs : gmap string value)
    (key : string) : option (option A) :=
  match attrs !! key with
  | None => Some None
  | Some v => as_nullable f v
  end.

Definition flush_new (attrs : gmap string value) (next_id : Z) : option t :=
  interaction_id ← nullable as_int attrs "interaction_id";
  site_id ← required as_int attrs "site_id";
  title ← required as_str attrs "title";
  type ← required as_str attrs "type";
  lead ← required as_str attrs "lead";
  start_datetime ← required as_datetime attrs "start_datetime";
  timezone ← required as_str attrs "timezone";
  end_datetime ← nullable as_datetime attrs "end_datetime";
  location ← nullable as_str attrs "location";
  description ← nullable as_str attrs "description";
  notes ← nullable as_str attrs "notes";
  created_by ← required as_int attrs "created_by";
  created_at ← required as_datetime attrs "created_at";
  updated_by ← nullable as_int attrs "updated_by";
  updated_at ← nullable as_datetime attrs "updated_at";
  Some (mk (default next_id interaction_id) site_id title type lead start_datetime timezone
           end_datetime location description notes created_by created_at
           updated_by updated_at).
End Interaction.

Module User.
(** auth/models.py, class User. *)
Record t := mk {
  id : Z;
  username : string;
  email : string;
  password_hash : string;
  last_login : option Z;
  is_active : bool
}.

Definition set_last_login (v : option Z) (u : t) : t :=
  mk (id u) (username u) (email u) (password_hash u) v (is_active u).
End User.

Module UserSite.
(** auth/models.py, class UserSite (table user_site_mapping). *)
Record t := mk {
  id : Z;
  user_id : Z;
  site_id : Z;
  role : string;
  assigned_at : Z
}.

Definition set_role (v : string) (m : t) : t :=
  mk (id m) (user_id m) (site_id m) v (assigned_at m).

#[global] Instance eq_dec : EqDecision t.
Proof. solve_decision. Defined.
End UserSite.

Module Site.
(** sites/models.py, class Site. *)
Record t := mk {
  site_id : Z;
  name : string;
  description : option string;
  is_active : bool;
  created_at : Z
}.
End Site.

(** ** The store

    The four tables in row order, the Redis key space (value and absolute
    expiry time of each key) and [auth.utils.TOKEN_BLACKLIST], the
    module-level set of token strings. *)
Record Store := mkStore {
  interactions : list Interaction.t;
  sites : list Site.t;
  users : list User.t;
  user_sites : list UserSite.t;
  redis : gmap string (string * option Z);
  TOKEN_BLACKLIST : gset string
}.

Definition set_interactions (v : list Interaction.t) (s : Store) : Store :=
  mkStore v (sites s) (users s) (user_sites s) (redis s) (TOKEN_BLACKLIST s).
Definition set_sites (v : list Site.t) (s : Store) : Store :=
  mkStore (interactions s) v (users s) (user_sites s) (redis s) (TOKEN_BLACKLIST s).
Definition set_users (v : list User.t) (s : Store) : Store :=
  mkStore (interactions s) (sites s) v (user_sites s) (redis s) (TOKEN_BLACKLIST s).
Definition set_user_sites (v : list UserSite.t) (s : Store) : Store :=
  mkStore (interactions s) (sites s) (users s) v (redis s) (TOKEN_BLACKLIST s).
Definition set_redis (v : gmap string (string * option Z)) (s : Store) : Store :=
  mkStore (interactions s) (sites s) (users s) (user_sites s) v (TOKEN_BLACKLIST s).
Definition set_TOKEN_BLACKLIST (v : gset string) (s : Store) : Store :=
  mkStore (interactions s) (sites s) (users s) (user_sites s) (redis s) v.

(** A computation reads and writes the store and returns or raises.  The
    store it leaves behind is what has been committed so far. *)
Definition M (A : Type) : Type := Store -> result A * Store.

#[global] Instance M_ret : MRet M := fun A a s => (Ok a, s).
#[global] Instance M_bind : MBind M := fun A B f m s =>
  match m s with
  | (Ok a, s') => f a s'
  | (Raise e, s') => (Raise e, s')
  end.

Definition raise {A} (e : exn) : M A := fun s => (Raise e, s).
Definition gets {A} (f : Store -> A) : M A := fun s => (Ok (f s), s).
Definition modify (f : Store -> Store) : M unit := fun s => (Ok tt, f s).

(** [try: body except Exception: handler]. *)
Definition try_except {A} (body : M A) (handler : exn -> M A) : M A := fun s =>
  match body s with
  | (Ok a, s') => (Ok a, s')
  | (Raise e, s') => handler e s'
  end.

(** What a commit checks: the column types and NOT NULL (through the types
    of the rows), primary keys and the unique column [sites.name].  Foreign
    keys are not enforced (the model modules disagree on the columns they
    refer to), so the [except] branches that only such a failure reaches
    return nothing here.  AUTOINCREMENT hands out one more than the largest
    key present. *)
Definition fresh_id (ids : list Z) : Z := 1 + foldr Z.max 0 ids.

(** Row helpers: [query.filter(p).first()], in-place change of that row and
    [session.delete] of that row. *)
Fixpoint replace_first {A} (p : A -> bool) (new : A) (l : list A) : list A :=
  match l with
  | [] => []
  | x :: l' => if p x then new :: l' else x :: replace_first p new l'
  end.

Fixpoint remove_first {A} (p : A -> bool) (l : list A) : list A :=
  match l with
  | [] => []
  | x :: l' => if p x then l' else x :: remove_first p l'
  end.

(** ** The token payload and the external collaborators *)

(** The entries of a token's claim set that the code reads or writes;
    [None] is an absent key. *)
Record Claims := mkClaims {
  sub : option Z;
  site_ids : option (list Z);      (* written by create_auth_token *)
  claim_sites : option (list Z);   (* key 'sites', written by login *)
  claim_username : option string;  (* key 'username', written by login *)
  exp : option Z;
  iat : option Z;
  jti : option string
}.

(** What [jwt.decode(token, key, algorithms=[...])] does: it returns the
    payload or raises ExpiredSignatureError or another InvalidTokenError. *)
Inductive jwt_outcome :=
| JwtPayload (payload : Claims)
| JwtExpiredSignatureError
| JwtInvalidTokenError.

Class External := {
  (** app.config['JWT_SECRET_KEY'] *)
  JWT_SECRET_KEY : string;
  (** jwt.decode at a clock reading *)
  jwt_decode : string -> string -> Z -> jwt_outcome;
  (** jwt.encode *)
  jwt_encode : Claims -> string -> string;
  (** bcrypt.checkpw *)
  checkpw : string -> string -> bool;
  (** int(s); [None] is ValueError *)
  py_int : string -> option Z;
  (** Offset between utcnow() and the local clock datetime.fromtimestamp uses *)
  local_utc_offset : Z;
  (** ORDER BY column ASC/DESC on interactions *)
  order_by : string -> bool -> list Interaction.t -> list Interaction.t;
  order_by_Permutation : forall c d l, Permutation (order_by c d l) l;
  (** ORDER BY users.username *)
  order_by_username : list User.t -> list User.t;
  order_by_username_Permutation : forall l, Permutation (order_by_username l) l;
  (** The names under which a mapped class has an attribute that its body
      does not declare: what [object], the declarative base and the
      extension give every model ([__class__], [__dict__], [__doc__],
      [metadata], [query], ...) *)
  base_attribute : string -> bool
}.

(** What the SQL engine is further asked for: case-insensitive pattern
    matching and the ordering of sites by name. *)
Class SqlText := {
  (** [value ILIKE pattern], given as [ilike pattern value] *)
  ilike : string -> string -> bool;
  (** ORDER BY sites.name *)
  order_by_name : list Site.t -> list Site.t;
  order_by_name_Permutation : forall l, Permutation (order_by_name l) l
}.

(** [bcrypt.hashpw(password, salt)], as text. *)
Class Bcrypt := {
  hashpw : string -> string -> string
}.

(** [db.session.delete(site)] followed by the commit: the store it leaves,
    or [None] when the commit raises.  What else than the row of the site
    goes, and on which related rows the commit fails, is decided by the
    mapper configuration and the foreign keys of the database. *)
Class SessionDelete := {
  session_delete_site : Site.t -> Store -> option Store
}.

(** ** utils/validators.py and utils/pagination.py *)

Definition DEFAULT_PAGE : Z := 1.
Definition DEFAULT_PER_PAGE : Z := 25.
Definition MAX_PER_PAGE : Z := 100.

Definition validate_pagination_params (page per_page : option Z) : Z * Z :=
  let validated_page :=
    match page with
    | Some p => if 0 <? p then p else DEFAULT_PAGE
    | None => DEFAULT_PAGE
    end in
  let validated_per_page :=
    match per_page with
    | Some n => if 0 <? n then Z.min n MAX_PER_PAGE else DEFAULT_PER_PAGE
    | None => DEFAULT_PER_PAGE
    end in
  (validated_page, validated_per_page).

Definition ALLOWED_SORT_FIELDS : list string :=
  ["title"; "type"; "lead"; "start_datetime"; "end_datetime"; "location";
   "created_at"; "updated_at"].
Definition ALLOWED_SORT_DIRECTIONS : list string := ["asc"; "desc"].

(** [validate_sort_params]; [None] is a missing argument. *)
Definition validate_sort_params (sort_by sort_direction : option string)
    : string * string :=
  let validated_sort_by :=
    match sort_by with
    | Some f => if bool_decide (f ∈ ALLOWED_SORT_FIELDS) then f else "created_at"
    | None => "created_at"
    end in
  let validated_sort_direction :=
    match sort_direction with
    | Some d => if bool_decide (d ∈ ALLOWED_SORT_DIRECTIONS) then d else "desc"
    | None => "desc"
    end in
  (validated_sort_by, validated_sort_direction).

(** [math.ceil(a / b)] for [b <> 0].  In Python the quotient of two integers
    is the double nearest to the exact quotient.  When both are below 2^53
    in absolute value, the error of that double is less than [1 / b] while a
    quotient that is no integer is at least [1 / b] away from the integers
    around it, so the double has the ceiling of the exact quotient; and when
    [0 <= a < 2^53 <= b] the quotient lies between 0 and [1 - 2^-53] and so
    does its double (it is above 0 for [0 < a] as long as [b] is below
    2^1022).  The exact ceiling of these cases is what is computed here.  A
    count of rows is below 2^53 in every engine, and a page size the
    database accepts is below 2^63: the listings are within these cases.
    For integers beyond them the double may be rounded to another integer,
    be 0 or be out of range (OverflowError), and this definition does not
    say what the code computes. *)
Definition math_ceil_div (a b : Z) : Z := - ((- a) / b).

Module PaginatedResult.
Record t (A : Type) := mk {
  items : list A;
  total : Z;
  page : Z;
  page_size : Z;
  total_pages : Z;
  has_next : bool;
  has_prev : bool;
  next_page : option Z;
  prev_page : option Z
}.
Arguments mk {A}.
Arguments items {A}.
Arguments total {A}.
Arguments page {A}.
Arguments page_size {A}.
Arguments total_pages {A}.
Arguments has_next {A}.
Arguments has_prev {A}.
Arguments next_page {A}.
Arguments prev_page {A}.

(** [PaginatedResult.__init__]; dividing by a zero page size raises. *)
Definition init {A} (items : list A) (total page page_size : Z) : result (t A) :=
  if (0 <? total) && (page_size =? 0) then Raise ZeroDivisionError
  else
    let total_pages := if 0 <? total then math_ceil_div total page_size else 1 in
    let has_next := page <? total_pages in
    let has_prev := 1 <? page in
    Ok (mk items total page page_size total_pages has_next has_prev
           (if has_next then Some (page + 1) else None)
           (if has_prev then Some (page - 1) else None)).
End PaginatedResult.

(** utils/pagination.py, [get_pagination_metadata]: the dictionary it
    returns; dividing by a zero page size raises. *)
Module Pagination.
Record Metadata := mkMetadata {
  total : Z;
  page : Z;
  page_size : Z;
  total_pages : Z;
  has_next : bool;
  has_prev : bool;
  next_page : option Z;
  prev_page : option Z
}.

Definition get_pagination_metadata (total_items page page_size : Z) : result Metadata :=
  if (0 <? total_items) && (page_size =? 0) then Raise ZeroDivisionError
  else
    let total_pages :=
      if 0 <? total_items then math_ceil_div total_items page_size else 1 in
    let page := Z.min page total_pages in
    let has_next := page <? total_pages in
    let has_prev := 1 <? page in
    Ok (mkMetadata total_items page page_size total_pages has_next has_prev
          (if has_next then Some (page + 1) else None)
          (if has_prev then Some (page - 1) else None)).
End Pagination.

(** [str.lower] on the ASCII letters. *)
Definition lower_ascii (c : ascii) : ascii :=
  let n := nat_of_ascii c in
  if ((65 <=? n) && (n <=? 90))%nat then ascii_of_nat (n + 32) else c.

Fixpoint lower (s : string) : string :=
  match s with
  | EmptyString => EmptyString
  | String c s' => String (lower_ascii c) (lower s')
  end.

(** utils/date_utils.py, [get_date_range_filter]: the conditions on the
    date column, one per bound that is given. *)
Definition get_date_range_filter (start_date end_date : option Z) : list (Z -> bool) :=
  (match start_date with Some d => [fun column => d <=? column] | None => [] end)
  ++ (match end_date with Some d => [fun column => column <=? d] | None => [] end).

(** The filters dictionary of [search]; [None] is an absent key. *)
Record SearchFilters := mkSearchFilters {
  filter_title : option string;
  filter_type : option string;
  filter_lead : option string;
  filter_start_datetime : option Z;
  filter_end_datetime : option Z;
  filter_timezone : option string;
  filter_location : option string;
  filter_description : option string;
  filter_notes : option string;
  filter_search : option string
}.

(** ** interactions/repositories.py *)

Module InteractionRepository.
Section WithExternal.
Context {ext : External}.

(** The lookup predicate of [get_by_id]: both filters. *)
Definition in_scope (interaction_id : Z) (allowed_site_ids : list Z)
    (i : Interaction.t) : bool :=
  (Interaction.interaction_id i =? interaction_id)
  && bool_decide (Interaction.site_id i ∈ allowed_site_ids).

Definition get_by_id (interaction_id : Z) (allowed_site_ids : list Z)
    : M Interaction.t := fun s =>
  match find (in_scope interaction_id allowed_site_ids) (interactions s) with
  | None => (Raise ResourceNotFoundError, s)
  | Some interaction => (Ok interaction, s)
  end.

(** The constructor call on the keyword arguments [interaction_data]
    (it assigns every key, after adding [created_at] when absent), followed
    by the five assignments of [create]: the attributes are held by name,
    a later assignment replacing an earlier one, until the flush. *)
Definition create (interaction_data : list (string * value))
    (site_id user_id : Z) (now : Z) : M Interaction.t :=
  try_except
    (fun s =>
      let kwargs :=
        if bool_decide ("created_at" ∈ interaction_data.*1) then interaction_data
        else (interaction_data ++ [("created_at", VDateTime now)])%list in
      if existsb (fun kv => bool_decide (kv.1 ∈ Interaction.RELATIONSHIPS)
                            && negb (Interaction.relationship_accepts kv.1 kv.2)) kwargs
      then (Raise StoreError, s)
      else
        let attrs : gmap string value :=
          foldl (fun acc kv => <[kv.1 := kv.2]> acc) ∅ kwargs in
        let attrs := <["site_id" := VInt site_id]> attrs in
        let attrs := <["created_by" := VInt user_id]> attrs in
        let attrs := <["updated_by" := VInt user_id]> attrs in
        let attrs := <["created_at" := VDateTime now]> attrs in
        let attrs := <["updated_at" := VDateTime now]> attrs in
        let ids := map Interaction.interaction_id (interactions s) in
        match Interaction.flush_new attrs (fresh_id ids) with
        | None => (Raise StoreError, s)
        | Some interaction =>
            if bool_decide (Interaction.interaction_id interaction ∈ ids)
            then (Raise StoreError, s)
            else (Ok interaction, set_interactions (interactions s ++ [interaction])%list s)
        end)
    (fun e => (* db.session.rollback() *) raise e).

(** [for key, value in interaction_data.items(): if hasattr: setattr]. *)
Fixpoint set_fields (interaction_data : list (string * value))
    (interaction : Interaction.t) : option Interaction.t :=
  match interaction_data with
  | [] => Some interaction
  | (key, v) :: rest =>
      if Interaction.hasattr key then
        match Interaction.setattr key v interaction with
        | Some interaction' => set_fields rest interaction'
        | None => None
        end
      else set_fields rest interaction
  end.

Definition update (interaction_id : Z) (interaction_data : list (string * value))
    (allowed_site_ids : list Z) (user_id : Z) (now : Z) : M Interaction.t :=
  interaction ← get_by_id interaction_id allowed_site_ids;
  try_except
    (match set_fields interaction_data interaction with
     | None => raise StoreError
     | Some interaction' =>
         let interaction' :=
           Interaction.set_updated_at (Some now)
             (Interaction.set_updated_by (Some user_id) interaction') in
         fun s =>
           (* db.session.commit(): a changed primary key must be free *)
           if negb (Interaction.interaction_id interaction'
                    =? Interaction.interaction_id interaction)
              && bool_decide (Interaction.interaction_id interaction'
                              ∈ map Interaction.interaction_id (interactions s))
           then (Raise StoreError, s)
           else
             (Ok interaction',
              set_interactions
                (replace_first (in_scope interaction_id allowed_site_ids)
                   interaction' (interactions s)) s)
     end)
    (fun e => (* db.session.rollback() *) raise e).

Definition delete (interaction_id : Z) (allowed_site_ids : list Z) : M bool :=
  interaction ← get_by_id interaction_id allowed_site_ids;
  try_except
    (_ ← modify (fun s =>
           set_interactions
             (remove_first (in_scope interaction_id allowed_site_ids)
                (interactions s)) s);
     mret true)
    (fun e => raise e).

(** [query.offset(offset).limit(page_size).all()]; the engine refuses a
    negative OFFSET or LIMIT and one that is no 64-bit integer (the driver
    or the server raises on 2^63 and above). *)
Definition offset_limit {A} (offset limit : Z) (rows : list A) : option (list A) :=
  if (offset <? 0) || (limit <? 0) || (2 ^ 63 <=? offset) || (2 ^ 63 <=? limit) then None
  else Some (take (Z.to_nat limit) (drop (Z.to_nat offset) rows)).

(** [getattr(Interaction, sort_field, Interaction.created_at)] finds an
    attribute of the class under the name when the class body declares one
    or the base classes give one; only for a name of neither kind is the
    default, [created_at], taken.  Of what it finds, [desc()] and [asc()]
    take a column and raise on anything else. *)
Definition class_hasattr (name : string) : bool :=
  Interaction.hasattr name || base_attribute name.

Definition get_all (allowed_site_ids : list Z) (page page_size : Z)
    (sort_field sort_direction : string)
    : M (PaginatedResult.t Interaction.t) :=
  try_except
    (fun s =>
      let query :=
        filter (fun i => Interaction.site_id i ∈ allowed_site_ids) (interactions s) in
      (* getattr(Interaction, sort_field, Interaction.created_at) *)
      if class_hasattr sort_field
         && negb (bool_decide (sort_field ∈ Interaction.COLUMNS))
      then (Raise StoreError, s)
      else
        let sort_column :=
          if class_hasattr sort_field then sort_field else "created_at" in
        let query := order_by sort_column (String.eqb (lower sort_direction) "desc") query in
        let total_count := Z.of_nat (length query) in
        let offset := (page - 1) * page_size in
        match offset_limit offset page_size query with
        | None => (Raise StoreError, s)
        | Some interaction_list =>
            (* the debug line formats (total_count + page_size - 1) // page_size *)
            if page_size =? 0 then (Raise ZeroDivisionError, s)
            else
              match PaginatedResult.init interaction_list total_count page page_size with
              | Ok r => (Ok r, s)
              | Raise e => (Raise e, s)
              end
        end)
    (fun e => raise e).

Context {sql : SqlText}.

(** [filters.get(key)] as a condition: an empty string counts as absent. *)
Definition given (v : option string) : option string :=
  match v with
  | None | Some "" => None
  | Some x => Some x
  end.

(** [column.ilike(f"%{x}%")]; a NULL column matches nothing. *)
Definition ilike_contains (x : string) (column : option string) : bool :=
  match column with
  | Some v => ilike ("%" ++ x ++ "%") v
  | None => false
  end.

(** The conjunction of the filters [search] adds to the query. *)
Definition matches (filters : SearchFilters) (i : Interaction.t) : bool :=
  match given (filter_title filters) with
  | Some x => ilike_contains x (Some (Interaction.title i))
  | None => true
  end
  && match given (filter_type filters) with
     | Some x => String.eqb (Interaction.type i) x
     | None => true
     end
  && match given (filter_lead filters) with
     | Some x => ilike_contains x (Some (Interaction.lead i))
     | None => true
     end
  && forallb (fun date_filter => date_filter (Interaction.start_datetime i))
       (get_date_range_filter (filter_start_datetime filters)
          (filter_end_datetime filters))
  && match given (filter_timezone filters) with
     | Some x => String.eqb (Interaction.timezone i) x
     | None => true
     end
  && match given (filter_location filters) with
     | Some x => ilike_contains x (Interaction.location i)
     | None => true
     end
  && match given (filter_description filters) with
     | Some x => ilike_contains x (Interaction.description i)
     | None => true
     end
  && match given (filter_notes filters) with
     | Some x => ilike_contains x (Interaction.notes i)
     | None => true
     end
  && match given (filter_search filters) with
     | Some x =>
         ilike_contains x (Some (Interaction.title i))
         || ilike_contains x (Some (Interaction.lead i))
         || ilike_contains x (Some (Interaction.type i))
         || ilike_contains x (Interaction.location i)
         || ilike_contains x (Interaction.description i)
         || ilike_contains x (Interaction.notes i)
     | None => true
     end.

Definition search (allowed_site_ids : list Z) (filters : SearchFilters)
    (page page_size : Z) (sort_field sort_direction : string)
    : M (PaginatedResult.t Interaction.t) :=
  try_except
    (fun s =>
      let query :=
        filter (fun i => Interaction.site_id i ∈ allowed_site_ids) (interactions s) in
      let query := List.filter (matches filters) query in
      if class_hasattr sort_field
         && negb (bool_decide (sort_field ∈ Interaction.COLUMNS))
      then (Raise StoreError, s)
      else
        let sort_column :=
          if class_hasattr sort_field then sort_field else "created_at" in
        let query := order_by sort_column (String.eqb (lower sort_direction) "desc") query in
        let total_count := Z.of_nat (length query) in
        let offset := (page - 1) * page_size in
        match offset_limit offset page_size query with
        | None => (Raise StoreError, s)
        | Some interaction_list =>
            if page_size =? 0 then (Raise ZeroDivisionError, s)
            else
              match PaginatedResult.init interaction_list total_count page page_size with
              | Ok r => (Ok r, s)
              | Raise e => (Raise e, s)
              end
        end)
    (fun e => raise e).
End WithExternal.
End InteractionRepository.

(** utils/pagination.py, [apply_pagination]. *)
Definition apply_pagination {A} (query : list A) (page page_size : Z) : option (list A) :=
  let offset := (page - 1) * page_size in
  InteractionRepository.offset_limit offset page_size query.

(** ** interactions/services.py *)

Module InteractionService.
Section WithExternal.
Context {ext : External} {sql : SqlText}.

Definition DEFAULT_PAGE_SIZE : Z := 25.
Definition DEFAULT_SORT_FIELD : string := "created_at".
Definition DEFAULT_SORT_DIRECTION : string := "desc".

(** The identifiers are integers here, so the tests on them come down to
    the sign. *)
Definition _validate_site_access (site_id : Z) : M (list Z) :=
  if site_id <=? 0 then raise (ValueError "Valid site_id is required")
  else mret [site_id].

Definition get_by_id (interaction_id site_id : Z) : M Interaction.t :=
  if interaction_id <=? 0 then raise (ValueError "Valid interaction_id is required")
  else
    allowed_site_ids ← _validate_site_access site_id;
    try_except (InteractionRepository.get_by_id interaction_id allowed_site_ids)
      (fun e => raise e).

Definition delete (interaction_id site_id : Z) : M bool :=
  if interaction_id <=? 0 then raise (ValueError "Valid interaction_id is required")
  else
    allowed_site_ids ← _validate_site_access site_id;
    try_except (InteractionRepository.delete interaction_id allowed_site_ids)
      (fun e => raise e).

(** The defaults [get_all] and [search] put in place of a page or a page
    size that is not positive and of a sort direction that is neither
    "asc" nor "desc" in any case of letters. *)
Definition page_or_default (page : Z) : Z :=
  if page <=? 0 then DEFAULT_PAGE else page.

Definition page_size_or_default (page_size : Z) : Z :=
  if page_size <=? 0 then DEFAULT_PAGE_SIZE else page_size.

Definition sort_field_or_default (sort_field : string) : string :=
  if String.eqb sort_field "" then DEFAULT_SORT_FIELD else sort_field.

Definition sort_direction_or_default (sort_direction : string) : string :=
  if String.eqb sort_direction ""
     || negb (bool_decide (lower sort_direction ∈ ["asc"; "desc"]))
  then DEFAULT_SORT_DIRECTION else sort_direction.

Definition get_all (site_id page page_size : Z) (sort_field sort_direction : string)
    : M (PaginatedResult.t Interaction.t) :=
  let page := page_or_default page in
  let page_size := page_size_or_default page_size in
  let sort_field := sort_field_or_default sort_field in
  let sort_direction := sort_direction_or_default sort_direction in
  allowed_site_ids ← _validate_site_access site_id;
  InteractionRepository.get_all allowed_site_ids page page_size sort_field sort_direction.

Definition search (site_id : Z) (filters : SearchFilters) (page page_size : Z)
    (sort_field sort_direction : string) : M (PaginatedResult.t Interaction.t) :=
  let page := page_or_default page in
  let page_size := page_size_or_default page_size in
  let sort_field := sort_field_or_default sort_field in
  let sort_direction := sort_direction_or_default sort_direction in
  allowed_site_ids ← _validate_site_access site_id;
  InteractionRepository.search allowed_site_ids filters page page_size
    sort_field sort_direction.
End WithExternal.
End InteractionService.

(** ** sites/repositories.py *)

(** The keyword arguments of a site payload; [None] is an absent key. *)
Record SiteData := mkSiteData {
  sd_name : option string;
  sd_description : option string;
  sd_is_active : option bool
}.

(** A single-entity [Query.all()] returns each mapped object once. *)
Fixpoint unique_by {A} (key : A -> Z) (seen : list Z) (l : list A) : list A :=
  match l with
  | [] => []
  | x :: l' =>
      if bool_decide (key x ∈ seen) then unique_by key seen l'
      else x :: unique_by key (key x :: seen) l'
  end.

(** The keys of an update payload: [None] is an absent key, [Some None] a
    key whose value is [None]. *)
Record SiteUpdate := mkSiteUpdate {
  su_name : option (option string);
  su_description : option (option string);
  su_is_active : option (option bool)
}.

Module SiteRepository.
Section WithExternal.
Context {ext : External}.

Definition get_site_by_id (site_id : Z) : M (option Site.t) :=
  gets (fun s => find (fun x => Site.site_id x =? site_id) (sites s)).

Definition get_site_by_name (name : string) : M (option Site.t) :=
  gets (fun s => find (fun x => String.eqb (Site.name x) name) (sites s)).

Definition create_site (site_data : SiteData) (now : Z) : M Site.t := fun s =>
  match sd_name site_data with
  | None => (Raise StoreError, s)       (* name is NOT NULL *)
  | Some name =>
      if bool_decide (name ∈ map Site.name (sites s))
      then (Raise StoreError, s)        (* name is unique *)
      else
        let site :=
          Site.mk (fresh_id (map Site.site_id (sites s))) name
                  (sd_description site_data)
                  (default true (sd_is_active site_data)) now in
        (Ok site, set_sites (sites s ++ [site])%list s)
  end.

(** The membership lookup shared by the methods below:
    [filter(and_(UserSite.user_id == user_id, UserSite.site_id == site_id))]. *)
Definition is_pair (user_id site_id : Z) (m : UserSite.t) : bool :=
  (UserSite.user_id m =? user_id) && (UserSite.site_id m =? site_id).

(** The rows of [query(User).join(UserSite, UserSite.user_id == User.id)
    .filter(UserSite.site_id == site_id)]: one per matching membership. *)
Definition site_user_rows (site_id : Z) (s : Store) : list User.t :=
  flat_map
    (fun u => map (fun _ => u) (List.filter (is_pair (User.id u) site_id) (user_sites s)))
    (users s).

(** [pagination_params] is the pair of its entries [page] and [page_size];
    [None] is no dictionary or an empty one. *)
Definition get_site_users (site_id : Z)
    (pagination_params : option (option Z * option Z))
    : M (PaginatedResult.t User.t) := fun s =>
  let query := order_by_username (site_user_rows site_id s) in
  let total := Z.of_nat (length query) in
  match pagination_params with
  | Some (page, page_size) =>
      let page := default 1 page in
      let page_size := default 25 page_size in
      match InteractionRepository.offset_limit ((page - 1) * page_size) page_size query with
      | None => (Raise StoreError, s)
      | Some rows =>
          match PaginatedResult.init (unique_by User.id [] rows) total page page_size with
          | Ok r => (Ok r, s)
          | Raise e => (Raise e, s)
          end
      end
  | None =>
      let items := unique_by User.id [] query in
      match PaginatedResult.init items total 1 (Z.of_nat (length items)) with
      | Ok r => (Ok r, s)
      | Raise e => (Raise e, s)
      end
  end.

(** The [except] branch (rollback, return [None]) is reached by no failure
    of the commit that is checked here. *)
Definition add_user_to_site (user_id site_id : Z) (role : string) (now : Z)
    : M (option UserSite.t) := fun s =>
  match find (is_pair user_id site_id) (user_sites s) with
  | Some existing => (Ok (Some existing), s)
  | None =>
      let user_site :=
        UserSite.mk (fresh_id (map UserSite.id (user_sites s))) user_id site_id role now in
      (Ok (Some user_site), set_user_sites (user_sites s ++ [user_site])%list s)
  end.

Definition remove_user_from_site (user_id site_id : Z) : M bool := fun s =>
  match find (is_pair user_id site_id) (user_sites s) with
  | None => (Ok false, s)
  | Some user_site =>
      (Ok true, set_user_sites (remove_first (is_pair user_id site_id) (user_sites s)) s)
  end.

Definition update_user_site_role (user_id site_id : Z) (new_role : string)
    : M (option UserSite.t) := fun s =>
  match find (is_pair user_id site_id) (user_sites s) with
  | None => (Ok None, s)
  | Some user_site =>
      let user_site := UserSite.set_role new_role user_site in
      (Ok (Some user_site),
       set_user_sites (replace_first (is_pair user_id site_id) user_site (user_sites s)) s)
  end.

Definition get_user_role_for_site (user_id site_id : Z) : M (option string) :=
  gets (fun s => option_map UserSite.role (find (is_pair user_id site_id) (user_sites s))).

Definition user_has_site_access (user_id site_id : Z) : M bool :=
  gets (fun s =>
    0 <? Z.of_nat (length (List.filter (is_pair user_id site_id) (user_sites s)))).

(** The commit fails on a [None] in a NOT NULL column and on a new name
    another row has. *)
Definition update_site (site_id : Z) (site_data : SiteUpdate) : M (option Site.t) :=
  fun s =>
  let by_id := fun x => Site.site_id x =? site_id in
  match find by_id (sites s) with
  | None => (Ok None, s)
  | Some site =>
      let name := default (Some (Site.name site)) (su_name site_data) in
      let description := default (Site.description site) (su_description site_data) in
      let is_active := default (Some (Site.is_active site)) (su_is_active site_data) in
      match name, is_active with
      | Some name, Some is_active =>
          if negb (String.eqb name (Site.name site))
             && bool_decide (name ∈ map Site.name (sites s))
          then (Raise StoreError, s)
          else
            let site :=
              Site.mk (Site.site_id site) name description is_active
                      (Site.created_at site) in
            (Ok (Some site), set_sites (replace_first by_id site (sites s)) s)
      | _, _ => (Raise StoreError, s)
      end
  end.

Definition delete_site {orm : SessionDelete} (site_id : Z) (hard_delete : bool)
    : M bool := fun s =>
  let by_id := fun x => Site.site_id x =? site_id in
  match find by_id (sites s) with
  | None => (Ok false, s)
  | Some site =>
      if hard_delete then
        match session_delete_site site s with
        | Some s' => (Ok true, s')
        | None => (Ok false, s)           (* except Exception: rollback *)
        end
      else
        let site :=
          Site.mk (Site.site_id site) (Site.name site) (Site.description site) false
                  (Site.created_at site) in
        (Ok true, set_sites (replace_first by_id site (sites s)) s)
  end.

Context {sql : SqlText}.

Definition get_all_sites (pagination_params : option (option Z * option Z))
    (active_only : bool) : M (PaginatedResult.t Site.t) := fun s =>
  let query := if active_only then List.filter Site.is_active (sites s) else sites s in
  let query := order_by_name query in
  let total := Z.of_nat (length query) in
  match pagination_params with
  | Some (page, page_size) =>
      let page := default 1 page in
      let page_size := default 25 page_size in
      match InteractionRepository.offset_limit ((page - 1) * page_size) page_size query with
      | None => (Raise StoreError, s)
      | Some rows =>
          match PaginatedResult.init (unique_by Site.site_id [] rows) total page page_size with
          | Ok r => (Ok r, s)
          | Raise e => (Raise e, s)
          end
      end
  | None =>
      let items := unique_by Site.site_id [] query in
      match PaginatedResult.init items total 1 (Z.of_nat (length items)) with
      | Ok r => (Ok r, s)
      | Raise e => (Raise e, s)
      end
  end.

(** The rows of [query(Site).join(UserSite, UserSite.site_id == Site.site_id)
    .filter(UserSite.user_id == user_id)]: one per matching membership. *)
Definition user_site_rows (user_id : Z) (s : Store) : list Site.t :=
  flat_map
    (fun x =>
       map (fun _ => x) (List.filter (is_pair user_id (Site.site_id x)) (user_sites s)))
    (sites s).

Definition get_user_sites (user_id : Z) (active_only : bool) : M (list Site.t) :=
  gets (fun s =>
    let query := user_site_rows user_id s in
    let query := if active_only then List.filter Site.is_active query else query in
    unique_by Site.site_id [] (order_by_name query)).
End WithExternal.
End SiteRepository.

(** ** sites/services.py and the create_site controller *)

Definition DEFAULT_SITE_ROLE : string := "user".
Definition ADMIN_ROLE : string := "admin".

Module SiteService.
Section WithExternal.
Context {ext : External}.

Definition create_site (site_data : SiteData) (now : Z) : M Site.t :=
  match sd_name site_data with
  | None | Some "" => raise (ValueError "Site name is required")
  | Some name =>
      existing_site ← SiteRepository.get_site_by_name name;
      match existing_site with
      | Some _ => raise (ValueError ("Site with name '" ++ name ++ "' already exists"))
      | None => SiteRepository.create_site site_data now
      end
  end.

Definition valid_role (role : string) : bool :=
  bool_decide (role ∈ [DEFAULT_SITE_ROLE; ADMIN_ROLE]).

Definition invalid_role_message (role : string) : string :=
  "Invalid role: " ++ role ++ ". Must be one of: " ++ DEFAULT_SITE_ROLE ++ ", " ++ ADMIN_ROLE.

Definition add_user_to_site (user_id site_id : Z) (role : string) (now : Z)
    : M (option UserSite.t) :=
  site ← SiteRepository.get_site_by_id site_id;
  match site with
  | None => raise (ValueError ("Site with ID " ++ pretty site_id ++ " not found"))
  | Some _ =>
      let role := lower role in
      if negb (valid_role role) then raise (ValueError (invalid_role_message role))
      else SiteRepository.add_user_to_site user_id site_id role now
  end.

(** [for user in users_result.items: if role == ADMIN_ROLE: admin_count += 1]. *)
Fixpoint count_admins (site_id : Z) (items : list User.t) (admin_count : Z) : M Z :=
  match items with
  | [] => mret admin_count
  | user :: rest =>
      role ← SiteRepository.get_user_role_for_site (User.id user) site_id;
      count_admins site_id rest
        (if bool_decide (role = Some ADMIN_ROLE) then admin_count + 1 else admin_count)
  end.

Definition get_admin_count_for_site (site_id : Z) : M Z :=
  users_result ← SiteRepository.get_site_users site_id None;
  count_admins site_id (PaginatedResult.items users_result) 0.

Definition remove_user_from_site (user_id site_id : Z) : M bool :=
  site ← SiteRepository.get_site_by_id site_id;
  match site with
  | None => mret false
  | Some _ =>
      user_role ← SiteRepository.get_user_role_for_site user_id site_id;
      if bool_decide (user_role = Some ADMIN_ROLE) then
        admin_count ← get_admin_count_for_site site_id;
        if admin_count <=? 1 then mret false
        else SiteRepository.remove_user_from_site user_id site_id
      else SiteRepository.remove_user_from_site user_id site_id
  end.

Definition update_user_site_role (user_id site_id : Z) (new_role : string)
    : M (option UserSite.t) :=
  site ← SiteRepository.get_site_by_id site_id;
  match site with
  | None => mret None
  | Some _ =>
      let new_role := lower new_role in
      if negb (valid_role new_role) then raise (ValueError (invalid_role_message new_role))
      else
        current_role ← SiteRepository.get_user_role_for_site user_id site_id;
        if bool_decide (current_role = Some ADMIN_ROLE)
           && negb (String.eqb new_role ADMIN_ROLE) then
          admin_count ← get_admin_count_for_site site_id;
          if admin_count <=? 1 then
            raise (ValueError
              "Cannot change role: this would leave the site without an admin user")
          else SiteRepository.update_user_site_role user_id site_id new_role
        else SiteRepository.update_user_site_role user_id site_id new_role
  end.

(** [get_site_by_name(None)] compares the NOT NULL column with NULL: no
    row. *)
Definition update_site (site_id : Z) (site_data : SiteUpdate) : M (option Site.t) :=
  site ← SiteRepository.get_site_by_id site_id;
  match site with
  | None => mret None
  | Some site =>
      let update := SiteRepository.update_site site_id site_data in
      match su_name site_data with
      | Some name =>
          if bool_decide (name ≠ Some (Site.name site)) then
            existing_site ←
              match name with
              | Some name => SiteRepository.get_site_by_name name
              | None => mret None
              end;
            match existing_site with
            | Some existing_site =>
                if negb (Site.site_id existing_site =? site_id) then
                  raise (ValueError
                    ("Site with name '" ++ default "None" name ++ "' already exists"))
                else update
            | None => update
            end
          else update
      | None => update
      end
  end.

Definition delete_site {orm : SessionDelete} (site_id : Z) (hard_delete : bool)
    : M bool :=
  site ← SiteRepository.get_site_by_id site_id;
  match site with
  | None => mret false
  | Some site =>
      if hard_delete then
        users_result ← SiteRepository.get_site_users site_id None;
        if 0 <? PaginatedResult.total users_result then mret false
        else
          (* site.interactions.count() *)
          count ← gets (fun s =>
            Z.of_nat (length (List.filter
              (fun i => Interaction.site_id i =? Site.site_id site) (interactions s))));
          if 0 <? count then mret false
          else SiteRepository.delete_site site_id hard_delete
      else SiteRepository.delete_site site_id hard_delete
  end.

Definition get_site_users (site_id : Z)
    (pagination_params : option (option Z * option Z))
    : M (PaginatedResult.t User.t) :=
  site ← SiteRepository.get_site_by_id site_id;
  match site with
  | None =>
      match PaginatedResult.init [] 0 1 0 with
      | Ok r => mret r
      | Raise e => raise e
      end
  | Some _ => SiteRepository.get_site_users site_id pagination_params
  end.

Definition verify_user_site_access (user_id site_id : Z) : M bool :=
  SiteRepository.user_has_site_access user_id site_id.

Definition get_user_site_role (user_id site_id : Z) : M (option string) :=
  SiteRepository.get_user_role_for_site user_id site_id.

Definition is_user_site_admin (user_id site_id : Z) : M bool :=
  role ← get_user_site_role user_id site_id;
  mret (bool_decide (role = Some ADMIN_ROLE)).

Context {sql : SqlText}.

Definition get_sites (pagination_params : option (option Z * option Z))
    (active_only : bool) : M (PaginatedResult.t Site.t) :=
  SiteRepository.get_all_sites pagination_params active_only.

Definition get_user_sites (user_id : Z) (active_only : bool) : M (list Site.t) :=
  SiteRepository.get_user_sites user_id active_only.
End WithExternal.
End SiteService.

(** [needle in hay] on strings. *)
Fixpoint contains (needle hay : string) : bool :=
  if String.prefix needle hay then true
  else match hay with
       | EmptyString => false
       | String _ hay' => contains needle hay'
       end.

Module SiteController.
Section WithExternal.
Context {ext : External}.

(** sites/controllers.py, create_site, after the schema has validated the
    body; [g_user_id] is [g.user.id]. *)
Definition create_site (g_user_id : Z) (validated_data : SiteData) (now : Z)
    : M Site.t :=
  try_except
    (new_site ← SiteService.create_site validated_data now;
     _ ← SiteService.add_user_to_site g_user_id (Site.site_id new_site) "admin" now;
     mret new_site)
    (fun e =>
       match e with
       | ValueError msg =>
           if contains "already exists" msg then raise (ResourceConflictError msg)
           else raise (ValidationError msg)
       | _ => raise e
       end).
End WithExternal.
End SiteController.

(** ** Redis commands at a clock reading *)

Definition redis_get (now : Z) (key : string) (s : Store) : option string :=
  match redis s !! key with
  | Some (v, Some expires_at) => if now <? expires_at then Some v else None
  | Some (v, None) => Some v
  | None => None
  end.

(** [SET key value EX ex]; the server refuses a non-positive expiry. *)
Definition redis_set (now : Z) (key v : string) (ex : Z) : M unit :=
  if ex <=? 0 then raise StoreError
  else modify (fun s => set_redis (<[key := (v, Some (now + ex))]> (redis s)) s).

Definition redis_delete (key : string) : M unit :=
  modify (fun s => set_redis (delete key (redis s)) s).

(** ** utils/security.py *)

Module Security.
Section WithExternal.
Context {ext : External}.

Definition JWT_EXPIRATION_HOURS : Z := 24.

Definition generate_token (payload : Claims) (secret_key : string)
    (expiration_hours : Z) (now : Z) (token_hex : string) : string :=
  let token_payload :=
    mkClaims (sub payload) (site_ids payload) (claim_sites payload)
             (claim_username payload)
             (Some (now + expiration_hours * 3600)) (Some now) (Some token_hex) in
  jwt_encode token_payload secret_key.

Definition has_required_claims (payload : Claims) : bool :=
  bool_decide (is_Some (exp payload)) && bool_decide (is_Some (iat payload))
  && bool_decide (is_Some (jti payload)).

Definition decode_token (token secret_key : string) (now : Z) : option Claims :=
  match jwt_decode token secret_key now with
  | JwtPayload payload =>
      if negb (has_required_claims payload) then None else Some payload
  | JwtExpiredSignatureError => None
  | JwtInvalidTokenError => None
  end.

Definition PASSWORD_MIN_LENGTH : Z := 8.

(** The character classes of PASSWORD_REGEX.  A character is a code point
    below 256; the decimal digits among these are 0 to 9. *)
Definition is_lower (c : ascii) : bool :=
  let n := nat_of_ascii c in ((97 <=? n) && (n <=? 122))%nat.
Definition is_upper (c : ascii) : bool :=
  let n := nat_of_ascii c in ((65 <=? n) && (n <=? 90))%nat.
Definition is_digit (c : ascii) : bool :=
  let n := nat_of_ascii c in ((48 <=? n) && (n <=? 57))%nat.
Definition is_special (c : ascii) : bool :=
  bool_decide (c ∈ ["@"; "$"; "!"; "%"; "*"; "?"; "&"]%char).

(** What [.*] can run over from the start: the text before the first line
    feed. *)
Fixpoint first_line (s : string) : string :=
  match s with
  | EmptyString => EmptyString
  | String c s' => if Ascii.eqb c "010" then EmptyString else String c (first_line s')
  end.

Fixpoint has_char (p : ascii -> bool) (s : string) : bool :=
  match s with
  | EmptyString => false
  | String c s' => p c || has_char p s'
  end.

(** [re.match(PASSWORD_REGEX, password)]: the four look-aheads from the
    start of the string, then one character of the class. *)
Definition matches_PASSWORD_REGEX (password : string) : bool :=
  let line := first_line password in
  has_char is_lower line && has_char is_upper line
  && has_char is_digit line && has_char is_special line
  && match password with
     | String c _ => is_lower c || is_upper c || is_digit c || is_special c
     | EmptyString => false
     end.

Definition validate_password_strength (password : string) : bool * string :=
  if Z.of_nat (String.length password) <? PASSWORD_MIN_LENGTH then
    (false, "Password must be at least 8 characters long")
  else if negb (matches_PASSWORD_REGEX password) then
    (false, "Password must include uppercase, lowercase, number, and special character")
  else (true, "Password is valid").

(** [hash_password]; [salt] is what [bcrypt.gensalt()] drew. *)
Definition hash_password {bc : Bcrypt} (password salt : string) : string :=
  hashpw password salt.
End WithExternal.
End Security.

(** ** auth/utils.py *)

(** What the middleware reads from a request. *)
Record Request := mkRequest {
  endpoint : option string;
  header_Authorization : option string;
  cookie_access_token : option string;
  arg_site_id : option string
}.

(** The [site_id] argument of [get_site_context] as the middleware passes it:
    an integer, or the query string itself when it was empty. *)
Inductive site_arg :=
| SiteInt (n : Z)
| SiteStr (s : string).

Record SiteContext := mkSiteContext {
  ctx_id : Z;
  available_sites : list Z
}.

(** [auth_header.replace("Bearer ", "")]: every occurrence is removed. *)
Fixpoint remove_Bearer (s : string) : string :=
  match s with
  | String "B" (String "e" (String "a" (String "r" (String "e" (String "r"
      (String " " rest)))))) => remove_Bearer rest
  | String c s' => String c (remove_Bearer s')
  | EmptyString => EmptyString
  end.

Module AuthUtils.
Section WithExternal.
Context {ext : External}.

Definition create_auth_token (user_id : Z) (site_ids : list Z)
    (expiration_hours : Z) (now : Z) (token_hex : string) : string :=
  let payload := mkClaims (Some user_id) (Some site_ids) None None None None None in
  Security.generate_token payload JWT_SECRET_KEY expiration_hours now token_hex.

Definition validate_auth_token (token : string) (now : Z) : M (option Claims) :=
  gets (fun s =>
    if bool_decide (token ∈ TOKEN_BLACKLIST s) then None
    else Security.decode_token token JWT_SECRET_KEY now).

Definition invalidate_token (token : string) : M bool := fun s =>
  if bool_decide (token ∈ TOKEN_BLACKLIST s) then (Ok false, s)
  else (Ok true, set_TOKEN_BLACKLIST ({[token]} ∪ TOKEN_BLACKLIST s) s).

Definition get_token_from_request (request : Request) : option string :=
  let token :=
    match header_Authorization request with
    | Some auth_header =>
        if String.prefix "Bearer " auth_header
        then Some (remove_Bearer auth_header) else None
    | None => None
    end in
  match token with
  | None | Some "" => cookie_access_token request
  | Some _ => token
  end.

Definition get_user_from_token (token_data : Claims) : M (option User.t) :=
  match sub token_data with
  | None | Some 0 => mret None
  | Some user_id => gets (fun s => find (fun u => User.id u =? user_id) (users s))
  end.

Definition get_site_context (token_data : Claims) (site_id : option site_arg)
    : option SiteContext :=
  match default [] (site_ids token_data) with
  | [] => None
  | (first :: _) as site_ids =>
      match site_id with
      | Some (SiteInt n) =>
          if bool_decide (n ∈ site_ids) then Some (mkSiteContext n site_ids) else None
      | Some (SiteStr _) => None
      | None => Some (mkSiteContext first site_ids)
      end
  end.
End WithExternal.
End AuthUtils.

(** ** auth/middlewares.py *)

Definition PUBLIC_ROUTES : list string :=
  ["auth.login"; "auth.logout"; "auth.request_password_reset"; "auth.reset_password"].

Module AuthMiddleware.
Section WithExternal.
Context {ext : External}.

(** The request argument [site_id] as handed to [get_site_context]. *)
Definition requested_site (request : Request) : option site_arg :=
  match arg_site_id request with
  | None => None
  | Some "" => Some (SiteStr "")
  | Some raw => option_map SiteInt (py_int raw)
  end.

(** [auth_middleware]: returns nothing on a public route, otherwise what it
    stores in [g.user] and [g.site_context], or aborts. *)
Definition auth_middleware (request : Request) (now : Z)
    : M (option (User.t * SiteContext)) :=
  if bool_decide (endpoint request ∈ map Some PUBLIC_ROUTES) then mret None
  else
    match AuthUtils.get_token_from_request request with
    | None | Some "" => raise (HTTPAbort 401)
    | Some token =>
        token_data ← AuthUtils.validate_auth_token token now;
        match token_data with
        | None => raise (HTTPAbort 401)
        | Some token_data =>
            user ← AuthUtils.get_user_from_token token_data;
            match user with
            | None => raise (HTTPAbort 401)
            | Some user =>
                if negb (User.is_active user) then raise (HTTPAbort 401)
                else
                  match AuthUtils.get_site_context token_data (requested_site request) with
                  | None => raise (HTTPAbort 403)
                  | Some site_context => mret (Some (user, site_context))
                  end
            end
        end
    end.

(** [flask.g] of one request: the user, the site context and the [site_id]
    entry of the query context, as far as they are set. *)
Record G := mkG {
  g_user : option User.t;
  g_site_context : option SiteContext;
  g_query_context : option Z
}.

Definition site_scoping_middleware (request : Request) (g : G) : G :=
  if bool_decide (endpoint request ∈ map Some PUBLIC_ROUTES) then g
  else
    match g_site_context g with
    | None => g
    | Some site_context =>
        mkG (g_user g) (g_site_context g) (Some (ctx_id site_context))
    end.

(** The two functions [register_middlewares] registers, in their order, on
    the empty [g] of a new request. *)
Definition before_request (request : Request) (now : Z) : M G :=
  authenticated ← auth_middleware request now;
  let g :=
    match authenticated with
    | None => mkG None None None
    | Some (user, site_context) => mkG (Some user) (Some site_context) None
    end in
  mret (site_scoping_middleware request g).

(** The checks the decorators [require_auth] and [require_site_context]
    make before the route function runs. *)
Definition require_auth (g : G) : M unit :=
  match g_user g with
  | None => raise (HTTPAbort 401)
  | Some _ => mret tt
  end.

Definition require_site_context (g : G) : M unit :=
  match g_site_context g with
  | None => raise (HTTPAbort 403)
  | Some _ => mret tt
  end.
End WithExternal.
End AuthMiddleware.

(** ** auth/services.py *)

Definition TOKEN_BLACKLIST_PREFIX : string := "token:blacklist:".
Definition MAX_LOGIN_ATTEMPTS : Z := 5.
Definition LOCKOUT_DURATION : Z := 15 * 60.

Record SiteInfo := mkSiteInfo {
  si_id : Z;
  si_name : string;
  si_role : string;
  si_description : option string
}.

Record LoginResult := mkLoginResult {
  lr_token : string;
  lr_user : User.t;
  lr_sites : list SiteInfo
}.

(** auth/models.py, [User.get_site_ids]. *)
Definition get_site_ids (user : User.t) (s : Store) : list Z :=
  map UserSite.site_id
    (List.filter (fun m => UserSite.user_id m =? User.id user) (user_sites s)).

(** auth/models.py, [User.has_site_access] and [User.get_role_for_site]. *)
Definition has_site_access (user : User.t) (site_id : Z) (s : Store) : bool :=
  bool_decide (site_id ∈ get_site_ids user s).

Definition get_role_for_site (user : User.t) (site_id : Z) (s : Store) : option string :=
  option_map UserSite.role
    (find (fun m => UserSite.site_id m =? site_id)
       (List.filter (fun m => UserSite.user_id m =? User.id user) (user_sites s))).

(** auth/utils.py, [is_valid_site_for_user] and [get_default_site_for_user]. *)
Definition is_valid_site_for_user (user : User.t) (site_id : Z) (s : Store) : bool :=
  has_site_access user site_id s.

Definition get_default_site_for_user (user : User.t) (s : Store) : option Z :=
  match get_site_ids user s with
  | [] => None
  | first :: _ => Some first
  end.

Definition RESET_TOKEN_PREFIX : string := "reset_token:".

(** The dictionary [create_user] is given; [None] is an absent key. *)
Record UserData := mkUserData {
  ud_username : option string;
  ud_email : option string;
  ud_password : option string
}.

(** The dictionary [set_site_context] returns. *)
Record ActiveSite := mkActiveSite {
  as_site_id : Z;
  as_name : string;
  as_role : option string
}.

Module AuthService.
Section WithExternal.
Context {ext : External}.

Definition is_account_locked (username : string) (now : Z) : M bool :=
  gets (fun s => bool_decide (is_Some (redis_get now ("account_locked:" ++ username) s))).

Definition handle_failed_login (username : string) (now : Z) : M bool :=
  let attempt_key := "login_attempts:" ++ username in
  attempts_str ← gets (redis_get now attempt_key);
  match
    match attempts_str with
    | None | Some "" => Some 0
    | Some str => py_int str
    end
  with
  | None => raise (ValueError "invalid literal for int()")
  | Some attempts =>
      let attempts := attempts + 1 in
      _ ← redis_set now attempt_key (pretty attempts) LOCKOUT_DURATION;
      if MAX_LOGIN_ATTEMPTS <=? attempts then
        _ ← redis_set now ("account_locked:" ++ username) "1" LOCKOUT_DURATION;
        mret true
      else mret false
  end.

Definition _reset_failed_login_attempts (username : string) : M unit :=
  _ ← redis_delete ("login_attempts:" ++ username);
  redis_delete ("account_locked:" ++ username).

Definition get_user_sites (user : User.t) : M (list SiteInfo) :=
  gets (fun s =>
    flat_map
      (fun user_site =>
         if UserSite.user_id user_site =? User.id user then
           map (fun site =>
                  mkSiteInfo (Site.site_id site) (Site.name site)
                             (UserSite.role user_site) (Site.description site))
               (List.filter
                  (fun site => (Site.site_id site =? UserSite.site_id user_site)
                               && Site.is_active site)
                  (sites s))
         else [])
      (user_sites s)).

Definition login (username password : string) (now : Z) (token_hex : string)
    : M LoginResult :=
  locked ← is_account_locked username now;
  if (locked : bool) then raise Unauthorized
  else
    let by_username := fun u => String.eqb (User.username u) username in
    user ← gets (fun s => find by_username (users s));
    match user with
    | None => _ ← handle_failed_login username now; raise Unauthorized
    | Some user =>
        if negb (checkpw password (User.password_hash user)) then
          _ ← handle_failed_login username now; raise Unauthorized
        else
          _ ← _reset_failed_login_attempts username;
          (* user.update_last_login(); db.session.commit() *)
          let user := User.set_last_login (Some now) user in
          _ ← modify (fun s => set_users (replace_first by_username user (users s)) s);
          site_ids ← gets (get_site_ids user);
          match site_ids with
          | [] => raise Forbidden
          | _ =>
              sites ← get_user_sites user;
              let token_payload :=
                mkClaims (Some (User.id user)) None (Some site_ids)
                         (Some (User.username user)) None None None in
              let token :=
                Security.generate_token token_payload JWT_SECRET_KEY
                  Security.JWT_EXPIRATION_HOURS now token_hex in
              mret (mkLoginResult token user sites)
          end
    end.

Definition is_token_blacklisted (jti : string) (now : Z) : M bool :=
  gets (fun s => bool_decide (is_Some (redis_get now (TOKEN_BLACKLIST_PREFIX ++ jti) s))).

Definition logout (token : string) (now : Z) : M bool :=
  try_except
    (match Security.decode_token token JWT_SECRET_KEY now with
     | None => raise BadRequest
     | Some payload =>
         match jti payload, exp payload with
         | None, _ | Some "", _ | _, None | _, Some 0 => raise BadRequest
         | Some jti, Some exp =>
             (* datetime.fromtimestamp(exp) - datetime.utcnow() *)
             let ttl := Z.max 0 (exp + local_utc_offset - now) in
             _ ← redis_set now (TOKEN_BLACKLIST_PREFIX ++ jti) "1" ttl;
             mret true
         end
     end)
    (fun e => raise BadRequest).

Definition get_current_user (token : string) (now : Z) : M (option User.t) :=
  match Security.decode_token token JWT_SECRET_KEY now with
  | None => mret None
  | Some payload =>
      blacklisted ←
        match jti payload with
        | None | Some "" => mret false
        | Some jti => is_token_blacklisted jti now
        end;
      if (blacklisted : bool) then mret None
      else
        match sub payload with
        | None | Some 0 => mret None
        | Some user_id => gets (fun s => find (fun u => User.id u =? user_id) (users s))
        end
  end.

Definition associate_user_with_site (user_id site_id : Z) (role : string) (now : Z)
    : M UserSite.t := fun s =>
  match find (fun u => User.id u =? user_id) (users s) with
  | None => (Raise BadRequest, s)
  | Some _ =>
      match find (fun x => Site.site_id x =? site_id) (sites s) with
      | None => (Raise BadRequest, s)
      | Some _ =>
          match find (SiteRepository.is_pair user_id site_id) (user_sites s) with
          | Some existing =>
              let existing := UserSite.set_role role existing in
              (Ok existing,
               set_user_sites
                 (replace_first (SiteRepository.is_pair user_id site_id) existing
                    (user_sites s)) s)
          | None =>
              let user_site :=
                UserSite.mk (fresh_id (map UserSite.id (user_sites s)))
                            user_id site_id role now in
              (Ok user_site, set_user_sites (user_sites s ++ [user_site])%list s)
          end
      end
  end.

Definition set_site_context (user : User.t) (site_id : Z) : M ActiveSite := fun s =>
  match find (fun x => (Site.site_id x =? site_id) && Site.is_active x) (sites s) with
  | None => (Raise Forbidden, s)
  | Some site =>
      if negb (has_site_access user site_id s) then (Raise Forbidden, s)
      else
        let user_site :=
          find (SiteRepository.is_pair (User.id user) site_id) (user_sites s) in
        (Ok (mkActiveSite (Site.site_id site) (Site.name site)
               (option_map UserSite.role user_site)), s)
  end.

Definition verify_site_access (user : User.t) (site_id : Z) : M bool :=
  gets (has_site_access user site_id).

Context {bc : Bcrypt}.

(** [salt] is what [bcrypt.gensalt()] drew.  The commit cannot fail on the
    unique columns: both have just been looked up. *)
Definition create_user (user_data : UserData) (salt : string) : M User.t :=
  match ud_username user_data, ud_email user_data, ud_password user_data with
  | Some (String _ _ as username), Some (String _ _ as email),
    Some (String _ _ as password) =>
      by_username ← gets (fun s =>
        find (fun u => String.eqb (User.username u) username) (users s));
      match by_username with
      | Some _ => raise BadRequest
      | None =>
          by_email ← gets (fun s =>
            find (fun u => String.eqb (User.email u) email) (users s));
          match by_email with
          | Some _ => raise BadRequest
          | None =>
              if negb (Security.validate_password_strength password).1
              then raise BadRequest
              else
                let password_hash := Security.hash_password password salt in
                fun s =>
                  let user :=
                    User.mk (fresh_id (map User.id (users s))) username email
                            password_hash None true in
                  (Ok user, set_users (users s ++ [user])%list s)
          end
      end
  | _, _, _ => raise BadRequest
  end.

(** [user] is the session's object of the row with its id. *)
Definition set_password_hash (user : User.t) (password_hash : string) : M unit :=
  modify (fun s =>
    set_users
      (replace_first (fun u => User.id u =? User.id user)
         (User.mk (User.id user) (User.username user) (User.email user)
                  password_hash (User.last_login user) (User.is_active user))
         (users s)) s).

Definition change_password (user : User.t) (current_password new_password salt : string)
    : M bool :=
  if negb (checkpw current_password (User.password_hash user)) then raise Unauthorized
  else if negb (Security.validate_password_strength new_password).1 then raise BadRequest
  else
    _ ← set_password_hash user (Security.hash_password new_password salt);
    mret true.

(** [reset_token] is what [uuid.uuid4()] drew. *)
Definition request_password_reset (email : string) (reset_token : string) (now : Z)
    : M (option string) :=
  user ← gets (fun s => find (fun u => String.eqb (User.email u) email) (users s));
  match user with
  | None => mret None
  | Some user =>
      _ ← redis_set now (RESET_TOKEN_PREFIX ++ reset_token) (pretty (User.id user))
            (30 * 60);
      mret (Some reset_token)
  end.

Definition reset_password (token new_password salt : string) (now : Z) : M bool :=
  user_id ← gets (redis_get now (RESET_TOKEN_PREFIX ++ token));
  match user_id with
  | None | Some "" => raise BadRequest
  | Some user_id =>
      match py_int user_id with
      | None => raise (ValueError "invalid literal for int()")
      | Some user_id =>
          user ← gets (fun s => find (fun u => User.id u =? user_id) (users s));
          match user with
          | None => raise BadRequest
          | Some user =>
              if negb (Security.validate_password_strength new_password).1
              then raise BadRequest
              else
                _ ← set_password_hash user (Security.hash_password new_password salt);
                _ ← redis_delete (RESET_TOKEN_PREFIX ++ token);
                mret true
          end
      end
  end.
End WithExternal.
End AuthService.

(** ** A stand-in for the external collaborators

    Used to run the code on concrete inputs: one token string, ["tok"],
    decodes (until second 2000) to a payload for user 1 and site 1; rows come
    back in table order; [int] reads unsigned decimals. *)

Module Sample.
Definition payload : Claims :=
  mkClaims (Some 1) (Some [1]) None None (Some 2000) (Some 0) (Some "j1").

Definition decode (token key : string) (now : Z) : jwt_outcome :=
  if String.eqb token "tok" then
    if now <? 2000 then JwtPayload payload else JwtExpiredSignatureError
  else JwtInvalidTokenError.

Definition digit (c : ascii) : option Z :=
  let n := nat_of_ascii c in
  if ((48 <=? n) && (n <=? 57))%nat then Some (Z.of_nat (n - 48)) else None.

Fixpoint digits (acc : Z) (s : string) : option Z :=
  match s with
  | EmptyString => Some acc
  | String c s' =>
      match digit c with
      | Some d => digits (10 * acc + d) s'
      | None => None
      end
  end.

Definition int (s : string) : option Z :=
  match s with
  | EmptyString => None
  | _ => digits 0 s
  end.

(** Some of the names every model class has an attribute under. *)
Definition BASE_ATTRIBUTES : list string :=
  ["__class__"; "__dict__"; "__doc__"; "__module__"; "__weakref__"; "__table__";
   "__mapper__"; "metadata"; "registry"; "query"; "query_class"].

Definition external : External.
Proof.
  refine {|
    JWT_SECRET_KEY := "secret";
    jwt_decode := decode;
    jwt_encode := fun _ _ => "tok";
    checkpw := String.eqb;
    py_int := int;
    local_utc_offset := 0;
    order_by := fun _ _ l => l;
    order_by_username := fun l => l;
    base_attribute := fun name => bool_decide (name ∈ BASE_ATTRIBUTES)
  |}; intros; apply Permutation_refl.
Defined.

Definition interaction (id site : Z) : Interaction.t :=
  Interaction.mk id site "Kickoff" "Meeting" "Ada" 10 "UTC" None None None None
                 7 5 None None.

Definition alice : User.t := User.mk 1 "alice" "alice@example.org" "pw" None true.
Definition bob : User.t := User.mk 2 "bob" "bob@example.org" "pw2" None true.

Definition hq : Site.t := Site.mk 1 "HQ" None true 0.
Definition annex : Site.t := Site.mk 2 "Annex" None true 0.

Definition store (rows : list Interaction.t) (memberships : list UserSite.t) : Store :=
  mkStore rows [hq; annex] [alice; bob] memberships ∅ ∅.

(** The stand-in's pattern matching: the text between the two percent
    signs occurs in the value, whatever the case of the letters; sites come
    back in table order. *)
Definition like (pattern v : string) : bool :=
  contains (lower (substring 1 (String.length pattern - 2) pattern)) (lower v).

Definition sql : SqlText.
Proof.
  refine {| ilike := like; order_by_name := fun l => l |};
    intros; apply Permutation_refl.
Defined.

(** A stand-in whose one token decodes to the given payload until the
    payload's [exp], and a hashing that leaves the password as it is (which
    is what the stand-in's [checkpw] compares with). *)
Definition decode_as (p : Claims) (token key : string) (now : Z) : jwt_outcome :=
  if String.eqb token "tok" then
    match exp p with
    | Some e => if now <? e then JwtPayload p else JwtExpiredSignatureError
    | None => JwtPayload p
    end
  else JwtInvalidTokenError.

Definition external_for (p : Claims) : External.
Proof.
  refine {|
    JWT_SECRET_KEY := "secret";
    jwt_decode := decode_as p;
    jwt_encode := fun _ _ => "tok";
    checkpw := String.eqb;
    py_int := int;
    local_utc_offset := 0;
    order_by := fun _ _ l => l;
    order_by_username := fun l => l;
    base_attribute := fun name => bool_decide (name ∈ BASE_ATTRIBUTES)
  |}; intros; apply Permutation_refl.
Defined.

Definition bcrypt : Bcrypt := {| hashpw := fun password salt => password |}.

(** A database without related rows to care for: the row of the site goes. *)
Definition orm : SessionDelete :=
  {| session_delete_site := fun site s =>
       Some (set_sites
               (remove_first (fun x => Site.site_id x =? Site.site_id site) (sites s)) s) |}.
End Sample.

(** ** Vocabulary of the statements *)

(** The store in which no interaction carries the given id. *)
Definition without_interaction (interaction_id : Z) (s : Store) : Store :=
  set_interactions
    (List.filter (fun i => negb (Interaction.interaction_id i =? interaction_id))
       (interactions s)) s.

(** A site has an administrator when some membership row of the site has
    the role [ADMIN_ROLE]. *)
Definition has_admin (site_id : Z) (s : Store) : Prop :=
  exists m, m ∈ user_sites s /\ UserSite.site_id m = site_id /\ UserSite.role m = ADMIN_ROLE.

Section AdminCount.
Context {ext : External}.

(** The role the repository reports, and the users the count runs over. *)
Definition role_of (user_id site_id : Z) (s : Store) : option string :=
  option_map UserSite.role (find (SiteRepository.is_pair user_id site_id) (user_sites s)).

Definition listed_users (site_id : Z) (s : Store) : list User.t :=
  unique_by User.id [] (order_by_username (SiteRepository.site_user_rows site_id s)).

Definition is_admin_user (site_id : Z) (s : Store) (u : User.t) : bool :=
  bool_decide (role_of (User.id u) site_id s = Some ADMIN_ROLE).

Definition admin_count (site_id : Z) (s : Store) : Z :=
  Z.of_nat (length (List.filter (is_admin_user site_id s) (listed_users site_id s))).
End AdminCount.

(** The membership operations of [SiteService]. *)
Inductive membership_step {ext : External} : Store -> Store -> Prop :=
| step_add_user_to_site user_id site_id role now s :
    membership_step s (SiteService.add_user_to_site user_id site_id role now s).2
| step_remove_user_from_site user_id site_id s :
    membership_step s (SiteService.remove_user_from_site user_id site_id s).2
| step_update_user_site_role user_id site_id new_role s :
    membership_step s (SiteService.update_user_site_role user_id site_id new_role s).2.



(** The rows of the allowed sites, and the items [get_all] returns for a
    page (none when it raises). *)
Definition rows_in_sites (allowed : list Z) (s : Store) : list Interaction.t :=
  filter (fun i => Interaction.site_id i ∈ allowed) (interactions s).


(** The store that holds only the interactions matching the filters. *)
Definition matching_only {sql : SqlText} (filters : SearchFilters) (s : Store) : Store :=
  set_interactions (List.filter (InteractionRepository.matches filters) (interactions s)) s.

(** Login attempts with the same credentials at the given times, one after
    the other: their outcomes and the store they leave. *)
Fixpoint login_attempts {ext : External} (username password token_hex : string)
    (times : list Z) (s : Store) : list (result LoginResult) * Store :=
  match times with
  | [] => ([], s)
  | now :: rest =>
      let (outcome, s1) := AuthService.login username password now token_hex s in
      let (outcomes, s2) := login_attempts username password token_hex rest s1 in
      (outcome :: outcomes, s2)
  end.

(** Times that do not go back, each less than [LOCKOUT_DURATION] seconds
    after the one before. *)
Fixpoint within_lockout_window (t : Z) (times : list Z) : Prop :=
  match times with
  | [] => True
  | t' :: rest => t <= t' < t + LOCKOUT_DURATION /\ within_lockout_window t' rest
  end.

(** Credentials [login] does not accept: no user of that name, or a
    password that does not verify. *)
Definition rejected_credentials {ext : External} (username password : string)
    (s : Store) : Prop :=
  match find (fun u => String.eqb (User.username u) username) (users s) with
  | None => True
  | Some user => checkpw password (User.password_hash user) = false
  end.

(** The counter stands at [k], written at time [t]; the account is locked
    from [t] on when [k] has reached the maximum and not locked otherwise. *)
Definition counter_at (username : string) (k t : Z) (s : Store) : Prop :=
  if MAX_LOGIN_ATTEMPTS <=? k then
    redis s !! ("account_locked:" ++ username) = Some ("1", Some (t + LOCKOUT_DURATION))
  else
    redis s !! ("login_attempts:" ++ username)
    = Some (pretty k, Some (t + LOCKOUT_DURATION))
    /\ forall later, t <= later ->
         redis_get later ("account_locked:" ++ username) s = None.

(** The payload [login] signs for a user at a time: the site ids of the
    user's memberships go under the key [sites]. *)
Definition login_payload (user : User.t) (now : Z) (token_hex : string) (s : Store)
    : Claims :=
  mkClaims (Some (User.id user)) None (Some (get_site_ids user s))
    (Some (User.username user))
    (Some (now + Security.JWT_EXPIRATION_HOURS * 3600)) (Some now) (Some token_hex).

(** The payload [create_auth_token] signs. *)
Definition auth_token_payload (user_id : Z) (site_ids : list Z)
    (expiration_hours now : Z) (token_hex : string) : Claims :=
  mkClaims (Some user_id) (Some site_ids) None None
    (Some (now + expiration_hours * 3600)) (Some now) (Some token_hex).

(** What the membership table is to keep: one row per id and per pair of
    user and site, each row with one of the two roles. *)
Definition memberships_consistent (s : Store) : Prop :=
  NoDup (map UserSite.id (user_sites s))
  /\ NoDup (map (fun m => (UserSite.user_id m, UserSite.site_id m)) (user_sites s))
  /\ Forall (fun m => UserSite.role m ∈ [DEFAULT_SITE_ROLE; ADMIN_ROLE]) (user_sites s).

(** What the table of sites is to keep: one row per id and per name. *)
Definition sites_consistent (s : Store) : Prop :=
  NoDup (map Site.site_id (sites s)) /\ NoDup (map Site.name (sites s)).

(** An update payload that puts no [None] into a NOT NULL column, and the
    row it makes of a site. *)
Definition without_nulls (site_data : SiteUpdate) : Prop :=
  su_name site_data <> Some None /\ su_is_active site_data <> Some None.

Definition updated_site (site_data : SiteUpdate) (site : Site.t) : Site.t :=
  Site.mk (Site.site_id site)
    (match su_name site_data with Some (Some name) => name | _ => Site.name site end)
    (default (Site.description site) (su_description site_data))
    (match su_is_active site_data with
     | Some (Some is_active) => is_active
     | _ => Site.is_active site
     end)
    (Site.created_at site).

(** The row [delete_site] leaves of a site it marks inactive. *)
Definition deactivated (site : Site.t) : Site.t :=
  Site.mk (Site.site_id site) (Site.name site) (Site.description site) false
          (Site.created_at site).

(** * Properties *)

(** ** Rows: first match, replacement and removal *)

Section Rows.
Context {A : Type}.
Implicit Types (p : A -> bool) (l : list A) (x y : A).

Lemma find_None_Forall p l :
  find p l = None <-> (forall x, x ∈ l -> p x = false).
Proof.
  induction l as [|a l IH]; simpl.
  - split; [intros _ x Hx; inversion Hx | done].
  - destruct (p a) eqn:Ha.
    + split; [done|]. intros Hall.
      rewrite (Hall a) in Ha; [done | left].
    + rewrite IH. split.
      * intros Hall x Hx. inversion Hx; subst; auto.
      * intros Hall x Hx. apply Hall. by right.
Qed.

Lemma find_Some_elem p l x : find p l = Some x -> x ∈ l /\ p x = true.
Proof.
  intros Hf. apply find_some in Hf as [Hin Hp].
  split; [by apply list_elem_of_In | done].
Qed.

Lemma find_app_r p l x : p x = true -> is_Some (find p (l ++ [x])).
Proof.
  intros Hp. induction l as [|a l IH]; simpl.
  - rewrite Hp. eauto.
  - destruct (p a); eauto.
Qed.

Lemma find_app_None p l l' : find p l = None -> find p (l ++ l') = find p l'.
Proof.
  induction l as [|a l IH]; simpl; [done|].
  destruct (p a); [done | apply IH].
Qed.

Lemma find_None_filter p l : find p l = None -> List.filter p l = [].
Proof.
  induction l as [|a l IH]; simpl; [done|].
  destruct (p a); [done | apply IH].
Qed.

Lemma remove_first_keeps p l x :
  x ∈ l -> find p l <> Some x -> x ∈ remove_first p l.
Proof.
  induction l as [|a l IH]; simpl; intros Hx Hf; [done|].
  destruct (p a).
  - inversion Hx; subst; [congruence | done].
  - inversion Hx; subst; [left | right; auto].
Qed.

Lemma replace_first_keeps p l x new :
  x ∈ l -> find p l <> Some x -> x ∈ replace_first p new l.
Proof.
  induction l as [|a l IH]; simpl; intros Hx Hf; [done|].
  destruct (p a).
  - inversion Hx; subst; [congruence | by right].
  - inversion Hx; subst; [left | right; auto].
Qed.

Lemma replace_first_new p l new :
  is_Some (find p l) -> new ∈ replace_first p new l.
Proof.
  induction l as [|a l IH]; simpl; intros [y Hy]; [done|].
  destruct (p a); [left | right; eauto].
Qed.

Lemma replace_first_map {B} (f : A -> B) p l x new :
  find p l = Some x -> f new = f x ->
  map f (replace_first p new l) = map f l.
Proof.
  induction l as [|a l IH]; simpl; intros Hf Hnew; [done|].
  destruct (p a).
  - simpl. congruence.
  - simpl. f_equal. auto.
Qed.

Lemma replace_first_filter_length p q l x new :
  find p l = Some x -> q new = q x ->
  length (List.filter q (replace_first p new l)) = length (List.filter q l).
Proof.
  induction l as [|a l IH]; simpl; intros Hf Hq; [done|].
  destruct (p a) eqn:Hpa.
  - simpl. injection Hf as ->. rewrite Hq. by destruct (q x).
  - simpl. destruct (q a); simpl; auto.
Qed.
End Rows.

(** ** C1: records outside the allowed sites are "not found" *)

Section InteractionScoping.

Lemma get_by_id_out_of_scope (s : Store) (interaction_id : Z) (allowed : list Z) :
  (forall i, i ∈ interactions s ->
     Interaction.interaction_id i = interaction_id ->
     Interaction.site_id i ∉ allowed) ->
  InteractionRepository.get_by_id interaction_id allowed s
  = (Raise ResourceNotFoundError, s).
Proof.
  intros Hout. unfold InteractionRepository.get_by_id.
  replace (find _ _) with (@None Interaction.t); [done|].
  symmetry. apply find_None_Forall. intros i Hi.
  unfold InteractionRepository.in_scope.
  destruct (Z.eqb_spec (Interaction.interaction_id i) interaction_id) as [Heq|]; [|done].
  simpl. apply bool_decide_eq_false. auto.
Qed.

Lemma not_found_everywhere (s : Store) (interaction_id : Z) (allowed : list Z)
    (interaction_data : list (string * value)) (user_id now : Z) :
  InteractionRepository.get_by_id interaction_id allowed s
  = (Raise ResourceNotFoundError, s) ->
  InteractionRepository.update interaction_id interaction_data allowed user_id now s
  = (Raise ResourceNotFoundError, s)
  /\ InteractionRepository.delete interaction_id allowed s
     = (Raise ResourceNotFoundError, s).
Proof.
  intros Hget.
  unfold InteractionRepository.update, InteractionRepository.delete, mbind, M_bind.
  by rewrite Hget.
Qed.
End InteractionScoping.

(** C1.  Let [i] be a stored interaction (ids being the primary key) whose
    site is not among the allowed sites.  Then [get_by_id], [update] and
    [delete] on its id all raise ResourceNotFoundError and leave the store
    as it was, and they do exactly the same on the store from which the
    record has been taken away. *)
Theorem out_of_scope_indistinguishable_from_absent
    (s : Store) (i : Interaction.t) (allowed : list Z)
    (interaction_data : list (string * value)) (user_id now : Z) :
  NoDup (map Interaction.interaction_id (interactions s)) ->
  i ∈ interactions s ->
  Interaction.site_id i ∉ allowed ->
  let id := Interaction.interaction_id i in
  let s0 := without_interaction id s in
  InteractionRepository.get_by_id id allowed s = (Raise ResourceNotFoundError, s)
  /\ InteractionRepository.update id interaction_data allowed user_id now s
     = (Raise ResourceNotFoundError, s)
  /\ InteractionRepository.delete id allowed s = (Raise ResourceNotFoundError, s)
  /\ InteractionRepository.get_by_id id allowed s0 = (Raise ResourceNotFoundError, s0)
  /\ InteractionRepository.update id interaction_data allowed user_id now s0
     = (Raise ResourceNotFoundError, s0)
  /\ InteractionRepository.delete id allowed s0 = (Raise ResourceNotFoundError, s0).
Proof.
  intros Hpk Hi Hsite id s0.
  assert (Hs : InteractionRepository.get_by_id id allowed s
               = (Raise ResourceNotFoundError, s)).
  { apply get_by_id_out_of_scope. intros j Hj Hid.
    assert (j = i) as ->; [|done].
    apply list_elem_of_lookup in Hi as [n Hn], Hj as [m Hm].
    assert (n = m) as ->; [|congruence].
    eapply NoDup_lookup; [exact Hpk | |].
    - by rewrite list_lookup_fmap, Hn.
    - rewrite list_lookup_fmap, Hm. simpl. by rewrite Hid. }
  assert (Hs0 : InteractionRepository.get_by_id id allowed s0
                = (Raise ResourceNotFoundError, s0)).
  { apply get_by_id_out_of_scope. intros j Hj Hid. exfalso.
    apply list_elem_of_In, filter_In in Hj as [_ Hj].
    apply negb_true_iff, Z.eqb_neq in Hj. done. }
  destruct (not_found_everywhere s id allowed interaction_data user_id now Hs).
  destruct (not_found_everywhere s0 id allowed interaction_data user_id now Hs0).
  done.
Qed.

Lemma out_of_scope_indistinguishable_from_absent_witness :
  let s := Sample.store [Sample.interaction 1 2; Sample.interaction 3 1] [] in
  InteractionRepository.get_by_id 1 [1] s
  = (Raise ResourceNotFoundError, s)
  /\ InteractionRepository.delete 1 [1] s
     = (Raise ResourceNotFoundError, s).
Proof.
  intros s.
  destruct (out_of_scope_indistinguishable_from_absent
              s (Sample.interaction 1 2) [1] [] 7 100) as (Hget & _ & Hdel & _).
  - simpl. compute_done.
  - apply list_elem_of_here.
  - simpl. compute_done.
  - split; [exact Hget | exact Hdel].
Defined.

(** ** C6: what an update can do to [site_id] *)

Lemma setattr_keeps_site_id (key : string) (v : value) (i i' : Interaction.t) :
  key <> "site_id" ->
  Interaction.setattr key v i = Some i' ->
  Interaction.site_id i' = Interaction.site_id i.
Proof.
  intros Hkey. unfold Interaction.setattr.
  repeat match goal with
         | |- context [String.eqb key ?c] =>
             destruct (String.eqb_spec key c) as [->|?]
         end;
    try congruence;
    try (destruct v; simpl; intros [= <-]; reflexivity);
    try (intros [= <-]; destruct v; reflexivity).
  case_bool_decide; [|by intros [= <-]].
  destruct (Interaction.relationship_accepts key v); [by intros [= <-] | done].
Qed.

Lemma set_fields_keeps_site_id (interaction_data : list (string * value))
    (i i' : Interaction.t) :
  "site_id" ∉ interaction_data.*1 ->
  InteractionRepository.set_fields interaction_data i = Some i' ->
  Interaction.site_id i' = Interaction.site_id i.
Proof.
  revert i. induction interaction_data as [|[key v] rest IH]; simpl; intros i Hnot Hset.
  - congruence.
  - apply not_elem_of_cons in Hnot as [Hkey Hrest].
    destruct (Interaction.hasattr key); [|by apply IH].
    destruct (Interaction.setattr key v i) as [i1|] eqn:Hattr; [|done].
    rewrite (IH i1 Hrest Hset).
    eapply setattr_keeps_site_id; [|exact Hattr]. congruence.
Qed.

Lemma flush_new_keys (attrs : gmap string value) (next_id : Z) (r : Interaction.t) :
  Interaction.flush_new attrs next_id = Some r ->
  Interaction.required Interaction.as_int attrs "site_id" = Some (Interaction.site_id r)
  /\ Interaction.required Interaction.as_int attrs "created_by"
     = Some (Interaction.created_by r).
Proof.
  unfold Interaction.flush_new. intros Hflush.
  repeat match type of Hflush with
         | mbind _ ?m = Some _ =>
             let E := fresh "E" in
             destruct m eqn:E; simpl in Hflush; [|discriminate Hflush]
         end.
  injection Hflush as Hr. subst r. split; reflexivity.
Qed.

(** A completed [create] stores the record under the site and the user it
    was called with, whatever the payload says. *)
Lemma create_sets_site_id (interaction_data : list (string * value))
    (site_id user_id now : Z) (s s' : Store) (r : Interaction.t) :
  InteractionRepository.create interaction_data site_id user_id now s = (Ok r, s') ->
  Interaction.site_id r = site_id
  /\ Interaction.created_by r = user_id
  /\ interactions s' = (interactions s ++ [r])%list.
Proof.
  unfold InteractionRepository.create, try_except, raise.
  destruct (existsb _ _); [done|].
  destruct (Interaction.flush_new _ _) as [row|] eqn:Hflush; [|done].
  destruct (bool_decide (Interaction.interaction_id row ∈ _)); simpl; [done|].
  intros [= -> <-].
  apply flush_new_keys in Hflush as [Hsite Hby].
  unfold Interaction.required in *.
  rewrite !lookup_insert_ne, lookup_insert_eq in Hsite by done.
  rewrite !lookup_insert_ne, lookup_insert_eq in Hby by done.
  simpl in *. by injection Hsite as <-; injection Hby as <-.
Qed.

(** The payload's own [site_id] loses against the site of the call. *)
Example create_ignores_payload_site_id :
  let payload :=
    [("title", VStr "Kickoff"); ("type", VStr "Meeting"); ("lead", VStr "Ada");
     ("start_datetime", VDateTime 10); ("timezone", VStr "UTC"); ("site_id", VInt 2)] in
  (InteractionRepository.create payload 1 7 100 (Sample.store [] [])).1
  = Ok (Interaction.mk 1 1 "Kickoff" "Meeting" "Ada" 10 "UTC" None None None None
          7 100 (Some 7) (Some 100)).
Proof. vm_compute. reflexivity. Qed.

(** C6, as the code has it.  [create] stores a record under the site it is
    called with, whatever the payload.  For an interaction the lookup finds
    and a payload without the key [site_id] (the update schema declares no
    such field), a completed [InteractionRepository.update] returns and
    stores the record with the site id it had, and no row of the table
    changes its site id. *)
Theorem update_without_site_id_key_keeps_site_id
    (s s' : Store) (interaction_id : Z) (interaction_data : list (string * value))
    (allowed : list Z) (user_id now : Z) (i i' : Interaction.t) :
  InteractionRepository.get_by_id interaction_id allowed s = (Ok i, s) ->
  "site_id" ∉ interaction_data.*1 ->
  InteractionRepository.update interaction_id interaction_data allowed user_id now s
  = (Ok i', s') ->
  Interaction.site_id i' = Interaction.site_id i
  /\ i' ∈ interactions s'
  /\ map Interaction.site_id (interactions s') = map Interaction.site_id (interactions s)
  /\ (forall payload site_id creator t s1 s2 r,
        InteractionRepository.create payload site_id creator t s1 = (Ok r, s2) ->
        Interaction.site_id r = site_id /\ interactions s2 = (interactions s1 ++ [r])%list).
Proof.
  intros Hget Hkey.
  enough (Hupdate :
    InteractionRepository.update interaction_id interaction_data allowed user_id now s
    = (Ok i', s') ->
    Interaction.site_id i' = Interaction.site_id i
    /\ i' ∈ interactions s'
    /\ map Interaction.site_id (interactions s')
       = map Interaction.site_id (interactions s)).
  { intros Hdone. destruct (Hupdate Hdone) as (? & ? & ?). do 3 (split; [done|]).
    intros payload site_id creator t s1 s2 r Hcreate.
    by destruct (create_sets_site_id _ _ _ _ _ _ _ Hcreate) as (? & _ & ?). }
  unfold InteractionRepository.update, mbind, M_bind. rewrite Hget.
  unfold InteractionRepository.get_by_id in Hget.
  destruct (find _ (interactions s)) as [j|] eqn:Hfind; [|done].
  injection Hget as ->.
  unfold try_except.
  destruct (InteractionRepository.set_fields interaction_data i) as [i1|] eqn:Hset;
    simpl; [|done].
  destruct (negb _ && bool_decide _); [done|].
  intros [= <- <-]. simpl.
  pose proof (set_fields_keeps_site_id _ _ _ Hkey Hset) as Hsite.
  split; [done|]. split.
  - apply replace_first_new. rewrite Hfind. eauto.
  - eapply replace_first_map; [exact Hfind | done].
Qed.

Lemma update_without_site_id_key_keeps_site_id_witness :
  let s := Sample.store [Sample.interaction 1 1] [] in
  exists i' s',
    InteractionRepository.update 1 [("title", VStr "Review")] [1] 7 100 s = (Ok i', s')
    /\ Interaction.site_id i' = 1
    /\ map Interaction.site_id (interactions s') = [1].
Proof.
  intros s.
  destruct (InteractionRepository.update 1 [("title", VStr "Review")] [1] 7 100 s)
    as [[i'|] s'] eqn:Hupdate; [|discriminate Hupdate].
  exists i', s'. split; [reflexivity|].
  destruct (update_without_site_id_key_keeps_site_id
              s s' 1 [("title", VStr "Review")] [1] 7 100
              (Sample.interaction 1 1) i') as (Hsite & _ & Hall & _).
  - reflexivity.
  - simpl. compute_done.
  - exact Hupdate.
  - split; [exact Hsite | exact Hall].
Defined.

(** C6, as the claim states it, fails: a payload that carries the key
    [site_id] moves the record to another site. *)
Lemma update_with_site_id_key_moves_the_record :
  let s := Sample.store [Sample.interaction 1 1] [] in
  exists i i' s',
    InteractionRepository.get_by_id 1 [1] s = (Ok i, s)
    /\ InteractionRepository.update 1 [("site_id", VInt 2)] [1] 7 100 s = (Ok i', s')
    /\ Interaction.site_id i = 1
    /\ Interaction.site_id i' = 2
    /\ map Interaction.site_id (interactions s') = [2].
Proof.
  intros s. eexists _, _, _. repeat split.
Qed.

(** ** C9: clamping of the page size and pages past the end *)

Lemma math_ceil_div_spec (a b : Z) :
  0 < b ->
  (math_ceil_div a b - 1) * b < a <= math_ceil_div a b * b.
Proof.
  intros Hb. unfold math_ceil_div.
  pose proof (Z.div_mod (- a) b ltac:(lia)) as Hdiv.
  pose proof (Z.mod_pos_bound (- a) b Hb) as Hmod.
  nia.
Qed.

Lemma offset_limit_past_end {A} (rows : list A) (offset limit : Z) :
  0 <= limit < 2 ^ 63 -> Z.of_nat (length rows) <= offset < 2 ^ 63 ->
  InteractionRepository.offset_limit offset limit rows = Some [].
Proof.
  intros Hlimit Hoffset. unfold InteractionRepository.offset_limit.
  replace ((offset <? 0) || (limit <? 0) || (2 ^ 63 <=? offset) || (2 ^ 63 <=? limit))
    with false by lia.
  rewrite drop_ge by lia. by rewrite take_nil.
Qed.

(** C9, as the code has it.  [validate_pagination_params] is total and
    turns a page size above 100 into 100; the listing of interactions takes
    the page size it is called with, so that it is for the caller to pass
    the validated one, and then a page holds at most 100 items.  For a page
    size of at least one and a page number past the last page, both such
    that the database accepts the LIMIT and the OFFSET (64-bit integers),
    [get_all] returns (sorting by a column, or by [created_at] for a name
    under which the class has no attribute) an empty item list with the
    number of rows in the allowed sites as [total] and, as [total_pages],
    the least number of pages of that size that hold them (one when there
    are none). *)
Theorem page_size_clamped_and_page_past_end_empty {ext : External}
    (s : Store) (allowed : list Z) (page page_size per_page : Z)
    (requested_page : option Z) (sort_field sort_direction : string) :
  let in_sites := filter (fun i => Interaction.site_id i ∈ allowed) (interactions s) in
  let total := Z.of_nat (length in_sites) in
  let last_page := if 0 <? total then math_ceil_div total page_size else 1 in
  MAX_PER_PAGE < per_page ->
  1 <= page_size < 2 ^ 63 ->
  last_page < page ->
  (page - 1) * page_size < 2 ^ 63 ->
  (sort_field ∈ Interaction.COLUMNS
   \/ InteractionRepository.class_hasattr sort_field = false) ->
  (validate_pagination_params requested_page (Some per_page)).2 = MAX_PER_PAGE
  /\ (forall any_page r' s',
        InteractionRepository.get_all allowed any_page
          (validate_pagination_params requested_page (Some per_page)).2
          sort_field sort_direction s = (Ok r', s') ->
        PaginatedResult.page_size r' = MAX_PER_PAGE
        /\ Z.of_nat (length (PaginatedResult.items r')) <= MAX_PER_PAGE)
  /\ exists r,
       InteractionRepository.get_all allowed page page_size sort_field sort_direction s
       = (Ok r, s)
       /\ PaginatedResult.items r = []
       /\ PaginatedResult.total r = total
       /\ PaginatedResult.total_pages r = last_page
       /\ (0 < total -> (last_page - 1) * page_size < total <= last_page * page_size)
       /\ (total = 0 -> last_page = 1).
Proof.
  intros in_sites total last_page Hmax Hsize Hpage Hfits Hsort.
  assert (Hclamp : (validate_pagination_params requested_page (Some per_page)).2
                   = MAX_PER_PAGE).
  { unfold validate_pagination_params, MAX_PER_PAGE in *. simpl.
    replace (0 <? per_page) with true by lia. lia. }
  split; [exact Hclamp|]. split.
  { intros any_page r' s'. rewrite Hclamp.
    unfold InteractionRepository.get_all, try_except, raise.
    destruct (InteractionRepository.class_hasattr sort_field && negb _); [done|].
    unfold InteractionRepository.offset_limit.
    destruct (_ || _ || _ || _); [done|].
    unfold PaginatedResult.init, MAX_PER_PAGE. rewrite andb_false_r. simpl.
    intros [= <- <-]. simpl. split; [done|]. rewrite length_take. lia. }
  assert (Hspec : 0 < total ->
                  (last_page - 1) * page_size < total <= last_page * page_size).
  { intros Hpos. unfold last_page. replace (0 <? total) with true by lia.
    apply math_ceil_div_spec. lia. }
  assert (Hzero : total = 0 -> last_page = 1).
  { intros Hz. unfold last_page. by replace (0 <? total) with false by lia. }
  assert (Hoffset : total <= (page - 1) * page_size).
  { destruct (Z.eq_dec total 0) as [Hz|Hnz]; [rewrite Hzero in Hpage by done; nia|].
    assert (0 < total) as Hpos by lia. specialize (Hspec Hpos). nia. }
  unfold InteractionRepository.get_all, try_except.
  assert (Hattr : InteractionRepository.class_hasattr sort_field
                  && negb (bool_decide (sort_field ∈ Interaction.COLUMNS)) = false).
  { destruct Hsort as [Hcol|Hno].
    - rewrite (bool_decide_eq_true_2 _ Hcol). apply andb_false_r.
    - by rewrite Hno. }
  rewrite Hattr.
  set (column := if InteractionRepository.class_hasattr sort_field
                 then sort_field else "created_at").
  set (sorted := order_by column _ _).
  assert (Hlen : Z.of_nat (length sorted) = total).
  { unfold sorted, total, in_sites.
    by rewrite (Permutation_length (order_by_Permutation _ _ _)). }
  rewrite offset_limit_past_end by lia.
  replace (page_size =? 0) with false by lia.
  unfold PaginatedResult.init.
  replace ((0 <? Z.of_nat (length sorted)) && (page_size =? 0)) with false by lia.
  eexists. split; [reflexivity|]. simpl. rewrite Hlen. done.
Qed.

Lemma page_size_clamped_and_page_past_end_empty_witness :
  let s := Sample.store
             [Sample.interaction 1 1; Sample.interaction 2 1; Sample.interaction 3 2] [] in
  (validate_pagination_params (Some 1) (Some 1000)).2 = 100
  /\ exists r,
       InteractionRepository.get_all (ext := Sample.external) [1] 3 1 "created_at" "desc" s
       = (Ok r, s)
       /\ PaginatedResult.items r = []
       /\ PaginatedResult.total r = 2
       /\ PaginatedResult.total_pages r = 2.
Proof.
  intros s.
  destruct (page_size_clamped_and_page_past_end_empty (ext := Sample.external)
              s [1] 3 1 1000 (Some 1) "created_at" "desc")
    as (Hclamp & _ & r & Hget & Hitems & Htotal & Hpages & _).
  - reflexivity.
  - lia.
  - reflexivity.
  - reflexivity.
  - left. compute_done.
  - split; [exact Hclamp|]. exists r. repeat split; assumption.
Defined.

(** C9, as the claim states it, fails on the listing of interactions in both
    halves.  The service passes a page size above 100 on as it is, and the
    repository uses it: 101 rows come back on one page.  And a page past the
    last one whose offset is no 64-bit integer is an error, not an empty
    page. *)
Lemma listing_takes_the_page_size_as_given :
  let s := Sample.store (map (fun n => Sample.interaction n 1) (seqZ 1 101)) [] in
  (exists r,
     InteractionService.get_all (ext := Sample.external) 1 1 101 "created_at" "desc" s
     = (Ok r, s)
     /\ PaginatedResult.page_size r = 101
     /\ length (PaginatedResult.items r) = 101%nat)
  /\ InteractionRepository.get_all (ext := Sample.external)
       [1] (2 ^ 63 + 1) 1 "created_at" "desc" s
     = (Raise StoreError, s).
Proof.
  intros s. split.
  - eexists. split; [vm_compute; reflexivity|]. split; reflexivity.
  - vm_compute. reflexivity.
Qed.

(** ** C7: token validation never raises and has one failure value *)

(** C7.  [decode_token] returns [None] when PyJWT rejects the token as
    invalid (malformed or wrongly signed), when it rejects it as expired and
    when the decoded payload lacks one of exp, iat, jti; it returns a payload
    exactly when PyJWT accepted the token with that payload and the three
    claims are present.  [validate_auth_token] never raises, leaves the store
    alone, and returns either [None] or what [decode_token] returned. *)
Theorem token_validation_fails_with_None {ext : External}
    (token : string) (now : Z) (s : Store) :
  let outcome := jwt_decode token JWT_SECRET_KEY now in
  let decoded := Security.decode_token token JWT_SECRET_KEY now in
  (outcome = JwtInvalidTokenError -> decoded = None)
  /\ (outcome = JwtExpiredSignatureError -> decoded = None)
  /\ (forall payload, outcome = JwtPayload payload ->
        exp payload = None \/ iat payload = None \/ jti payload = None ->
        decoded = None)
  /\ (forall payload, decoded = Some payload <->
        outcome = JwtPayload payload
        /\ is_Some (exp payload) /\ is_Some (iat payload) /\ is_Some (jti payload))
  /\ exists v, AuthUtils.validate_auth_token token now s = (Ok v, s)
               /\ (v = None \/ ((token ∉ TOKEN_BLACKLIST s) /\ v = decoded)).
Proof.
  intros outcome decoded. subst decoded. unfold Security.decode_token.
  fold outcome. unfold Security.has_required_claims.
  split; [by intros ->|]. split; [by intros ->|]. split; [|split].
  - intros [? ? ? ? e i j] -> Hmissing; simpl in *.
    destruct e, i, j; try reflexivity; destruct Hmissing as [?|[?|?]]; discriminate.
  - intros payload. split.
    + destruct outcome as [[? ? ? ? e i j]| |]; try done; simpl.
      destruct e, i, j; try done.
      intros [= <-]. simpl. eauto 10.
    + intros (-> & Hexp & Hiat & Hjti).
      by rewrite !bool_decide_eq_true_2.
  - unfold AuthUtils.validate_auth_token, gets. eexists. split; [reflexivity|].
    case_bool_decide; [by left | by right].
Qed.

Lemma token_validation_fails_with_None_witness :
  Security.decode_token (ext := Sample.external) "garbage" "secret" 100 = None
  /\ Security.decode_token (ext := Sample.external) "tok" "secret" 5000 = None
  /\ Security.decode_token (ext := Sample.external) "tok" "secret" 100
     = Some Sample.payload.
Proof.
  destruct (token_validation_fails_with_None (ext := Sample.external)
              "garbage" 100 (Sample.store [] [])) as (Hinvalid & _).
  destruct (token_validation_fails_with_None (ext := Sample.external)
              "tok" 5000 (Sample.store [] [])) as (_ & Hexpired & _).
  destruct (token_validation_fails_with_None (ext := Sample.external)
              "tok" 100 (Sample.store [] [])) as (_ & _ & _ & Hvalid & _).
  split; [apply Hinvalid; reflexivity|].
  split; [apply Hexpired; reflexivity|].
  apply Hvalid. repeat split; eexists; reflexivity.
Defined.

(** ** C8: resolution of the active site context *)

Lemma get_site_context_cases {ext : External} (token_data : Claims)
    (first : Z) (rest : list Z) :
  site_ids token_data = Some (first :: rest) ->
  let ids := first :: rest in
  (forall n, n ∈ ids ->
     AuthUtils.get_site_context token_data (Some (SiteInt n)) = Some (mkSiteContext n ids))
  /\ (forall n, n ∉ ids ->
        AuthUtils.get_site_context token_data (Some (SiteInt n)) = None)
  /\ AuthUtils.get_site_context token_data None = Some (mkSiteContext first ids).
Proof.
  intros Hids ids. unfold AuthUtils.get_site_context. rewrite Hids.
  subst ids. cbn [from_option id].
  split; [|split; [|done]].
  - intros n Hn. by rewrite bool_decide_eq_true_2.
  - intros n Hn. by rewrite bool_decide_eq_false_2.
Qed.

(** C8.  Let the token's site-id list be [first :: rest].  A requested id in
    the list becomes the site context; a requested id outside it yields no
    context; without a requested id the context is [first].  In the
    middleware, for a protected route, a token that validates and an active
    user, these three cases store that context, abort with 403, and store
    the context of [first]. *)
Theorem site_context_resolution {ext : External}
    (request : Request) (now : Z) (s : Store) (token : string)
    (token_data : Claims) (user : User.t) (first : Z) (rest : list Z) :
  let ids := first :: rest in
  site_ids token_data = Some ids ->
  endpoint request ∉ map Some PUBLIC_ROUTES ->
  AuthUtils.get_token_from_request request = Some token ->
  token <> "" ->
  AuthUtils.validate_auth_token token now s = (Ok (Some token_data), s) ->
  AuthUtils.get_user_from_token token_data s = (Ok (Some user), s) ->
  User.is_active user = true ->
  (forall n, n ∈ ids ->
     AuthUtils.get_site_context token_data (Some (SiteInt n)) = Some (mkSiteContext n ids))
  /\ (forall n, n ∉ ids ->
        AuthUtils.get_site_context token_data (Some (SiteInt n)) = None)
  /\ AuthUtils.get_site_context token_data None = Some (mkSiteContext first ids)
  /\ (forall n, AuthMiddleware.requested_site request = Some (SiteInt n) -> n ∈ ids ->
        AuthMiddleware.auth_middleware request now s
        = (Ok (Some (user, mkSiteContext n ids)), s))
  /\ (forall n, AuthMiddleware.requested_site request = Some (SiteInt n) -> n ∉ ids ->
        AuthMiddleware.auth_middleware request now s = (Raise (HTTPAbort 403), s))
  /\ (arg_site_id request = None ->
        AuthMiddleware.auth_middleware request now s
        = (Ok (Some (user, mkSiteContext first ids)), s)).
Proof.
  intros ids Hids Hroute Htoken Hne Hvalid Huser Hactive.
  destruct (get_site_context_cases token_data first rest Hids) as (Hin & Hout & Hdefault).
  do 3 (split; [assumption|]).
  assert (Hrun :
            AuthMiddleware.auth_middleware request now s
            = match AuthUtils.get_site_context token_data
                      (AuthMiddleware.requested_site request) with
              | None => (Raise (HTTPAbort 403), s)
              | Some site_context => (Ok (Some (user, site_context)), s)
              end).
  { unfold AuthMiddleware.auth_middleware.
    rewrite bool_decide_eq_false_2 by done. rewrite Htoken.
    destruct token as [|c token']; [done|].
    unfold mbind, M_bind. rewrite Hvalid, Huser, Hactive. simpl.
    destruct (AuthUtils.get_site_context token_data
                (AuthMiddleware.requested_site request)); reflexivity. }
  repeat split.
  - intros n Hreq Hn. rewrite Hrun, Hreq. by rewrite Hin.
  - intros n Hreq Hn. rewrite Hrun, Hreq. by rewrite Hout.
  - intros Hnone. rewrite Hrun.
    unfold AuthMiddleware.requested_site. rewrite Hnone. by rewrite Hdefault.
Qed.

Lemma site_context_resolution_witness :
  let s := Sample.store [] [] in
  let request := mkRequest (Some "interactions.list") (Some "Bearer tok") None in
  AuthMiddleware.auth_middleware (ext := Sample.external) (request (Some "1")) 100 s
  = (Ok (Some (Sample.alice, mkSiteContext 1 [1])), s)
  /\ AuthMiddleware.auth_middleware (ext := Sample.external) (request (Some "2")) 100 s
     = (Raise (HTTPAbort 403), s)
  /\ AuthMiddleware.auth_middleware (ext := Sample.external) (request None) 100 s
     = (Ok (Some (Sample.alice, mkSiteContext 1 [1])), s).
Proof.
  intros s request.
  destruct (site_context_resolution (ext := Sample.external)
              (request (Some "1")) 100 s "tok" Sample.payload Sample.alice 1 [])
    as (_ & _ & _ & Hin & _); [reflexivity | compute_done | reflexivity | discriminate
                              | reflexivity | reflexivity | reflexivity |].
  destruct (site_context_resolution (ext := Sample.external)
              (request (Some "2")) 100 s "tok" Sample.payload Sample.alice 1 [])
    as (_ & _ & _ & _ & Hout & _); [reflexivity | compute_done | reflexivity | discriminate
                                   | reflexivity | reflexivity | reflexivity |].
  destruct (site_context_resolution (ext := Sample.external)
              (request None) 100 s "tok" Sample.payload Sample.alice 1 [])
    as (_ & _ & _ & _ & _ & Hdefault); [reflexivity | compute_done | reflexivity | discriminate
                                       | reflexivity | reflexivity | reflexivity |].
  split; [|split].
  - apply (Hin 1); [reflexivity | compute_done].
  - apply (Hout 2); [reflexivity | compute_done].
  - apply Hdefault. reflexivity.
Defined.

(** ** C10: no session without a site *)

Lemma get_site_context_without_sites {ext : External}
    (token_data : Claims) (site_id : option site_arg) :
  site_ids token_data = None \/ site_ids token_data = Some [] ->
  AuthUtils.get_site_context token_data site_id = None.
Proof.
  unfold AuthUtils.get_site_context. by intros [-> | ->].
Qed.

(** C10, as the code has it.  For an account that is not locked, a user
    found by the username whose password verifies and who has no site
    membership: [login] raises Forbidden, so no token is returned, and the
    memberships are as before.  A locked account is turned away with
    Unauthorized before anything else is looked at.  A token payload whose
    site-id list is absent or empty yields no site context, whatever site is
    requested. *)
Theorem login_without_sites_is_forbidden {ext : External}
    (s : Store) (username password : string) (now : Z) (token_hex : string)
    (user : User.t) :
  redis_get now ("account_locked:" ++ username) s = None ->
  find (fun u => String.eqb (User.username u) username) (users s) = Some user ->
  checkpw password (User.password_hash user) = true ->
  get_site_ids user s = [] ->
  (exists s', AuthService.login username password now token_hex s = (Raise Forbidden, s')
              /\ user_sites s' = user_sites s)
  /\ (forall locked_name any_password t hex s0,
        is_Some (redis_get t ("account_locked:" ++ locked_name) s0) ->
        AuthService.login locked_name any_password t hex s0 = (Raise Unauthorized, s0))
  /\ (forall token_data site_id,
        site_ids token_data = None \/ site_ids token_data = Some [] ->
        AuthUtils.get_site_context token_data site_id = None).
Proof.
  intros Hunlocked Hfind Hpw Hsites. split; [|split].
  - unfold AuthService.login, AuthService.is_account_locked, mbind, M_bind, gets.
    rewrite Hunlocked. simpl. rewrite Hfind, Hpw. simpl.
    unfold get_site_ids in *. simpl. rewrite Hsites.
    eexists. split; reflexivity.
  - intros locked_name any_password t hex s0 Hlocked.
    unfold AuthService.login, AuthService.is_account_locked, mbind, M_bind, gets.
    by rewrite bool_decide_eq_true_2.
  - intros token_data site_id. apply get_site_context_without_sites.
Qed.

Lemma login_without_sites_is_forbidden_witness :
  let s := Sample.store [] [] in
  exists s', AuthService.login (ext := Sample.external) "alice" "pw" 100 "0f" s
             = (Raise Forbidden, s')
             /\ user_sites s' = [].
Proof.
  intros s.
  destruct (login_without_sites_is_forbidden (ext := Sample.external)
              s "alice" "pw" 100 "0f" Sample.alice) as ((s' & Hlogin & Hsame) & _);
    [reflexivity | reflexivity | reflexivity | reflexivity |].
  exists s'. split; [exact Hlogin | exact Hsame].
Defined.

(** C10, as the claim states it, fails for a locked account: the lock is
    checked first and the same user is turned away with Unauthorized. *)
Lemma login_of_locked_account_is_unauthorized :
  let s := set_redis {["account_locked:alice" := ("1", Some 900)]} (Sample.store [] []) in
  find (fun u => String.eqb (User.username u) "alice") (users s) = Some Sample.alice
  /\ checkpw (External := Sample.external) "pw" (User.password_hash Sample.alice) = true
  /\ get_site_ids Sample.alice s = []
  /\ AuthService.login (ext := Sample.external) "alice" "pw" 100 "0f" s
     = (Raise Unauthorized, s).
Proof.
  intros s. repeat split.
Qed.

(** ** C3: logout and the per-request authentication path *)

Section Revocation.
Context {ext : External}.

(** [logout] writes to Redis only. *)
Lemma logout_writes_redis_only (token : string) (now : Z) (s : Store) :
  exists r, (AuthService.logout token now s).2 = set_redis r s.
Proof.
  unfold AuthService.logout, try_except.
  destruct (Security.decode_token token JWT_SECRET_KEY now) as [payload|];
    [|exists (redis s); by destruct s].
  destruct (jti payload) as [[|c j]|], (exp payload) as [[|e|e]|];
    try (exists (redis s); by destruct s);
    unfold mbind, M_bind, redis_set;
    match goal with
    | |- context [if ?b then _ else _] =>
        destruct b; [exists (redis s); by destruct s | eexists; reflexivity]
    end.
Qed.

(** The middleware never reads Redis. *)
Lemma auth_middleware_ignores_redis (request : Request) (now : Z) (s : Store)
    (r : gmap string (string * option Z)) :
  (AuthMiddleware.auth_middleware request now (set_redis r s)).1
  = (AuthMiddleware.auth_middleware request now s).1.
Proof.
  unfold AuthMiddleware.auth_middleware.
  case_bool_decide; [done|].
  destruct (AuthUtils.get_token_from_request request) as [[|c token]|]; try done.
  unfold mbind, M_bind, AuthUtils.validate_auth_token, gets. simpl.
  case_bool_decide; [done|].
  destruct (Security.decode_token _ _ _) as [token_data|]; [|done].
  unfold AuthUtils.get_user_from_token.
  destruct (sub token_data) as [[|p|p]|]; try done; simpl;
    (destruct (find _ (users s)) as [user|]; [|done]);
    (destruct (User.is_active user); simpl; [|done]);
    by destruct (AuthUtils.get_site_context _ _).
Qed.

(** Whatever was logged out, every later request is answered as if the
    logout had not happened. *)
Lemma logout_does_not_reach_the_middleware (token : string) (now now' : Z)
    (request : Request) (s : Store) :
  (AuthMiddleware.auth_middleware request now' (AuthService.logout token now s).2).1
  = (AuthMiddleware.auth_middleware request now' s).1.
Proof.
  destruct (logout_writes_redis_only token now s) as [r ->].
  apply auth_middleware_ignores_redis.
Qed.
End Revocation.

(** C3 on the code.  The token ["tok"] is valid at second 100; [logout]
    succeeds and records its jti in Redis; one second later a request that
    presents the same token passes the middleware, which consults only the
    process-local [TOKEN_BLACKLIST], while [AuthService.get_current_user],
    which does ask Redis, turns the token away. *)
Theorem logged_out_token_passes_the_middleware :
  let s := Sample.store [] [] in
  let request := mkRequest (Some "interactions.list") (Some "Bearer tok") None None in
  exists s',
    AuthService.logout (ext := Sample.external) "tok" 100 s = (Ok true, s')
    /\ redis_get 101 "token:blacklist:j1" s' = Some "1"
    /\ TOKEN_BLACKLIST s' = ∅
    /\ AuthMiddleware.auth_middleware (ext := Sample.external) request 101 s'
       = (Ok (Some (Sample.alice, mkSiteContext 1 [1])), s')
    /\ AuthService.get_current_user (ext := Sample.external) "tok" 101 s' = (Ok None, s').
Proof.
  intros s request. eexists. split; [reflexivity|]. repeat split.
Qed.

(** ** C2: the last administrator of a site *)

Lemma unique_by_spec {A} (key : A -> Z) (seen : list Z) (l : list A) :
  NoDup (map key (unique_by key seen l))
  /\ (forall x, x ∈ unique_by key seen l -> (key x ∉ seen) /\ x ∈ l).
Proof.
  revert seen. induction l as [|a l IH]; intros seen; simpl.
  - split; [constructor | intros x Hx; inversion Hx].
  - case_bool_decide as Hseen.
    + destruct (IH seen) as [Hnd Hin]. split; [done|].
      intros x Hx. destruct (Hin x Hx). split; [done | by right].
    + destruct (IH (key a :: seen)) as [Hnd Hin]. split.
      * simpl. constructor; [|done].
        intros Hdup. apply list_elem_of_fmap in Hdup as (x & Hkey & Hx).
        destruct (Hin x Hx) as [Hnot _]. apply Hnot. rewrite Hkey. left.
      * intros x Hx. inversion Hx; subst; [split; [done | left]|].
        destruct (Hin x) as [Hnot Hl]; [done|].
        split; [|by right]. intros Hs. apply Hnot. by right.
Qed.

Lemma unique_by_nil {A} (key : A -> Z) (l : list A) :
  unique_by key [] l = [] -> l = [].
Proof.
  destruct l as [|a l]; [done|]. unfold unique_by; fold (@unique_by A).
  rewrite bool_decide_eq_false_2; [done | inversion 1].
Qed.

Section CountingByKey.
Context {A : Type} (key : A -> Z) (P : A -> bool).

Lemma filter_nil_Forall (l : list A) :
  (forall x, x ∈ l -> P x = true -> False) -> List.filter P l = [].
Proof.
  induction l as [|a l IH]; simpl; intros Hall; [done|].
  destruct (P a) eqn:Ha.
  - exfalso. apply (Hall a); [left | done].
  - apply IH. intros x Hx. apply Hall. by right.
Qed.

Lemma filter_cons_elem (l : list A) :
  (0 < length (List.filter P l))%nat -> exists x, x ∈ l /\ P x = true.
Proof.
  induction l as [|a l IH]; simpl; [lia|].
  destruct (P a) eqn:Ha.
  - intros _. exists a. split; [left | done].
  - intros Hlen. destruct (IH Hlen) as (x & Hx & Hp). exists x. split; [by right | done].
Qed.

(** Rows with distinct keys of which only key [k] can satisfy [P]: at most
    one does. *)
Lemma at_most_one_with_key (k : Z) (l : list A) :
  NoDup (map key l) ->
  (forall x, x ∈ l -> P x = true -> key x = k) ->
  (length (List.filter P l) <= 1)%nat.
Proof.
  induction l as [|a l IH]; simpl; intros Hnd Hall; [lia|].
  apply NoDup_cons in Hnd as [Ha Hnd].
  destruct (P a) eqn:Hpa.
  - rewrite filter_nil_Forall; [simpl; lia|].
    intros x Hx Hpx. apply Ha. apply list_elem_of_fmap. exists x. split; [|done].
    rewrite (Hall a), (Hall x); auto using list_elem_of_here, list_elem_of_further.
  - apply IH; [done|]. intros x Hx. apply Hall. by right.
Qed.

(** Two rows satisfying [P] among rows with distinct keys: one of them has
    a key other than [k]. *)
Lemma another_with_other_key (k : Z) (l : list A) :
  NoDup (map key l) ->
  (2 <= length (List.filter P l))%nat ->
  exists x, x ∈ l /\ P x = true /\ key x <> k.
Proof.
  induction l as [|a l IH]; simpl; intros Hnd Hlen; [lia|].
  apply NoDup_cons in Hnd as [Ha Hnd].
  destruct (P a) eqn:Hpa.
  - destruct (Z.eq_dec (key a) k) as [Hk|Hk].
    + simpl in Hlen. destruct (filter_cons_elem l) as (x & Hx & Hpx); [lia|].
      exists x. split; [by right|]. split; [done|].
      intros Hkx. apply Ha. apply list_elem_of_fmap. exists x. split; [congruence | done].
    + exists a. split; [left | done].
  - destruct (IH Hnd Hlen) as (x & Hx & Hrest). exists x. split; [by right | done].
Qed.
End CountingByKey.

Section LastAdmin.
Context {ext : External}.

Lemma get_site_users_all (site_id : Z) (s : Store) :
  exists r, SiteRepository.get_site_users site_id None s = (Ok r, s)
            /\ PaginatedResult.items r = listed_users site_id s.
Proof.
  unfold SiteRepository.get_site_users, PaginatedResult.init. fold (listed_users site_id s).
  set (rows := order_by_username _).
  destruct ((0 <? Z.of_nat (length rows))
            && (Z.of_nat (length (listed_users site_id s)) =? 0)) eqn:Hzero.
  - exfalso. apply andb_true_iff in Hzero as [Hpos Hnone].
    assert (listed_users site_id s = []) as Hnil
      by (apply length_zero_iff_nil; lia).
    apply unique_by_nil in Hnil. fold rows in Hnil. rewrite Hnil in Hpos. discriminate Hpos.
  - eexists. split; reflexivity.
Qed.

Lemma count_admins_spec (site_id : Z) (items : list User.t) (acc : Z) (s : Store) :
  SiteService.count_admins site_id items acc s
  = (Ok (acc + Z.of_nat (length (List.filter (is_admin_user site_id s) items))), s).
Proof.
  revert acc. induction items as [|u items IH]; intros acc; simpl.
  - unfold mret, M_ret. do 2 f_equal. lia.
  - unfold mbind, M_bind, SiteRepository.get_user_role_for_site, gets.
    rewrite IH. unfold is_admin_user at 2, role_of.
    case_bool_decide; simpl; do 2 f_equal; lia.
Qed.

Lemma get_admin_count_for_site_spec (site_id : Z) (s : Store) :
  SiteService.get_admin_count_for_site site_id s = (Ok (admin_count site_id s), s).
Proof.
  unfold SiteService.get_admin_count_for_site, mbind, M_bind.
  destruct (get_site_users_all site_id s) as (r & -> & ->).
  by rewrite count_admins_spec.
Qed.

Lemma remove_user_from_site_spec (user_id site_id : Z) (s : Store) :
  SiteService.remove_user_from_site user_id site_id s
  = match find (fun x => Site.site_id x =? site_id) (sites s) with
    | None => (Ok false, s)
    | Some _ =>
        if bool_decide (role_of user_id site_id s = Some ADMIN_ROLE)
           && (admin_count site_id s <=? 1)
        then (Ok false, s)
        else SiteRepository.remove_user_from_site user_id site_id s
    end.
Proof.
  unfold SiteService.remove_user_from_site, mbind, M_bind,
    SiteRepository.get_site_by_id, SiteRepository.get_user_role_for_site, gets.
  destruct (find _ (sites s)); [|done]. fold (role_of user_id site_id s).
  case_bool_decide; [|done]. simpl.
  rewrite get_admin_count_for_site_spec.
  by destruct (admin_count site_id s <=? 1).
Qed.

Lemma update_user_site_role_spec (user_id site_id : Z) (new_role : string) (s : Store) :
  SiteService.update_user_site_role user_id site_id new_role s
  = match find (fun x => Site.site_id x =? site_id) (sites s) with
    | None => (Ok None, s)
    | Some _ =>
        let role := lower new_role in
        if negb (SiteService.valid_role role)
        then (Raise (ValueError (SiteService.invalid_role_message role)), s)
        else if bool_decide (role_of user_id site_id s = Some ADMIN_ROLE)
                && negb (String.eqb role ADMIN_ROLE)
                && (admin_count site_id s <=? 1)
        then (Raise (ValueError
                "Cannot change role: this would leave the site without an admin user"), s)
        else SiteRepository.update_user_site_role user_id site_id role s
    end.
Proof.
  unfold SiteService.update_user_site_role, mbind, M_bind,
    SiteRepository.get_site_by_id, SiteRepository.get_user_role_for_site, gets.
  destruct (find _ (sites s)); [|done]. simpl.
  destruct (SiteService.valid_role (lower new_role)); [|done]. simpl.
  fold (role_of user_id site_id s).
  destruct (bool_decide _ && negb _); [|done]. simpl.
  rewrite get_admin_count_for_site_spec.
  by destruct (admin_count site_id s <=? 1).
Qed.

(** An admin listed by the count has an admin membership row of the site. *)
Lemma is_admin_user_row (site_id : Z) (s : Store) (u : User.t) :
  is_admin_user site_id s u = true ->
  exists m, m ∈ user_sites s /\ UserSite.user_id m = User.id u
            /\ UserSite.site_id m = site_id /\ UserSite.role m = ADMIN_ROLE.
Proof.
  unfold is_admin_user, role_of. intros Hrole%bool_decide_eq_true.
  destruct (find _ (user_sites s)) as [m|] eqn:Hfind; [|done].
  apply find_Some_elem in Hfind as [Hin Hpair].
  apply andb_true_iff in Hpair as [Hu%Z.eqb_eq Hs%Z.eqb_eq].
  exists m. simpl in Hrole. by injection Hrole.
Qed.

Lemma listed_users_NoDup (site_id : Z) (s : Store) :
  NoDup (map User.id (listed_users site_id s)).
Proof. apply unique_by_spec. Qed.

(** With a single administrator the count is at most one. *)
Lemma only_admin_count (user_id site_id : Z) (s : Store) :
  (forall m, m ∈ user_sites s -> UserSite.site_id m = site_id ->
             UserSite.role m = ADMIN_ROLE -> UserSite.user_id m = user_id) ->
  admin_count site_id s <= 1.
Proof.
  intros Honly. unfold admin_count.
  enough (length (List.filter (is_admin_user site_id s) (listed_users site_id s)) <= 1)%nat
    by lia.
  apply (at_most_one_with_key User.id _ user_id); [apply listed_users_NoDup|].
  intros u _ Hadmin.
  destruct (is_admin_user_row _ _ _ Hadmin) as (m & Hin & <- & Hsite & Hrole).
  by apply Honly.
Qed.

(** A count of two or more: an administrator other than the given user. *)
Lemma other_admin (user_id site_id : Z) (s : Store) :
  1 < admin_count site_id s ->
  exists m, m ∈ user_sites s /\ UserSite.user_id m <> user_id
            /\ UserSite.site_id m = site_id /\ UserSite.role m = ADMIN_ROLE.
Proof.
  unfold admin_count. intros Hcount.
  destruct (another_with_other_key User.id (is_admin_user site_id s) user_id
              (listed_users site_id s)) as (u & _ & Hadmin & Hother);
    [apply listed_users_NoDup | lia |].
  destruct (is_admin_user_row _ _ _ Hadmin) as (m & Hin & Hu & Hsite & Hrole).
  exists m. repeat split; try done. congruence.
Qed.
End LastAdmin.

Section LastAdminKept.
Context {ext : External}.

Lemma find_is_pair (user_id site_id : Z) (l : list UserSite.t) (m : UserSite.t) :
  find (SiteRepository.is_pair user_id site_id) l = Some m ->
  m ∈ l /\ UserSite.user_id m = user_id /\ UserSite.site_id m = site_id.
Proof.
  intros [Hin Hpair]%find_Some_elem.
  apply andb_true_iff in Hpair as [Hu%Z.eqb_eq Hs%Z.eqb_eq]. done.
Qed.

Lemma find_unique_pair (l : list UserSite.t) (m : UserSite.t) :
  NoDup (map (fun x => (UserSite.user_id x, UserSite.site_id x)) l) ->
  m ∈ l ->
  find (SiteRepository.is_pair (UserSite.user_id m) (UserSite.site_id m)) l = Some m.
Proof.
  induction l as [|a l IH]; simpl; intros Hnd Hm; [inversion Hm|].
  apply NoDup_cons in Hnd as [Ha Hnd].
  unfold SiteRepository.is_pair at 1.
  destruct (Z.eqb_spec (UserSite.user_id a) (UserSite.user_id m)) as [Hu|Hu];
    [destruct (Z.eqb_spec (UserSite.site_id a) (UserSite.site_id m)) as [Hs|Hs]|];
    simpl.
  - inversion Hm; subst; [done|]. exfalso. apply Ha.
    apply list_elem_of_fmap. exists m. split; [congruence | done].
  - inversion Hm; subst; [done | auto].
  - inversion Hm; subst; [done | auto].
Qed.

Lemma remove_keeps_admin (user_id site_id site_id0 : Z) (s : Store) :
  has_admin site_id0 s ->
  has_admin site_id0 (SiteService.remove_user_from_site user_id site_id s).2.
Proof.
  intros (m & Hm & Hsite & Hrole). rewrite remove_user_from_site_spec.
  destruct (find _ (sites s)); [|by exists m].
  destruct (bool_decide _ && _) eqn:Hguard; [by exists m|].
  unfold SiteRepository.remove_user_from_site.
  destruct (find _ (user_sites s)) as [m0|] eqn:Hfind; [|by exists m]. simpl.
  destruct (decide (m0 = m)) as [->|Hne].
  - (* the row removed is the admin row: the guard saw a second admin *)
    apply find_is_pair in Hfind as Hm0. destruct Hm0 as (_ & Hu & Hs).
    assert (role_of user_id site_id s = Some ADMIN_ROLE) as Hadmin
      by (unfold role_of; rewrite Hfind; simpl; congruence).
    rewrite (bool_decide_eq_true_2 _ Hadmin) in Hguard. simpl in Hguard.
    destruct (other_admin user_id site_id s) as (m' & Hin' & Hu' & Hs' & Hr'); [lia|].
    exists m'. split; [|split; congruence].
    apply remove_first_keeps; [done|]. rewrite Hfind. congruence.
  - exists m. split; [|done].
    apply remove_first_keeps; [done|]. rewrite Hfind. congruence.
Qed.

Lemma update_keeps_admin (user_id site_id site_id0 : Z) (new_role : string) (s : Store) :
  has_admin site_id0 s ->
  has_admin site_id0 (SiteService.update_user_site_role user_id site_id new_role s).2.
Proof.
  intros (m & Hm & Hsite & Hrole). rewrite update_user_site_role_spec.
  destruct (find _ (sites s)); [|by exists m]. simpl.
  destruct (negb _); [by exists m|].
  destruct (bool_decide _ && _ && _) eqn:Hguard; [by exists m|].
  unfold SiteRepository.update_user_site_role.
  destruct (find _ (user_sites s)) as [m0|] eqn:Hfind; [|by exists m]. simpl.
  destruct (decide (m0 = m)) as [->|Hne].
  - apply find_is_pair in Hfind as Hm0. destruct Hm0 as (_ & Hu & Hs).
    assert (role_of user_id site_id s = Some ADMIN_ROLE) as Hadmin
      by (unfold role_of; rewrite Hfind; simpl; congruence).
    rewrite (bool_decide_eq_true_2 _ Hadmin) in Hguard. simpl in Hguard.
    destruct (String.eqb_spec (lower new_role) ADMIN_ROLE) as [Hnew|Hnew]; simpl in Hguard.
    + (* re-assigned the admin role *)
      exists (UserSite.set_role (lower new_role) m). split; [|done].
      apply replace_first_new. rewrite Hfind. eauto.
    + destruct (other_admin user_id site_id s) as (m' & Hin' & Hu' & Hs' & Hr'); [lia|].
      exists m'. split; [|split; congruence].
      apply replace_first_keeps; [done|]. rewrite Hfind. congruence.
  - exists m. split; [|done].
    apply replace_first_keeps; [done|]. rewrite Hfind. congruence.
Qed.

Lemma add_keeps_admin (user_id site_id site_id0 : Z) (role : string) (now : Z)
    (s : Store) :
  has_admin site_id0 s ->
  has_admin site_id0 (SiteService.add_user_to_site user_id site_id role now s).2.
Proof.
  intros (m & Hm & Hsite & Hrole).
  unfold SiteService.add_user_to_site, mbind, M_bind, SiteRepository.get_site_by_id, gets.
  destruct (find _ (sites s)); [|by exists m].
  destruct (negb _); [by exists m|].
  unfold SiteRepository.add_user_to_site.
  destruct (find _ (user_sites s)); [by exists m|]. simpl.
  exists m. split; [|done]. apply elem_of_app. by left.
Qed.

Lemma membership_step_keeps_admin (s s' : Store) (site_id : Z) :
  membership_step s s' -> has_admin site_id s -> has_admin site_id s'.
Proof.
  intros Hstep Hadmin. destruct Hstep.
  - by apply add_keeps_admin.
  - by apply remove_keeps_admin.
  - by apply update_keeps_admin.
Qed.
End LastAdminKept.

(** C2, as the code has it.  Memberships being unique per (user, site), let
    [m] be an admin membership of an existing site and let no other user
    have one.  Then [remove_user_from_site] for that user returns [False]
    and [update_user_site_role] to any role other than admin raises
    ValueError, both leaving the store as it was.  And whatever the store,
    each membership operation of [SiteService] (add, remove, change role)
    leaves a site that had an administrator with an administrator.  The
    guard is that of [SiteService]: see
    [associate_user_with_site_demotes_the_only_admin] below. *)
Theorem last_admin_cannot_be_removed_or_demoted {ext : External}
    (s : Store) (m : UserSite.t) (site : Site.t) :
  let user_id := UserSite.user_id m in
  let site_id := UserSite.site_id m in
  NoDup (map (fun x => (UserSite.user_id x, UserSite.site_id x)) (user_sites s)) ->
  find (fun x => Site.site_id x =? site_id) (sites s) = Some site ->
  m ∈ user_sites s ->
  UserSite.role m = ADMIN_ROLE ->
  (forall m', m' ∈ user_sites s -> UserSite.site_id m' = site_id ->
              UserSite.role m' = ADMIN_ROLE -> UserSite.user_id m' = user_id) ->
  SiteService.remove_user_from_site user_id site_id s = (Ok false, s)
  /\ (forall new_role, lower new_role <> ADMIN_ROLE ->
        exists msg,
          SiteService.update_user_site_role user_id site_id new_role s
          = (Raise (ValueError msg), s))
  /\ (forall s1 s2 site_id', membership_step s1 s2 ->
        has_admin site_id' s1 -> has_admin site_id' s2).
Proof.
  intros user_id site_id Hunique Hsite Hm Hrole Honly.
  assert (role_of user_id site_id s = Some ADMIN_ROLE) as Hadmin.
  { unfold role_of, user_id, site_id.
    rewrite (find_unique_pair _ _ Hunique Hm). simpl. by rewrite Hrole. }
  pose proof (only_admin_count user_id site_id s Honly) as Hcount.
  split; [|split].
  - rewrite remove_user_from_site_spec, Hsite.
    rewrite (bool_decide_eq_true_2 _ Hadmin). simpl.
    by replace (admin_count site_id s <=? 1) with true by lia.
  - intros new_role Hnew. rewrite update_user_site_role_spec, Hsite. simpl.
    destruct (negb _); [eauto|].
    rewrite (bool_decide_eq_true_2 _ Hadmin). simpl.
    destruct (String.eqb_spec (lower new_role) ADMIN_ROLE); [done|]. simpl.
    replace (admin_count site_id s <=? 1) with true by lia. eauto.
  - intros s1 s2 site_id'. apply membership_step_keeps_admin.
Qed.

Lemma last_admin_cannot_be_removed_or_demoted_witness :
  let s := Sample.store [] [UserSite.mk 1 1 1 "admin" 0; UserSite.mk 2 2 1 "user" 0] in
  SiteService.remove_user_from_site (ext := Sample.external) 1 1 s = (Ok false, s)
  /\ exists msg,
       SiteService.update_user_site_role (ext := Sample.external) 1 1 "User" s
       = (Raise (ValueError msg), s).
Proof.
  intros s.
  destruct (last_admin_cannot_be_removed_or_demoted (ext := Sample.external)
              s (UserSite.mk 1 1 1 "admin" 0) Sample.hq) as (Hremove & Hupdate & _).
  - simpl. compute_done.
  - reflexivity.
  - apply list_elem_of_here.
  - reflexivity.
  - simpl. intros m' Hm' Hsite Hrole.
    apply elem_of_cons in Hm' as [->|Hm']; [reflexivity|].
    apply list_elem_of_singleton in Hm' as ->. discriminate Hrole.
  - split; [exact Hremove|]. apply Hupdate. discriminate.
Defined.

(** C2, as the claim states it, fails: [AuthService.associate_user_with_site]
    is a membership operation too ("update role if association exists"),
    it has no such guard, and it gives the only administrator of a site
    another role, which leaves the site without an administrator. *)
Lemma associate_user_with_site_demotes_the_only_admin :
  let s := Sample.store [] [UserSite.mk 1 1 1 "admin" 0] in
  has_admin 1 s
  /\ exists m s',
       AuthService.associate_user_with_site 1 1 "user" 5 s = (Ok m, s')
       /\ user_sites s' = [UserSite.mk 1 1 1 "user" 0]
       /\ ~ has_admin 1 s'.
Proof.
  intros s. split.
  - exists (UserSite.mk 1 1 1 "admin" 0). split; [apply list_elem_of_here | done].
  - eexists _, _. split; [reflexivity|]. split; [reflexivity|].
    intros (m & Hm & _ & Hrole). simpl in Hm.
    apply list_elem_of_singleton in Hm as ->. discriminate Hrole.
Qed.

(** ** C4: adding a member twice *)

Section RowsAgain.
Context {A : Type}.
Implicit Types (p : A -> bool) (l : list A) (x : A).

Lemma replace_first_same p l x : find p l = Some x -> replace_first p x l = l.
Proof.
  induction l as [|a l IH]; simpl; [done|].
  destruct (p a); [by intros [= ->] | intros Hf; f_equal; auto].
Qed.

Lemma find_replace_first p l new :
  is_Some (find p l) -> p new = true -> find p (replace_first p new l) = Some new.
Proof.
  induction l as [|a l IH]; simpl; intros [y Hy] Hnew; [done|].
  destruct (p a) eqn:Ha; simpl.
  - by rewrite Hnew.
  - rewrite Ha. eauto.
Qed.

Lemma find_Some_filter p l x :
  find p l = Some x -> (0 < length (List.filter p l))%nat.
Proof.
  induction l as [|a l IH]; simpl; [done|].
  destruct (p a); simpl; [lia | auto].
Qed.

Lemma filter_snoc p l x :
  p x = true -> length (List.filter p (l ++ [x])) = S (length (List.filter p l)).
Proof.
  intros Hp. rewrite List.filter_app, length_app. simpl. rewrite Hp. simpl. lia.
Qed.
End RowsAgain.

Lemma is_pair_set_role (user_id site_id : Z) (role : string) (m : UserSite.t) :
  SiteRepository.is_pair user_id site_id (UserSite.set_role role m)
  = SiteRepository.is_pair user_id site_id m.
Proof. reflexivity. Qed.

(** C4, as the code has it.  Let at most one membership row exist for the
    pair and let the user and the site exist.  If a row exists,
    [SiteRepository.add_user_to_site] returns it and changes nothing (the
    role is not updated), while [AuthService.associate_user_with_site]
    assigns it the given role.  With either, a second call with the same
    arguments returns what the first returned and leaves the store of the
    first, and exactly one membership row exists for the pair. *)
Theorem add_member_is_idempotent
    (s : Store) (user_id site_id : Z) (role : string) (now now' : Z) :
  let pair := SiteRepository.is_pair user_id site_id in
  let added := SiteRepository.add_user_to_site user_id site_id role now s in
  let associated := AuthService.associate_user_with_site user_id site_id role now s in
  (length (List.filter pair (user_sites s)) <= 1)%nat ->
  is_Some (find (fun u => User.id u =? user_id) (users s)) ->
  is_Some (find (fun x => Site.site_id x =? site_id) (sites s)) ->
  (forall existing, find pair (user_sites s) = Some existing ->
     added = (Ok (Some existing), s)
     /\ associated.1 = Ok (UserSite.set_role role existing)
     /\ find pair (user_sites associated.2) = Some (UserSite.set_role role existing))
  /\ SiteRepository.add_user_to_site user_id site_id role now' added.2 = added
  /\ AuthService.associate_user_with_site user_id site_id role now' associated.2
     = associated
  /\ length (List.filter pair (user_sites added.2)) = 1%nat
  /\ length (List.filter pair (user_sites associated.2)) = 1%nat.
Proof.
  intros pair added associated Hone [u Hu] [site Hsite].
  subst added associated.
  unfold SiteRepository.add_user_to_site, AuthService.associate_user_with_site.
  rewrite Hu, Hsite. fold pair.
  destruct (find pair (user_sites s)) as [existing|] eqn:Hfind.
  - (* the pair has a row *)
    pose proof (find_Some_filter _ _ _ Hfind) as Hpos.
    assert (Hfind' : find pair (replace_first pair (UserSite.set_role role existing)
                                  (user_sites s))
                     = Some (UserSite.set_role role existing)).
    { apply find_replace_first; [rewrite Hfind; eauto|].
      unfold pair. rewrite is_pair_set_role.
      by apply find_Some_elem in Hfind as [_ ?]. }
    split; [by intros ? [= <-]|]. cbn [fst snd users sites user_sites set_user_sites].
    rewrite Hfind, Hu, Hsite, Hfind'.
    split; [done|]. split.
    + rewrite replace_first_same by done. done.
    + split; [lia|].
      rewrite (replace_first_filter_length pair pair _ existing) by done. lia.
  - (* no row yet *)
    pose proof (find_None_filter _ _ Hfind) as Hnil.
    set (new := UserSite.mk _ user_id site_id role now).
    assert (Hnew : pair new = true).
    { unfold pair, SiteRepository.is_pair, new. simpl. by rewrite !Z.eqb_refl. }
    assert (Hfind' : find pair (user_sites s ++ [new]) = Some new).
    { rewrite find_app_None by done. simpl. by rewrite Hnew. }
    split; [done|]. cbn [fst snd users sites user_sites set_user_sites].
    rewrite Hfind', Hu, Hsite.
    split; [done|]. split.
    + rewrite replace_first_same by done. done.
    + rewrite filter_snoc, Hnil by done. done.
Qed.

Lemma add_member_is_idempotent_witness :
  let s := Sample.store [] [UserSite.mk 1 1 1 "user" 0] in
  SiteRepository.add_user_to_site 1 1 "admin" 50 s
  = (Ok (Some (UserSite.mk 1 1 1 "user" 0)), s)
  /\ (AuthService.associate_user_with_site 1 1 "admin" 50 s).1
     = Ok (UserSite.mk 1 1 1 "admin" 0).
Proof.
  intros s.
  destruct (add_member_is_idempotent s 1 1 "admin" 50 60) as (Hexisting & _).
  - simpl. lia.
  - simpl. eauto.
  - simpl. eauto.
  - destruct (Hexisting (UserSite.mk 1 1 1 "user" 0)) as (Hadd & Hassoc & _);
      [reflexivity|].
    split; [exact Hadd | exact Hassoc].
Defined.

(** C4, as the claim states it, fails for [add_user_to_site]: the existing
    membership keeps its role. *)
Lemma add_user_to_site_keeps_the_existing_role :
  let s := Sample.store [] [UserSite.mk 1 1 1 "user" 0] in
  exists r s',
    SiteService.add_user_to_site 1 1 "admin" 50 s = (Ok (Some r), s')
    /\ UserSite.role r = "user"
    /\ user_sites s' = [UserSite.mk 1 1 1 "user" 0].
Proof.
  intros s. eexists _, _. split; [vm_compute; reflexivity|]. split; reflexivity.
Qed.

(** ** C5: creating a site *)

Lemma fresh_id_gt (ids : list Z) (x : Z) : x ∈ ids -> x < fresh_id ids.
Proof.
  unfold fresh_id. induction ids as [|a ids IH]; simpl; intros Hx; [inversion Hx|].
  inversion Hx; subst; [lia|]. specialize (IH ltac:(done)). lia.
Qed.

Section CreateSite.

Lemma create_site_duplicate (s : Store) (site_data : SiteData) (now : Z)
    (name : string) (existing : Site.t) :
  sd_name site_data = Some name -> name <> "" ->
  find (fun x => String.eqb (Site.name x) name) (sites s) = Some existing ->
  SiteService.create_site site_data now s
  = (Raise (ValueError ("Site with name '" ++ name ++ "' already exists")), s).
Proof.
  intros Hname Hne Hfind. unfold SiteService.create_site. rewrite Hname.
  destruct name as [|c name]; [done|].
  unfold mbind, M_bind, SiteRepository.get_site_by_name, gets. by rewrite Hfind.
Qed.

Lemma create_site_new (s : Store) (site_data : SiteData) (now : Z) (name : string) :
  sd_name site_data = Some name -> name <> "" ->
  find (fun x => String.eqb (Site.name x) name) (sites s) = None ->
  let site :=
    Site.mk (fresh_id (map Site.site_id (sites s))) name (sd_description site_data)
            (default true (sd_is_active site_data)) now in
  SiteService.create_site site_data now s
  = (Ok site, set_sites (sites s ++ [site]) s).
Proof.
  intros Hname Hne Hfind. unfold SiteService.create_site. rewrite Hname.
  destruct name as [|c name]; [done|].
  unfold mbind, M_bind, SiteRepository.get_site_by_name, gets. rewrite Hfind.
  unfold SiteRepository.create_site. rewrite Hname.
  rewrite bool_decide_eq_false_2; [done|].
  intros (x & Hx & Hin)%list_elem_of_fmap.
  apply find_None_Forall with (x := x) in Hfind; [|done].
  apply String.eqb_neq in Hfind. congruence.
Qed.
End CreateSite.

(** C5, as the code has it.  A site data whose name an existing site has is
    rejected with ValueError and nothing is stored.  For a new name,
    [SiteService.create_site] stores the site and no membership.  The
    create_site controller then adds the acting user to the new site as
    admin in a separate step: memberships referring only to existing sites,
    the controller returns the site and has stored it together with one new
    admin membership of the acting user. *)
Theorem create_site_then_admin_membership
    (s : Store) (site_data : SiteData) (now : Z) (name : string) (g_user_id : Z) :
  sd_name site_data = Some name ->
  name <> "" ->
  (forall m, m ∈ user_sites s -> UserSite.site_id m ∈ map Site.site_id (sites s)) ->
  (forall existing,
     find (fun x => String.eqb (Site.name x) name) (sites s) = Some existing ->
     exists msg, SiteService.create_site site_data now s = (Raise (ValueError msg), s))
  /\ (find (fun x => String.eqb (Site.name x) name) (sites s) = None ->
      exists site,
        Site.name site = name
        /\ (Site.site_id site ∉ map Site.site_id (sites s))
        /\ SiteService.create_site site_data now s
           = (Ok site, set_sites (sites s ++ [site]) s)
        /\ exists membership,
             UserSite.user_id membership = g_user_id
             /\ UserSite.site_id membership = Site.site_id site
             /\ UserSite.role membership = ADMIN_ROLE
             /\ SiteController.create_site g_user_id site_data now s
                = (Ok site,
                   set_user_sites (user_sites s ++ [membership])
                     (set_sites (sites s ++ [site]) s))).
Proof.
  intros Hname Hne Hfk. split.
  - intros existing Hfind. eexists. by eapply create_site_duplicate.
  - intros Hnew.
    pose proof (create_site_new s site_data now name Hname Hne Hnew) as Hcreate.
    simpl in Hcreate.
    set (site := Site.mk _ name _ _ now) in *.
    assert (Hfresh : Site.site_id site ∉ map Site.site_id (sites s)).
    { intros Hin. apply fresh_id_gt in Hin. simpl in Hin. lia. }
    exists site. do 3 (split; [done|]).
    set (s1 := set_sites (sites s ++ [site]) s) in *.
    eexists (UserSite.mk (fresh_id (map UserSite.id (user_sites s1))) g_user_id
               (Site.site_id site) ADMIN_ROLE now).
    do 3 (split; [reflexivity|]).
    unfold SiteController.create_site, try_except, mbind at 1, M_bind at 1.
    rewrite Hcreate.
    unfold SiteService.add_user_to_site, mbind, M_bind, SiteRepository.get_site_by_id, gets.
    destruct (find_app_r (fun x => Site.site_id x =? Site.site_id site) (sites s) site)
      as [found Hfound]; [apply Z.eqb_refl|].
    cbn [sites s1 set_sites]. rewrite Hfound.
    change (negb (SiteService.valid_role (lower "admin"))) with false. cbv iota.
    unfold SiteRepository.add_user_to_site.
    replace (find _ (user_sites s1)) with (@None UserSite.t); [reflexivity|].
    symmetry. apply find_None_Forall. intros m Hm.
    unfold SiteRepository.is_pair. apply andb_false_iff. right. apply Z.eqb_neq.
    intros Heq. apply Hfresh. rewrite <- Heq. by apply Hfk.
Qed.

Lemma create_site_then_admin_membership_witness :
  let s := Sample.store [] [UserSite.mk 1 1 1 "admin" 0] in
  let data := mkSiteData (Some "Lab") None None in
  (exists msg,
     SiteService.create_site (mkSiteData (Some "HQ") None None) 50 s
     = (Raise (ValueError msg), s))
  /\ exists site s',
       SiteController.create_site 2 data 50 s = (Ok site, s')
       /\ Site.name site = "Lab".
Proof.
  intros s data. split.
  - destruct (create_site_then_admin_membership
                s (mkSiteData (Some "HQ") None None) 50 "HQ" 2) as (Hdup & _).
    + reflexivity.
    + discriminate.
    + simpl. intros m ->%list_elem_of_singleton. simpl. apply list_elem_of_here.
    + apply (Hdup Sample.hq). reflexivity.
  - destruct (create_site_then_admin_membership
                s data 50 "Lab" 2) as (_ & Hnew).
    + reflexivity.
    + discriminate.
    + simpl. intros m ->%list_elem_of_singleton. simpl. apply list_elem_of_here.
    + destruct Hnew as (site & Hname & _ & _ & membership & _ & _ & _ & Hcontroller);
        [reflexivity|].
      exists site. eexists. split; [exact Hcontroller | exact Hname].
Defined.

(** C5, as the claim states it, fails for [SiteService.create_site]: the
    call succeeds, the site is stored, and it has no member. *)
Lemma created_site_has_no_member :
  let s := Sample.store [] [] in
  exists site s',
    SiteService.create_site (mkSiteData (Some "Lab") None None) 50 s = (Ok site, s')
    /\ site ∈ sites s'
    /\ List.filter (fun m => UserSite.site_id m =? Site.site_id site) (user_sites s') = [].
Proof.
  intros s. eexists _, _. split; [vm_compute; reflexivity|].
  split; [|reflexivity]. do 2 apply list_elem_of_further. apply list_elem_of_here.
Qed.

(** ** Listing interactions: site scope, pages and navigation *)

Section Listing.
Context {ext : External}.

(** What a completed [get_all] has computed. *)
Lemma get_all_Ok (allowed : list Z) (page page_size : Z)
    (sort_field sort_direction : string) (s s' : Store)
    (r : PaginatedResult.t Interaction.t) :
  InteractionRepository.get_all allowed page page_size sort_field sort_direction s
  = (Ok r, s') ->
  let column :=
    if InteractionRepository.class_hasattr sort_field then sort_field else "created_at" in
  let sorted :=
    order_by column (String.eqb (lower sort_direction) "desc") (rows_in_sites allowed s) in
  let total := Z.of_nat (length (rows_in_sites allowed s)) in
  let total_pages := if 0 <? total then math_ceil_div total page_size else 1 in
  s' = s
  /\ 0 <= (page - 1) * page_size < 2 ^ 63
  /\ 0 < page_size < 2 ^ 63
  /\ r = PaginatedResult.mk
           (take (Z.to_nat page_size) (drop (Z.to_nat ((page - 1) * page_size)) sorted))
           total page page_size total_pages (page <? total_pages) (1 <? page)
           (if page <? total_pages then Some (page + 1) else None)
           (if 1 <? page then Some (page - 1) else None).
Proof.
  intros Hget column sorted total total_pages.
  unfold InteractionRepository.get_all, try_except, raise in Hget.
  fold (rows_in_sites allowed s) in Hget.
  destruct (InteractionRepository.class_hasattr sort_field && negb _); [done|].
  fold column in Hget. fold sorted in Hget.
  assert (Hlen : Z.of_nat (length sorted) = total).
  { unfold sorted, total. by rewrite (Permutation_length (order_by_Permutation _ _ _)). }
  rewrite Hlen in Hget. unfold InteractionRepository.offset_limit in Hget.
  destruct ((page - 1) * page_size <? 0) eqn:Hoff; [done|].
  destruct (page_size <? 0) eqn:Hneg; [done|].
  destruct (2 ^ 63 <=? (page - 1) * page_size) eqn:Hbig; [done|].
  destruct (2 ^ 63 <=? page_size) eqn:Hwide; [done|]. cbn [orb] in Hget.
  destruct (page_size =? 0) eqn:Hzero; [done|].
  unfold PaginatedResult.init in Hget. rewrite Hzero, andb_false_r in Hget.
  injection Hget as <- <-. repeat split; lia.
Qed.

(** Conversely, a sort attribute the query accepts, a page of at least one
    and a page size of at least one, with a LIMIT and an OFFSET the database
    accepts, always give a result. *)
Lemma get_all_total (allowed : list Z) (page page_size : Z)
    (sort_field sort_direction : string) (s : Store) :
  1 <= page -> 1 <= page_size < 2 ^ 63 -> (page - 1) * page_size < 2 ^ 63 ->
  (sort_field ∈ Interaction.COLUMNS
   \/ InteractionRepository.class_hasattr sort_field = false) ->
  exists r,
    InteractionRepository.get_all allowed page page_size sort_field sort_direction s
    = (Ok r, s).
Proof.
  intros Hpage Hsize Hfits Hsort.
  unfold InteractionRepository.get_all, try_except.
  assert (Hattr : InteractionRepository.class_hasattr sort_field
                  && negb (bool_decide (sort_field ∈ Interaction.COLUMNS)) = false).
  { destruct Hsort as [Hcol|Hno].
    - rewrite (bool_decide_eq_true_2 _ Hcol). apply andb_false_r.
    - by rewrite Hno. }
  rewrite Hattr. unfold InteractionRepository.offset_limit.
  replace ((page - 1) * page_size <? 0) with false by nia.
  replace (page_size <? 0) with false by lia.
  replace (2 ^ 63 <=? (page - 1) * page_size) with false by lia.
  replace (2 ^ 63 <=? page_size) with false by lia. cbn [orb].
  replace (page_size =? 0) with false by lia.
  unfold PaginatedResult.init. replace (page_size =? 0) with false by lia.
  rewrite andb_false_r. eauto.
Qed.
End Listing.

(** X1.  Whatever page, page size and sort order are asked for, a listing
    that [get_all] returns leaves the store as it is, consists of stored
    interactions of the allowed sites only, holds at most [page_size] of
    them, and reports as [total] the number of stored interactions of the
    allowed sites. *)
Theorem get_all_returns_only_rows_of_the_allowed_sites {ext : External}
    (allowed : list Z) (page page_size : Z) (sort_field sort_direction : string)
    (s s' : Store) (r : PaginatedResult.t Interaction.t) :
  InteractionRepository.get_all allowed page page_size sort_field sort_direction s
  = (Ok r, s') ->
  s' = s
  /\ (forall i, i ∈ PaginatedResult.items r ->
        i ∈ interactions s /\ Interaction.site_id i ∈ allowed)
  /\ Z.of_nat (length (PaginatedResult.items r)) <= page_size
  /\ PaginatedResult.total r
     = Z.of_nat (length (filter (fun i => Interaction.site_id i ∈ allowed)
                           (interactions s))).
Proof.
  intros Hget. apply get_all_Ok in Hget as (-> & Hoff & Hsize & ->). simpl.
  split; [done|]. split; [|split; [|done]].
  - intros i Hi. apply subseteq_take, subseteq_drop in Hi.
    rewrite (order_by_Permutation _ _ _) in Hi.
    apply list_elem_of_filter in Hi as [Hsite Hi]. done.
  - rewrite length_take. lia.
Qed.

Lemma get_all_returns_only_rows_of_the_allowed_sites_witness :
  let s := Sample.store
             [Sample.interaction 1 1; Sample.interaction 2 2; Sample.interaction 3 1] [] in
  exists r,
    InteractionRepository.get_all (ext := Sample.external) [1] 1 25 "created_at" "desc" s
    = (Ok r, s)
    /\ (forall i, i ∈ PaginatedResult.items r -> Interaction.site_id i ∈ [1])
    /\ PaginatedResult.total r = 2.
Proof.
  intros s.
  destruct (InteractionRepository.get_all (ext := Sample.external)
              [1] 1 25 "created_at" "desc" s) as [[r|] s'] eqn:Hget;
    [|discriminate Hget].
  destruct (get_all_returns_only_rows_of_the_allowed_sites (ext := Sample.external)
              [1] 1 25 "created_at" "desc" s s' r Hget) as (-> & Hin & _ & Htotal).
  exists r. split; [reflexivity|]. split; [|exact Htotal].
  intros i Hi. by destruct (Hin i Hi).
Defined.

Section Pages.
Context {A : Type}.

End Pages.




(** X3.  In a listing [get_all] returns for a page of at least one,
    [has_next] holds exactly when rows of the allowed sites lie beyond the
    page, and then [next_page] is the following page; [has_prev] holds
    exactly when the page is not the first, and then [prev_page] is the
    preceding page. *)
Theorem get_all_has_next_iff_rows_remain {ext : External}
    (allowed : list Z) (page page_size : Z) (sort_field sort_direction : string)
    (s s' : Store) (r : PaginatedResult.t Interaction.t) :
  1 <= page ->
  InteractionRepository.get_all allowed page page_size sort_field sort_direction s
  = (Ok r, s') ->
  (PaginatedResult.has_next r = true <-> page * page_size < PaginatedResult.total r)
  /\ (PaginatedResult.has_next r = true -> PaginatedResult.next_page r = Some (page + 1))
  /\ (PaginatedResult.has_next r = false -> PaginatedResult.next_page r = None)
  /\ (PaginatedResult.has_prev r = true <-> 1 < page)
  /\ (PaginatedResult.has_prev r = true -> PaginatedResult.prev_page r = Some (page - 1))
  /\ (PaginatedResult.has_prev r = false -> PaginatedResult.prev_page r = None)
  /\ 1 <= PaginatedResult.total_pages r.
Proof.
  intros Hpage Hget. apply get_all_Ok in Hget as (-> & Hoff & Hsize & ->). simpl.
  set (total := Z.of_nat (length (rows_in_sites allowed s))).
  set (total_pages := if 0 <? total then math_ceil_div total page_size else 1).
  assert (Hpages : 1 <= total_pages
                   /\ (page < total_pages <-> page * page_size < total)).
  { unfold total_pages. destruct (0 <? total) eqn:Hpos.
    - pose proof (math_ceil_div_spec total page_size (proj1 Hsize)).
      split; [nia|]. split; nia.
    - split; [lia|]. split; nia. }
  destruct Hpages as [Hone Hnext].
  split; [rewrite Z.ltb_lt; exact Hnext|].
  split; [by intros ->|]. split; [by intros ->|].
  split; [apply Z.ltb_lt|].
  split; [by intros ->|]. split; [by intros ->|]. done.
Qed.

Lemma get_all_has_next_iff_rows_remain_witness :
  let s := Sample.store
             [Sample.interaction 1 1; Sample.interaction 2 1; Sample.interaction 3 1] [] in
  exists r,
    InteractionRepository.get_all (ext := Sample.external) [1] 1 2 "created_at" "desc" s
    = (Ok r, s)
    /\ PaginatedResult.has_next r = true
    /\ PaginatedResult.next_page r = Some 2.
Proof.
  intros s.
  destruct (InteractionRepository.get_all (ext := Sample.external)
              [1] 1 2 "created_at" "desc" s) as [[r|] s'] eqn:Hget;
    [|discriminate Hget].
  destruct (get_all_has_next_iff_rows_remain (ext := Sample.external)
              [1] 1 2 "created_at" "desc" s s' r) as (Hnext & Hpage & _).
  - lia.
  - exact Hget.
  - assert (s' = s) as -> by (injection Hget; congruence).
    assert (Hhas : PaginatedResult.has_next r = true)
      by (injection Hget as <-; reflexivity).
    exists r. split; [reflexivity|]. split; [exact Hhas|]. exact (Hpage Hhas).
Defined.

(** ** Normalised request parameters *)

Lemma ALLOWED_SORT_FIELDS_columns (f : string) :
  f ∈ ALLOWED_SORT_FIELDS -> f ∈ Interaction.COLUMNS.
Proof.
  unfold ALLOWED_SORT_FIELDS, Interaction.COLUMNS.
  rewrite !elem_of_cons. intros H.
  repeat (destruct H as [->|H]; [compute_done|]). by apply elem_of_nil in H.
Qed.

(** X4.  Whatever the request gives as page, page size, sort field and sort
    direction: [validate_pagination_params] returns a page of at least one
    and a page size between 1 and 100, leaving values in that range as they
    are; [validate_sort_params] returns a sort field and a direction from
    the allowed lists, leaving allowed values as they are; and [get_all]
    called with the normalised values returns a listing, of at most 100
    items, without raising, as long as the offset they give is one the
    database accepts (below 2^63); for a page so far out that it is not,
    [get_all] raises. *)
Theorem normalised_parameters_always_give_a_listing {ext : External}
    (allowed : list Z) (page per_page : option Z) (sort_by sort_direction : option string)
    (s : Store) :
  let pagination := validate_pagination_params page per_page in
  let sorting := validate_sort_params sort_by sort_direction in
  1 <= pagination.1
  /\ 1 <= pagination.2 <= MAX_PER_PAGE
  /\ (forall p, page = Some p -> 1 <= p -> pagination.1 = p)
  /\ (forall n, per_page = Some n -> 1 <= n <= MAX_PER_PAGE -> pagination.2 = n)
  /\ sorting.1 ∈ ALLOWED_SORT_FIELDS
  /\ sorting.2 ∈ ALLOWED_SORT_DIRECTIONS
  /\ (forall f, sort_by = Some f -> f ∈ ALLOWED_SORT_FIELDS -> sorting.1 = f)
  /\ (forall d, sort_direction = Some d -> d ∈ ALLOWED_SORT_DIRECTIONS -> sorting.2 = d)
  /\ ((pagination.1 - 1) * pagination.2 < 2 ^ 63 ->
      exists r,
        InteractionRepository.get_all allowed pagination.1 pagination.2
          sorting.1 sorting.2 s = (Ok r, s)
        /\ Z.of_nat (length (PaginatedResult.items r)) <= MAX_PER_PAGE)
  /\ (2 ^ 63 <= (pagination.1 - 1) * pagination.2 ->
      InteractionRepository.get_all allowed pagination.1 pagination.2
        sorting.1 sorting.2 s = (Raise StoreError, s)).
Proof.
  intros pagination sorting.
  assert (Hpage : 1 <= pagination.1).
  { unfold pagination, validate_pagination_params, DEFAULT_PAGE. simpl.
    destruct page as [p|]; [destruct (0 <? p) eqn:Hp|]; lia. }
  assert (Hsize : 1 <= pagination.2 <= MAX_PER_PAGE).
  { unfold pagination, validate_pagination_params, DEFAULT_PER_PAGE, MAX_PER_PAGE. simpl.
    destruct per_page as [n|]; [destruct (0 <? n) eqn:Hn|]; lia. }
  assert (Hfield : sorting.1 ∈ ALLOWED_SORT_FIELDS).
  { unfold sorting, validate_sort_params. simpl.
    destruct sort_by as [f|]; [case_bool_decide; [done|]|]; compute_done. }
  assert (Hdirection : sorting.2 ∈ ALLOWED_SORT_DIRECTIONS).
  { unfold sorting, validate_sort_params. simpl.
    destruct sort_direction as [d|]; [case_bool_decide; [done|]|]; compute_done. }
  do 2 (split; [done|]).
  split.
  { intros p -> Hp. unfold pagination, validate_pagination_params. simpl.
    by replace (0 <? p) with true by lia. }
  split.
  { intros n -> Hn. unfold pagination, validate_pagination_params, MAX_PER_PAGE in *.
    simpl. replace (0 <? n) with true by lia. lia. }
  do 2 (split; [done|]).
  split.
  { intros f -> Hf. unfold sorting, validate_sort_params. simpl.
    by rewrite bool_decide_eq_true_2. }
  split.
  { intros d -> Hd. unfold sorting, validate_sort_params. simpl.
    by rewrite bool_decide_eq_true_2. }
  clearbody pagination sorting. unfold MAX_PER_PAGE in Hsize.
  split.
  - intros Hfits.
    destruct (get_all_total allowed pagination.1 pagination.2 sorting.1 sorting.2 s)
      as [r Hget]; [done | lia | done | left; by apply ALLOWED_SORT_FIELDS_columns |].
    exists r. split; [done|].
    apply get_all_Ok in Hget as (_ & _ & _ & ->).
    cbn [PaginatedResult.items]. rewrite length_take. unfold MAX_PER_PAGE. lia.
  - intros Hfar. unfold InteractionRepository.get_all, try_except.
    rewrite (bool_decide_eq_true_2 (sorting.1 ∈ Interaction.COLUMNS))
      by by apply ALLOWED_SORT_FIELDS_columns.
    rewrite andb_false_r. unfold InteractionRepository.offset_limit.
    replace (2 ^ 63 <=? (pagination.1 - 1) * pagination.2) with true by lia.
    by rewrite orb_true_r.
Qed.

Lemma normalised_parameters_always_give_a_listing_witness :
  let s := Sample.store [Sample.interaction 1 1; Sample.interaction 2 1] [] in
  validate_pagination_params (Some 0) (Some 1000) = (1, 100)
  /\ validate_sort_params (Some "title") (Some "sideways") = ("title", "desc")
  /\ exists r,
       InteractionRepository.get_all (ext := Sample.external) [1] 1 100 "title" "desc" s
       = (Ok r, s)
       /\ Z.of_nat (length (PaginatedResult.items r)) <= 100.
Proof.
  intros s. split; [reflexivity|]. split; [reflexivity|].
  pose proof (normalised_parameters_always_give_a_listing (ext := Sample.external)
                [1] (Some 0) (Some 1000) (Some "title") (Some "sideways") s) as Hall.
  cbv zeta in Hall.
  destruct Hall as (_ & _ & _ & _ & _ & _ & _ & _ & Hlisting & _).
  apply Hlisting. reflexivity.
Defined.

(** X5.  For a page of at least one, a page size of at least one and a
    number of items that is not negative, the latter two below 2^53 (where
    the quotient of the two, a double, has the ceiling of the exact
    quotient), [get_pagination_metadata] reports a page between 1 and
    [total_pages]
    (the given page, or the last page when the given one lies beyond it),
    and a next and a previous page, where it reports them, between 1 and
    [total_pages] too; it reports a next page exactly when rows lie beyond
    the reported page. *)
Theorem pagination_metadata_stays_in_range (total_items page page_size : Z) :
  0 <= total_items < 2 ^ 53 -> 1 <= page -> 1 <= page_size < 2 ^ 53 ->
  exists m,
    Pagination.get_pagination_metadata total_items page page_size = Ok m
    /\ Pagination.total m = total_items
    /\ 1 <= Pagination.page m <= Pagination.total_pages m
    /\ Pagination.page m = Z.min page (Pagination.total_pages m)
    /\ (Pagination.total_pages m - 1) * page_size < Z.max 1 total_items
       <= Pagination.total_pages m * page_size
    /\ (Pagination.has_next m = true
        <-> Pagination.page m * page_size < total_items)
    /\ (forall n, Pagination.next_page m = Some n ->
          n = Pagination.page m + 1 /\ n <= Pagination.total_pages m)
    /\ (forall n, Pagination.prev_page m = Some n ->
          n = Pagination.page m - 1 /\ 1 <= n).
Proof.
  intros Htotal Hpage Hsize. unfold Pagination.get_pagination_metadata.
  replace (page_size =? 0) with false by lia. rewrite andb_false_r.
  eexists. split; [reflexivity|]. simpl.
  set (total_pages := if 0 <? total_items then math_ceil_div total_items page_size else 1).
  assert (Hpages : (total_pages - 1) * page_size < Z.max 1 total_items
                   <= total_pages * page_size).
  { unfold total_pages. destruct (0 <? total_items) eqn:Hpos.
    - pose proof (math_ceil_div_spec total_items page_size ltac:(lia)). lia.
    - lia. }
  assert (1 <= total_pages) by nia.
  split; [done|]. split; [lia|]. split; [done|]. split; [done|].
  split; [|split].
  - rewrite Z.ltb_lt. split; nia.
  - intros n. destruct (Z.min page total_pages <? total_pages) eqn:Hnext; [|done].
    intros [= <-]. lia.
  - intros n. destruct (1 <? Z.min page total_pages) eqn:Hprev; [|done].
    intros [= <-]. lia.
Qed.

Lemma pagination_metadata_stays_in_range_witness :
  exists m,
    Pagination.get_pagination_metadata 45 7 20 = Ok m
    /\ Pagination.page m = 3
    /\ Pagination.total_pages m = 3
    /\ Pagination.next_page m = None
    /\ Pagination.prev_page m = Some 2.
Proof.
  destruct (pagination_metadata_stays_in_range 45 7 20) as (m & Hm & _);
    [lia | lia | lia |].
  exists m. split; [exact Hm|].
  injection Hm as <-. repeat split.
Defined.

(** ** Searching interactions *)

Lemma filter_bool_comm {A} (P : A -> Prop) `{forall x, Decision (P x)}
    (m : A -> bool) (l : list A) :
  List.filter m (filter P l) = filter P (List.filter m l).
Proof.
  induction l as [|a l IH]; [done|].
  rewrite filter_cons. simpl.
  destruct (decide (P a)) as [Ha|Ha], (m a) eqn:Hm; simpl;
    rewrite ?Hm, ?filter_cons; try rewrite decide_True by done;
    try rewrite decide_False by done; by rewrite IH.
Qed.

Lemma filter_bool_elem {A} (m : A -> bool) (l : list A) (x : A) :
  x ∈ List.filter m l <-> x ∈ l /\ m x = true.
Proof. rewrite !list_elem_of_In. apply filter_In. Qed.

Lemma filter_bool_length {A} (m : A -> bool) (l : list A) :
  (length (List.filter m l) <= length l)%nat.
Proof. induction l as [|a l IH]; simpl; [lia|]. destruct (m a); simpl; lia. Qed.

Section Search.
Context {ext : External} {sql : SqlText}.

(** [search] is [get_all] over the matching interactions. *)
Lemma search_get_all_matching (allowed : list Z) (filters : SearchFilters)
    (page page_size : Z) (sort_field sort_direction : string) (s : Store) :
  InteractionRepository.search allowed filters page page_size sort_field sort_direction s
  = ((InteractionRepository.get_all allowed page page_size sort_field sort_direction
        (matching_only filters s)).1, s).
Proof.
  unfold InteractionRepository.search, InteractionRepository.get_all, try_except, raise.
  cbn [matching_only interactions set_interactions].
  rewrite filter_bool_comm.
  destruct (InteractionRepository.class_hasattr sort_field && negb _); [done|].
  destruct (InteractionRepository.offset_limit _ _ _); [|done].
  destruct (page_size =? 0); [done|].
  by destruct (PaginatedResult.init _ _ _ _).
Qed.

Lemma matches_no_filters (i : Interaction.t) :
  InteractionRepository.matches
    (mkSearchFilters None None None None None None None None None None) i = true.
Proof. reflexivity. Qed.

Lemma filter_bool_all {A} (m : A -> bool) (l : list A) :
  (forall x, m x = true) -> List.filter m l = l.
Proof.
  intros Hall. induction l as [|a l IH]; simpl; [done|]. by rewrite Hall, IH.
Qed.
End Search.

(** X6.  Whatever the filters, a listing that [search] returns leaves the
    store as it is and consists of stored interactions of the allowed sites
    that match the filters; its [total] is the number of such rows, so never
    more than what [get_all] reports for the same sites.  Without any
    filter [search] is [get_all]. *)
Theorem search_stays_within_the_allowed_sites {ext : External} {sql : SqlText}
    (allowed : list Z) (filters : SearchFilters) (page page_size : Z)
    (sort_field sort_direction : string) (s s' : Store)
    (r : PaginatedResult.t Interaction.t) :
  InteractionRepository.search allowed filters page page_size sort_field sort_direction s
  = (Ok r, s') ->
  let in_sites := filter (fun i => Interaction.site_id i ∈ allowed) (interactions s) in
  s' = s
  /\ (forall i, i ∈ PaginatedResult.items r ->
        i ∈ interactions s
        /\ Interaction.site_id i ∈ allowed
        /\ InteractionRepository.matches filters i = true)
  /\ PaginatedResult.total r
     = Z.of_nat (length (List.filter (InteractionRepository.matches filters) in_sites))
  /\ PaginatedResult.total r <= Z.of_nat (length in_sites)
  /\ (forall p n f d s0,
        InteractionRepository.search allowed
          (mkSearchFilters None None None None None None None None None None) p n f d s0
        = InteractionRepository.get_all allowed p n f d s0).
Proof.
  intros Hsearch in_sites. rewrite search_get_all_matching in Hsearch.
  destruct (InteractionRepository.get_all _ _ _ _ _ (matching_only filters s))
    as [[r0|e] s0] eqn:Hget; [|discriminate Hsearch].
  injection Hsearch as -> <-.
  apply get_all_Ok in Hget as (_ & _ & _ & ->).
  cbn [PaginatedResult.items PaginatedResult.total].
  assert (Hrows : rows_in_sites allowed (matching_only filters s)
                  = List.filter (InteractionRepository.matches filters) in_sites).
  { unfold rows_in_sites, matching_only, in_sites. simpl. by rewrite filter_bool_comm. }
  rewrite Hrows.
  split; [done|]. split; [|split; [done|split]].
  - intros i Hi. apply subseteq_take, subseteq_drop in Hi.
    rewrite (order_by_Permutation _ _ _) in Hi.
    apply filter_bool_elem in Hi as [Hrow Hmatch].
    apply list_elem_of_filter in Hrow as [Hsite Hrow]. done.
  - pose proof (filter_bool_length (InteractionRepository.matches filters) in_sites). lia.
  - intros p n f d s1. rewrite search_get_all_matching.
    unfold matching_only. rewrite filter_bool_all by apply matches_no_filters.
    replace (set_interactions (interactions s1) s1) with s1 by by destruct s1.
    destruct (InteractionRepository.get_all allowed p n f d s1) as [res s2] eqn:Hall.
    simpl. f_equal.
    unfold InteractionRepository.get_all, try_except, raise in Hall.
    destruct (InteractionRepository.class_hasattr f && negb _); [by injection Hall|].
    destruct (InteractionRepository.offset_limit _ _ _); [|by injection Hall].
    destruct (n =? 0); [by injection Hall|].
    destruct (PaginatedResult.init _ _ _ _); by injection Hall.
Qed.

Lemma search_stays_within_the_allowed_sites_witness :
  let s := Sample.store
             [Sample.interaction 1 1; Sample.interaction 2 2; Sample.interaction 3 1] [] in
  let filters :=
    mkSearchFilters (Some "kick") None None None None None None None None None in
  exists r,
    InteractionRepository.search (ext := Sample.external) (sql := Sample.sql)
      [2] filters 1 25 "created_at" "desc" s = (Ok r, s)
    /\ PaginatedResult.total r = 1
    /\ (forall i, i ∈ PaginatedResult.items r -> Interaction.site_id i ∈ [2]).
Proof.
  intros s filters.
  destruct (InteractionRepository.search (ext := Sample.external) (sql := Sample.sql)
              [2] filters 1 25 "created_at" "desc" s) as [[r|] s'] eqn:Hsearch;
    [|discriminate Hsearch].
  destruct (search_stays_within_the_allowed_sites (ext := Sample.external)
              (sql := Sample.sql) [2] filters 1 25 "created_at" "desc" s s' r Hsearch)
    as (-> & Hin & Htotal & _).
  exists r. split; [reflexivity|]. split; [exact Htotal|].
  intros i Hi. by destruct (Hin i Hi) as (_ & Hsite & _).
Defined.

(** ** Creating, deleting and updating an interaction *)

Section RowsLookup.
Context {A : Type}.
Implicit Types (p q : A -> bool) (l : list A) (x : A).

Lemma find_app p l l' :
  find p (l ++ l') = match find p l with Some x => Some x | None => find p l' end.
Proof. induction l as [|a l IH]; simpl; [done|]. by destruct (p a). Qed.

Lemma remove_first_Permutation p l x :
  find p l = Some x -> Permutation l (x :: remove_first p l).
Proof.
  induction l as [|a l IH]; simpl; [done|].
  destruct (p a).
  - by intros [= ->].
  - intros Hf. rewrite (IH Hf) at 1. apply perm_swap.
Qed.

Lemma find_remove_first_other p q l x :
  find p l = Some x -> q x = false -> find q (remove_first p l) = find q l.
Proof.
  induction l as [|a l IH]; simpl; [done|].
  destruct (p a).
  - intros [= ->] Hq. by rewrite Hq.
  - intros Hf Hq. simpl. destruct (q a); [done | auto].
Qed.

Lemma find_replace_first_other p q l x new :
  find p l = Some x -> q x = false -> q new = false ->
  find q (replace_first p new l) = find q l.
Proof.
  induction l as [|a l IH]; simpl; [done|].
  destruct (p a).
  - intros [= ->] Hq Hnew. simpl. by rewrite Hq, Hnew.
  - intros Hf Hq Hnew. simpl. destruct (q a); [done | auto].
Qed.

Lemma replace_first_Permutation p l x new :
  find p l = Some x ->
  Permutation (x :: replace_first p new l) (new :: l).
Proof.
  induction l as [|a l IH]; simpl; [done|].
  destruct (p a).
  - intros [= ->]. apply perm_swap.
  - intros Hf. rewrite perm_swap, (IH Hf). apply perm_swap.
Qed.
End RowsLookup.

Lemma in_scope_id (interaction_id : Z) (allowed : list Z) (i : Interaction.t) :
  Interaction.interaction_id i <> interaction_id ->
  InteractionRepository.in_scope interaction_id allowed i = false.
Proof.
  intros Hid. unfold InteractionRepository.in_scope.
  by replace (Interaction.interaction_id i =? interaction_id) with false by lia.
Qed.




(** X8.  Interaction identifiers being the primary key, a completed [delete]
    has removed exactly the record [get_by_id] found: afterwards [get_by_id]
    on its identifier raises ResourceNotFoundError whatever sites are
    allowed, look-ups of other identifiers answer as before, and nothing but
    that row has left the store. *)
Theorem deleted_interaction_is_gone
    (interaction_id : Z) (allowed : list Z) (s s' : Store) (b : bool) :
  NoDup (map Interaction.interaction_id (interactions s)) ->
  InteractionRepository.delete interaction_id allowed s = (Ok b, s') ->
  b = true
  /\ (exists i,
        InteractionRepository.get_by_id interaction_id allowed s = (Ok i, s)
        /\ Permutation (interactions s) (i :: interactions s')
        /\ s' = set_interactions (interactions s') s)
  /\ (forall any_sites,
        InteractionRepository.get_by_id interaction_id any_sites s'
        = (Raise ResourceNotFoundError, s'))
  /\ (forall other any_sites, other <> interaction_id ->
        (InteractionRepository.get_by_id other any_sites s').1
        = (InteractionRepository.get_by_id other any_sites s).1).
Proof.
  intros Hpk. unfold InteractionRepository.delete, mbind, M_bind.
  unfold InteractionRepository.get_by_id at 1.
  destruct (find _ (interactions s)) as [i|] eqn:Hfind; [|done].
  unfold try_except, modify, mret, M_ret. simpl. intros [= <- <-].
  pose proof (find_Some_elem _ _ _ Hfind) as [Hin Hscope].
  assert (Hid : Interaction.interaction_id i = interaction_id).
  { unfold InteractionRepository.in_scope in Hscope.
    apply andb_true_iff in Hscope as [Hid _]. lia. }
  pose proof (remove_first_Permutation _ _ _ Hfind) as Hperm.
  split; [done|]. split; [|split].
  - exists i. unfold InteractionRepository.get_by_id. rewrite Hfind.
    split; [done|]. split; [exact Hperm | done].
  - intros any_sites. apply get_by_id_out_of_scope. simpl. intros j Hj Hjid. exfalso.
    rewrite Hperm in Hpk. simpl in Hpk. apply NoDup_cons in Hpk as [Hnot _].
    apply Hnot. apply list_elem_of_fmap. exists j. split; [congruence | done].
  - intros other any_sites Hother. unfold InteractionRepository.get_by_id. simpl.
    rewrite (find_remove_first_other _ _ _ i Hfind);
      [by destruct (find (InteractionRepository.in_scope other any_sites)
                     (interactions s))|].
    apply in_scope_id. lia.
Qed.

Lemma deleted_interaction_is_gone_witness :
  let s := Sample.store [Sample.interaction 1 1; Sample.interaction 2 1] [] in
  exists s',
    InteractionRepository.delete 1 [1] s = (Ok true, s')
    /\ InteractionRepository.get_by_id 1 [1] s' = (Raise ResourceNotFoundError, s')
    /\ (InteractionRepository.get_by_id 2 [1] s').1 = Ok (Sample.interaction 2 1).
Proof.
  intros s.
  destruct (InteractionRepository.delete 1 [1] s) as [[b|] s'] eqn:Hdelete;
    [|discriminate Hdelete].
  destruct (deleted_interaction_is_gone 1 [1] s s' b) as (-> & _ & Hgone & Hother).
  - simpl. compute_done.
  - exact Hdelete.
  - exists s'. split; [reflexivity|]. split; [apply Hgone|].
    rewrite Hother by lia. reflexivity.
Defined.









(** ** The interaction service *)

Lemma in_scope_singleton (interaction_id site_id : Z) (i : Interaction.t) :
  InteractionRepository.in_scope interaction_id [site_id] i = true ->
  Interaction.interaction_id i = interaction_id /\ Interaction.site_id i = site_id.
Proof.
  unfold InteractionRepository.in_scope. intros [Hid Hsite]%andb_true_iff.
  apply bool_decide_eq_true, list_elem_of_singleton in Hsite. split; [lia | done].
Qed.

(** X10.  [InteractionService.get_by_id] and [InteractionService.delete]
    turn away an identifier or a site that is not positive with ValueError
    before looking anything up.  What [get_by_id] returns is a stored
    interaction with the identifier asked for and of the site asked for, and
    what [delete] removes is such an interaction and nothing else; when no
    stored interaction has that identifier and that site, both raise
    ResourceNotFoundError.  The store changes in no case but the successful
    [delete]. *)
Theorem service_reaches_only_the_site_it_is_called_with
    (interaction_id site_id : Z) (s : Store) :
  (interaction_id <= 0 ->
     InteractionService.get_by_id interaction_id site_id s
     = (Raise (ValueError "Valid interaction_id is required"), s)
     /\ InteractionService.delete interaction_id site_id s
        = (Raise (ValueError "Valid interaction_id is required"), s))
  /\ (0 < interaction_id -> site_id <= 0 ->
        InteractionService.get_by_id interaction_id site_id s
        = (Raise (ValueError "Valid site_id is required"), s)
        /\ InteractionService.delete interaction_id site_id s
           = (Raise (ValueError "Valid site_id is required"), s))
  /\ (forall r s',
        InteractionService.get_by_id interaction_id site_id s = (Ok r, s') ->
        s' = s /\ r ∈ interactions s
        /\ Interaction.interaction_id r = interaction_id
        /\ Interaction.site_id r = site_id)
  /\ (forall b s',
        InteractionService.delete interaction_id site_id s = (Ok b, s') ->
        exists r,
          r ∈ interactions s
          /\ Interaction.interaction_id r = interaction_id
          /\ Interaction.site_id r = site_id
          /\ Permutation (interactions s) (r :: interactions s')
          /\ s' = set_interactions (interactions s') s)
  /\ (0 < interaction_id -> 0 < site_id ->
      (forall i, i ∈ interactions s -> Interaction.interaction_id i = interaction_id ->
                 Interaction.site_id i <> site_id) ->
      InteractionService.get_by_id interaction_id site_id s
      = (Raise ResourceNotFoundError, s)
      /\ InteractionService.delete interaction_id site_id s
         = (Raise ResourceNotFoundError, s)).
Proof.
  unfold InteractionService.get_by_id, InteractionService.delete,
    InteractionService._validate_site_access.
  split; [|split; [|split; [|split]]].
  - intros Hid. by replace (interaction_id <=? 0) with true by lia.
  - intros Hid Hsite. replace (interaction_id <=? 0) with false by lia.
    by replace (site_id <=? 0) with true by lia.
  - intros r s'. destruct (interaction_id <=? 0); [done|].
    destruct (site_id <=? 0); [done|].
    unfold mbind, M_bind, mret, M_ret, try_except, raise,
      InteractionRepository.get_by_id.
    destruct (find _ (interactions s)) as [i|] eqn:Hfind; [|done].
    intros [= <- <-]. apply find_Some_elem in Hfind as [Hin Hscope].
    apply in_scope_singleton in Hscope as [? ?]. done.
  - intros b s'. destruct (interaction_id <=? 0); [done|].
    destruct (site_id <=? 0); [done|].
    unfold mbind, M_bind, mret, M_ret, try_except, raise,
      InteractionRepository.delete, InteractionRepository.get_by_id, modify.
    unfold mbind, M_bind, mret, M_ret.
    destruct (find _ (interactions s)) as [i|] eqn:Hfind; [|done].
    simpl. intros [= <- <-].
    pose proof (remove_first_Permutation _ _ _ Hfind) as Hperm.
    apply find_Some_elem in Hfind as [Hin Hscope].
    apply in_scope_singleton in Hscope as [? ?]. exists i. done.
  - intros Hid Hsite Hnone.
    replace (interaction_id <=? 0) with false by lia.
    replace (site_id <=? 0) with false by lia.
    assert (Hget : InteractionRepository.get_by_id interaction_id [site_id] s
                   = (Raise ResourceNotFoundError, s)).
    { apply get_by_id_out_of_scope. intros i Hi Hiid Hin.
      apply list_elem_of_singleton in Hin. by eapply Hnone. }
    unfold mbind, M_bind, mret, M_ret, try_except, raise, InteractionRepository.delete.
    unfold mbind, M_bind. by rewrite Hget.
Qed.

Section ServiceListing.
Context {ext : External} {sql : SqlText}.

Lemma search_total (allowed : list Z) (filters : SearchFilters) (page page_size : Z)
    (sort_field sort_direction : string) (s : Store) :
  1 <= page -> 1 <= page_size < 2 ^ 63 -> (page - 1) * page_size < 2 ^ 63 ->
  (sort_field ∈ Interaction.COLUMNS
   \/ InteractionRepository.class_hasattr sort_field = false) ->
  exists r,
    InteractionRepository.search allowed filters page page_size
      sort_field sort_direction s = (Ok r, s).
Proof.
  intros Hpage Hsize Hfits Hsort. rewrite search_get_all_matching.
  destruct (get_all_total allowed page page_size sort_field sort_direction
              (matching_only filters s)) as [r ->]; [done..|].
  by exists r.
Qed.

Lemma page_or_default_pos (page : Z) : 1 <= InteractionService.page_or_default page.
Proof.
  unfold InteractionService.page_or_default, DEFAULT_PAGE.
  destruct (page <=? 0) eqn:Hp; lia.
Qed.

Lemma page_size_or_default_pos (page_size : Z) :
  1 <= InteractionService.page_size_or_default page_size.
Proof.
  unfold InteractionService.page_size_or_default, InteractionService.DEFAULT_PAGE_SIZE.
  destruct (page_size <=? 0) eqn:Hp; lia.
Qed.
End ServiceListing.

(** X11.  [InteractionService.get_all] and [InteractionService.search] turn
    away a site that is not positive with ValueError.  For a positive site,
    page and page size are the given ones, or 1 and 25 where the given one
    is not positive (a page size above 100 is taken as given), and an empty
    sort field is replaced by "created_at".  If the sort field then names a
    column, or is a name under which the class has no attribute at all, and
    the database accepts page size and offset (both below 2^63), both return
    a listing and leave the store as it is: every item is a stored
    interaction of the site asked for, and there are at most page-size many.
    If the sort field names an attribute that is no column, or the page size
    or the offset is not below 2^63, both raise and leave the store as it
    is. *)
Theorem service_listing_is_bound_to_one_site {ext : External} {sql : SqlText}
    (site_id page page_size : Z) (sort_field sort_direction : string)
    (filters : SearchFilters) (s : Store) :
  let the_page := if page <=? 0 then 1 else page in
  let the_page_size := if page_size <=? 0 then 25 else page_size in
  let the_sort_field := if String.eqb sort_field "" then "created_at" else sort_field in
  (site_id <= 0 ->
     InteractionService.get_all site_id page page_size sort_field sort_direction s
     = (Raise (ValueError "Valid site_id is required"), s)
     /\ InteractionService.search site_id filters page page_size
          sort_field sort_direction s
        = (Raise (ValueError "Valid site_id is required"), s))
  /\ (0 < site_id ->
      (the_sort_field ∈ Interaction.COLUMNS
       \/ InteractionRepository.class_hasattr the_sort_field = false) ->
      the_page_size < 2 ^ 63 ->
      (the_page - 1) * the_page_size < 2 ^ 63 ->
      exists listed found,
        InteractionService.get_all site_id page page_size sort_field sort_direction s
        = (Ok listed, s)
        /\ InteractionService.search site_id filters page page_size
             sort_field sort_direction s = (Ok found, s)
        /\ PaginatedResult.page listed = the_page
        /\ PaginatedResult.page_size listed = the_page_size
        /\ PaginatedResult.page found = the_page
        /\ PaginatedResult.page_size found = the_page_size
        /\ Z.of_nat (length (PaginatedResult.items listed)) <= the_page_size
        /\ Z.of_nat (length (PaginatedResult.items found)) <= the_page_size
        /\ (forall i, i ∈ PaginatedResult.items listed ->
              i ∈ interactions s /\ Interaction.site_id i = site_id)
        /\ (forall i, i ∈ PaginatedResult.items found ->
              i ∈ interactions s /\ Interaction.site_id i = site_id))
  /\ (0 < site_id ->
      (InteractionRepository.class_hasattr the_sort_field = true
       /\ the_sort_field ∉ Interaction.COLUMNS)
      \/ 2 ^ 63 <= the_page_size
      \/ 2 ^ 63 <= (the_page - 1) * the_page_size ->
      InteractionService.get_all site_id page page_size sort_field sort_direction s
      = (Raise StoreError, s)
      /\ InteractionService.search site_id filters page page_size
           sort_field sort_direction s = (Raise StoreError, s)).
Proof.
  intros the_page the_page_size the_sort_field.
  unfold InteractionService.get_all, InteractionService.search,
    InteractionService._validate_site_access.
  change (InteractionService.page_or_default page) with the_page.
  change (InteractionService.page_size_or_default page_size) with the_page_size.
  change (InteractionService.sort_field_or_default sort_field) with the_sort_field.
  pose proof (page_or_default_pos page) as Hpage.
  pose proof (page_size_or_default_pos page_size) as Hsize.
  change (InteractionService.page_or_default page) with the_page in Hpage.
  change (InteractionService.page_size_or_default page_size) with the_page_size in Hsize.
  clearbody the_page the_page_size the_sort_field.
  set (direction := InteractionService.sort_direction_or_default sort_direction).
  clearbody direction.
  split; [|split].
  - intros Hsite. by replace (site_id <=? 0) with true by lia.
  - intros Hsite Hsort Hlimit Hfits. replace (site_id <=? 0) with false by lia.
    unfold mbind, M_bind, mret, M_ret.
    destruct (get_all_total [site_id] the_page the_page_size the_sort_field direction s)
      as [listed Hlisted]; [done | lia | done..|].
    destruct (search_total [site_id] filters the_page the_page_size the_sort_field
                direction s) as [found Hfound]; [done | lia | done..|].
    exists listed, found. do 2 (split; [done|]).
    rewrite search_get_all_matching in Hfound.
    destruct (InteractionRepository.get_all _ _ _ _ _ (matching_only filters s))
      as [[found0|] s0] eqn:Hmatching; [|discriminate Hfound].
    injection Hfound as ->.
    apply get_all_Ok in Hlisted as (_ & _ & _ & ->).
    apply get_all_Ok in Hmatching as (_ & _ & _ & ->).
    cbn [PaginatedResult.items PaginatedResult.page PaginatedResult.page_size].
    do 4 (split; [done|]).
    split; [rewrite length_take; lia|]. split; [rewrite length_take; lia|].
    split.
    + intros i Hi. apply subseteq_take, subseteq_drop in Hi.
      rewrite (order_by_Permutation _ _ _) in Hi.
      apply list_elem_of_filter in Hi as [Hin Hi].
      apply list_elem_of_singleton in Hin. done.
    + intros i Hi. apply subseteq_take, subseteq_drop in Hi.
      rewrite (order_by_Permutation _ _ _) in Hi.
      apply list_elem_of_filter in Hi as [Hin Hi].
      apply list_elem_of_singleton in Hin.
      apply filter_bool_elem in Hi as [Hi _]. done.
  - intros Hsite Hrefused. replace (site_id <=? 0) with false by lia.
    unfold mbind, M_bind, mret, M_ret.
    assert (Hraise : forall s0,
      InteractionRepository.get_all [site_id] the_page the_page_size the_sort_field
        direction s0 = (Raise StoreError, s0)).
    { intros s0. unfold InteractionRepository.get_all, try_except.
      destruct Hrefused as [[Hattr Hcol]|Hrefused].
      - by rewrite Hattr, (bool_decide_eq_false_2 _ Hcol).
      - destruct (InteractionRepository.class_hasattr the_sort_field && negb _); [done|].
        unfold InteractionRepository.offset_limit.
        replace (_ || _ || _ || _) with true; [done|].
        symmetry. destruct Hrefused as [Hwide|Hfar].
        + replace (2 ^ 63 <=? the_page_size) with true by lia. apply orb_true_r.
        + replace (2 ^ 63 <=? (the_page - 1) * the_page_size) with true by lia.
          by rewrite orb_true_r. }
    split; [apply Hraise|].
    by rewrite search_get_all_matching, Hraise.
Qed.

Lemma service_listing_is_bound_to_one_site_witness :
  let s := Sample.store [Sample.interaction 1 1; Sample.interaction 2 2] [] in
  (exists listed,
     InteractionService.get_all (ext := Sample.external) 1 0 500 "" "up" s = (Ok listed, s)
     /\ PaginatedResult.page listed = 1
     /\ PaginatedResult.page_size listed = 500
     /\ forall i, i ∈ PaginatedResult.items listed -> Interaction.site_id i = 1)
  /\ InteractionService.get_all (ext := Sample.external) 1 1 25 "__class__" "asc" s
     = (Raise StoreError, s).
Proof.
  intros s.
  pose proof (service_listing_is_bound_to_one_site
                (ext := Sample.external) (sql := Sample.sql) 1 0 500 "" "up"
                (mkSearchFilters None None None None None None None None None None) s)
    as Hall.
  pose proof (service_listing_is_bound_to_one_site
                (ext := Sample.external) (sql := Sample.sql) 1 1 25 "__class__" "asc"
                (mkSearchFilters None None None None None None None None None None) s)
    as Hclass.
  cbv zeta in Hall, Hclass.
  destruct Hall as (_ & Hlisting & _). destruct Hclass as (_ & _ & Hrefused).
  split.
  - destruct Hlisting as (listed & found & Hrun & _ & Hpage & Hsize & _ & _ & _ & _ & Hsite & _).
    + lia.
    + left. compute_done.
    + reflexivity.
    + reflexivity.
    + exists listed. split; [exact Hrun|]. split; [exact Hpage|]. split; [exact Hsize|].
      intros i Hi. by destruct (Hsite i Hi).
  - apply Hrefused; [lia|]. left. split; [reflexivity | compute_done].
Defined.

(** ** What the middlewares let through *)

Section Middleware.
Context {ext : External}.

Lemma get_site_context_Some (token_data : Claims) (site_id : option site_arg)
    (site_context : SiteContext) :
  AuthUtils.get_site_context token_data site_id = Some site_context ->
  site_ids token_data = Some (available_sites site_context)
  /\ ctx_id site_context ∈ available_sites site_context
  /\ (forall n, site_id = Some (SiteInt n) -> ctx_id site_context = n).
Proof.
  unfold AuthUtils.get_site_context.
  destruct (site_ids token_data) as [[|first rest]|]; simpl; try done.
  destruct site_id as [[n|x]|]; try done.
  - case_bool_decide as Hin; [|done]. intros [= <-]. simpl.
    split; [done|]. split; [done|]. by intros ? [= ->].
  - intros [= <-]. simpl. split; [done|]. split; [left | done].
Qed.

Lemma get_user_from_token_Some (token_data : Claims) (user : User.t) (s s' : Store) :
  AuthUtils.get_user_from_token token_data s = (Ok (Some user), s') ->
  s' = s /\ sub token_data = Some (User.id user) /\ User.id user <> 0 /\ user ∈ users s.
Proof.
  unfold AuthUtils.get_user_from_token, gets, mret, M_ret.
  destruct (sub token_data) as [[|p|p]|]; try done; intros [= Hfind <-];
    apply find_Some_elem in Hfind as [Hin Hid]; apply Z.eqb_eq in Hid;
    rewrite Hid; done.
Qed.

(** What [auth_middleware] has checked when it returns. *)
Lemma auth_middleware_Ok (request : Request) (now : Z) (s s' : Store)
    (authenticated : option (User.t * SiteContext)) :
  AuthMiddleware.auth_middleware request now s = (Ok authenticated, s') ->
  s' = s
  /\ match authenticated with
     | None => endpoint request ∈ map Some PUBLIC_ROUTES
     | Some (user, site_context) =>
         (endpoint request ∉ map Some PUBLIC_ROUTES)
         /\ exists token token_data,
              AuthUtils.get_token_from_request request = Some token
              /\ token <> ""
              /\ (token ∉ TOKEN_BLACKLIST s)
              /\ Security.decode_token token JWT_SECRET_KEY now = Some token_data
              /\ sub token_data = Some (User.id user)
              /\ user ∈ users s
              /\ User.is_active user = true
              /\ site_ids token_data = Some (available_sites site_context)
              /\ ctx_id site_context ∈ available_sites site_context
              /\ (forall n, AuthMiddleware.requested_site request = Some (SiteInt n) ->
                    ctx_id site_context = n)
     end.
Proof.
  unfold AuthMiddleware.auth_middleware.
  case_bool_decide as Hroute; [by intros [= <- <-]|].
  destruct (AuthUtils.get_token_from_request request) as [[|c token]|] eqn:Htoken;
    try done.
  unfold mbind, M_bind, AuthUtils.validate_auth_token, gets.
  case_bool_decide as Hblack; [done|].
  destruct (Security.decode_token _ _ _) as [token_data|] eqn:Hdecode; [|done].
  destruct (AuthUtils.get_user_from_token token_data s) as [[[user|]|] s1] eqn:Huser;
    try done.
  apply get_user_from_token_Some in Huser as (-> & Hsub & _ & Hin).
  destruct (User.is_active user) eqn:Hactive; simpl; [|done].
  destruct (AuthUtils.get_site_context _ _) as [site_context|] eqn:Hcontext; [|done].
  intros [= <- <-]. split; [done|]. split; [done|].
  apply get_site_context_Some in Hcontext as (Hids & Hctx & Hreq).
  exists (String c token), token_data. done.
Qed.

(** It raises nothing but the two aborts, on protected routes only, and
    leaves the store alone. *)
Lemma auth_middleware_Raise (request : Request) (now : Z) (s s' : Store) (e : exn) :
  AuthMiddleware.auth_middleware request now s = (Raise e, s') ->
  s' = s
  /\ (e = HTTPAbort 401 \/ e = HTTPAbort 403)
  /\ (endpoint request ∉ map Some PUBLIC_ROUTES).
Proof.
  unfold AuthMiddleware.auth_middleware.
  case_bool_decide as Hroute; [done|].
  destruct (AuthUtils.get_token_from_request request) as [[|c token]|] eqn:Htoken;
    try (intros [= <- <-]; auto).
  unfold mbind, M_bind, AuthUtils.validate_auth_token, gets.
  case_bool_decide as Hblack; [intros [= <- <-]; auto|].
  destruct (Security.decode_token _ _ _) as [token_data|] eqn:Hdecode;
    [|intros [= <- <-]; auto].
  unfold AuthUtils.get_user_from_token.
  destruct (sub token_data) as [[|p|p]|]; try (intros [= <- <-]; by auto); simpl;
    (destruct (find _ (users s)) as [user|]; [|intros [= <- <-]; by auto]);
    (destruct (User.is_active user); simpl; [|intros [= <- <-]; by auto]);
    (destruct (AuthUtils.get_site_context _ _); intros [= <- <-]; by auto).
Qed.
End Middleware.

(** X12.  When the two request middlewares let a request through, they
    have not touched the store, and on a protected route the request's
    token is not in the process-local blacklist and decodes, at that time,
    to a payload whose [sub] is a stored, active user and whose [site_ids]
    list holds the site put into the context (the requested one, when the
    request names a site by number); that user and that site are what [g]
    holds, the query context carries the same site, and the two decorators
    pass.  On a public route [g] stays empty.  When the middlewares do not
    let a request through, it is with a 401 or a 403 on a protected route,
    the store being as before. *)
Theorem request_context_is_vouched_for_by_the_token {ext : External}
    (request : Request) (now : Z) (s : Store) :
  (forall g s',
     AuthMiddleware.before_request request now s = (Ok g, s') ->
     s' = s
     /\ (endpoint request ∈ map Some PUBLIC_ROUTES ->
         g = AuthMiddleware.mkG None None None)
     /\ (endpoint request ∉ map Some PUBLIC_ROUTES ->
         exists token token_data user site_context,
           g = AuthMiddleware.mkG (Some user) (Some site_context)
                 (Some (ctx_id site_context))
           /\ AuthUtils.get_token_from_request request = Some token
           /\ (token ∉ TOKEN_BLACKLIST s)
           /\ Security.decode_token token JWT_SECRET_KEY now = Some token_data
           /\ sub token_data = Some (User.id user)
           /\ user ∈ users s
           /\ User.is_active user = true
           /\ site_ids token_data = Some (available_sites site_context)
           /\ ctx_id site_context ∈ available_sites site_context
           /\ (forall n, AuthMiddleware.requested_site request = Some (SiteInt n) ->
                 ctx_id site_context = n)
           /\ AuthMiddleware.require_auth g s = (Ok tt, s)
           /\ AuthMiddleware.require_site_context g s = (Ok tt, s)))
  /\ (forall e s',
        AuthMiddleware.before_request request now s = (Raise e, s') ->
        s' = s
        /\ (e = HTTPAbort 401 \/ e = HTTPAbort 403)
        /\ (endpoint request ∉ map Some PUBLIC_ROUTES)).
Proof.
  unfold AuthMiddleware.before_request, mbind, M_bind, mret, M_ret. split.
  - intros g s'.
    destruct (AuthMiddleware.auth_middleware request now s)
      as [[authenticated|] s1] eqn:Hauth; [|done].
    apply auth_middleware_Ok in Hauth as [-> Hauth]. intros [= <- <-].
    split; [done|]. unfold AuthMiddleware.site_scoping_middleware.
    destruct authenticated as [[user site_context]|].
    + destruct Hauth as (Hroute & token & token_data & Htoken & _ & Hrest).
      split; [done|]. intros _. rewrite bool_decide_eq_false_2 by done. simpl.
      exists token, token_data, user, site_context.
      destruct Hrest as (? & ? & ? & ? & ? & ? & ? & ?). done.
    + split; [|done]. intros _. by rewrite bool_decide_eq_true_2.
  - intros e s'.
    destruct (AuthMiddleware.auth_middleware request now s)
      as [[authenticated|e0] s1] eqn:Hauth; [done|].
    intros [= <- <-]. by apply auth_middleware_Raise in Hauth.
Qed.

(** ** Revoking a token *)

(** X13.  [invalidate_token] returns True for a token that was not
    blacklisted and False for one that was; either way the token is in the
    blacklist afterwards, no other token has entered or left it, and a second
    call returns False and changes nothing.  From then on
    [validate_auth_token] returns None for the token at every time, and the
    middleware answers every request to a protected route that presents it
    with 401; the validation of any other token is as before. *)
Theorem invalidated_token_is_rejected {ext : External} (token : string) (s : Store) :
  let s1 := (AuthUtils.invalidate_token token s).2 in
  (AuthUtils.invalidate_token token s).1 = Ok (bool_decide (token ∉ TOKEN_BLACKLIST s))
  /\ TOKEN_BLACKLIST s1 = {[token]} ∪ TOKEN_BLACKLIST s
  /\ s1 = set_TOKEN_BLACKLIST (TOKEN_BLACKLIST s1) s
  /\ AuthUtils.invalidate_token token s1 = (Ok false, s1)
  /\ (forall now, AuthUtils.validate_auth_token token now s1 = (Ok None, s1))
  /\ (forall request now,
        endpoint request ∉ map Some PUBLIC_ROUTES ->
        AuthUtils.get_token_from_request request = Some token ->
        AuthMiddleware.auth_middleware request now s1 = (Raise (HTTPAbort 401), s1))
  /\ (forall other now, other <> token ->
        (AuthUtils.validate_auth_token other now s1).1
        = (AuthUtils.validate_auth_token other now s).1).
Proof.
  intros s1.
  assert (Hin : token ∈ TOKEN_BLACKLIST s1).
  { unfold s1, AuthUtils.invalidate_token. case_bool_decide; simpl; [done|].
    apply elem_of_union. left. by apply elem_of_singleton. }
  assert (Hset : TOKEN_BLACKLIST s1 = {[token]} ∪ TOKEN_BLACKLIST s).
  { unfold s1, AuthUtils.invalidate_token. case_bool_decide; simpl; [|done].
    symmetry. apply subseteq_union_1_L. by apply singleton_subseteq_l. }
  split.
  { unfold AuthUtils.invalidate_token. case_bool_decide as Hold; simpl.
    - by rewrite bool_decide_eq_false_2 by auto.
    - by rewrite bool_decide_eq_true_2. }
  split; [done|]. split.
  { unfold s1, AuthUtils.invalidate_token. case_bool_decide; simpl; [by destruct s | done]. }
  split.
  { unfold AuthUtils.invalidate_token. by rewrite bool_decide_eq_true_2. }
  assert (Hvalidate : forall now, AuthUtils.validate_auth_token token now s1 = (Ok None, s1)).
  { intros now. unfold AuthUtils.validate_auth_token, gets.
    by rewrite bool_decide_eq_true_2. }
  split; [done|]. split.
  - intros request now Hroute Htoken. unfold AuthMiddleware.auth_middleware.
    rewrite bool_decide_eq_false_2 by done. rewrite Htoken.
    destruct token as [|c token']; [done|].
    unfold mbind, M_bind. by rewrite Hvalidate.
  - intros other now Hother. unfold AuthUtils.validate_auth_token, gets. simpl.
    rewrite Hset.
    assert (Hiff : other ∈ {[token]} ∪ TOKEN_BLACKLIST s <-> other ∈ TOKEN_BLACKLIST s).
    { rewrite elem_of_union, elem_of_singleton. tauto. }
    destruct (decide (other ∈ TOKEN_BLACKLIST s)) as [Hold|Hold].
    + rewrite !bool_decide_eq_true_2; [done | done | by apply Hiff].
    + rewrite !bool_decide_eq_false_2; [done | done | by rewrite Hiff].
Qed.

(** ** Logout and the current user *)

Section LogoutCurrentUser.
Context {ext : External}.

Lemma redis_get_insert (now : Z) (key v : string) (expires_at : Z) (s : Store) :
  now < expires_at ->
  redis_get now key (set_redis (<[key := (v, Some expires_at)]> (redis s)) s) = Some v.
Proof.
  intros Hnow. unfold redis_get. simpl. rewrite lookup_insert_eq.
  by replace (now <? expires_at) with true by lia.
Qed.

Lemma redis_get_insert_ne (now : Z) (key key' : string) (entry : string * option Z)
    (s : Store) :
  key' <> key ->
  redis_get now key' (set_redis (<[key := entry]> (redis s)) s) = redis_get now key' s.
Proof.
  intros Hne. unfold redis_get. simpl. by rewrite lookup_insert_ne.
Qed.

(** What a completed [logout] has done. *)
Lemma logout_Ok (token : string) (now : Z) (s s' : Store) (b : bool) :
  AuthService.logout token now s = (Ok b, s') ->
  exists payload j e,
    Security.decode_token token JWT_SECRET_KEY now = Some payload
    /\ jti payload = Some j /\ j <> ""
    /\ exp payload = Some e /\ now < e + local_utc_offset
    /\ b = true
    /\ s' = set_redis (<[TOKEN_BLACKLIST_PREFIX ++ j := ("1", Some (e + local_utc_offset))]>
                         (redis s)) s.
Proof.
  unfold AuthService.logout, try_except, raise.
  destruct (Security.decode_token token JWT_SECRET_KEY now) as [payload|]; [|done].
  destruct (jti payload) as [[|c j]|] eqn:Hjti; try done;
    destruct (exp payload) as [[|e|e]|] eqn:Hexp; try done;
    unfold mbind, M_bind, redis_set, raise, modify, mret, M_ret;
    match goal with
    | |- context [Z.max 0 ?d <=? 0] => destruct (Z.max 0 d <=? 0) eqn:Httl; [done|]
    end;
    apply Z.leb_gt in Httl;
    intros [= <- <-]; eexists payload, _, _;
    (split; [done|]); (split; [exact Hjti|]); (split; [done|]);
    (split; [exact Hexp|]); (split; [lia|]); (split; [done|]);
    rewrite Z.max_r by lia;
    match goal with
    | |- context [now + (?x - now)] => by replace (now + (x - now)) with x by lia
    end.
Qed.
End LogoutCurrentUser.

(** X14.  A completed [logout] has returned True and stored the token's
    [jti] in Redis, under the blacklist prefix, until the token's [exp] (read
    on the local clock).  Until then [is_token_blacklisted] holds for that
    [jti] and [get_current_user] returns no user for the token, whenever the
    token still decodes to a payload carrying that [jti] or does not decode
    at all. *)
Theorem logged_out_token_has_no_current_user {ext : External}
    (token : string) (now : Z) (s s' : Store) (b : bool) :
  AuthService.logout token now s = (Ok b, s') ->
  b = true
  /\ exists payload j e,
       Security.decode_token token JWT_SECRET_KEY now = Some payload
       /\ jti payload = Some j
       /\ exp payload = Some e
       /\ (forall later, later < e + local_utc_offset ->
             redis_get later (TOKEN_BLACKLIST_PREFIX ++ j) s' = Some "1"
             /\ AuthService.is_token_blacklisted j later s' = (Ok true, s'))
       /\ (forall later, later < e + local_utc_offset ->
             (forall payload',
                Security.decode_token token JWT_SECRET_KEY later = Some payload' ->
                jti payload' = Some j) ->
             AuthService.get_current_user token later s' = (Ok None, s')).
Proof.
  intros Hlogout.
  apply logout_Ok in Hlogout as (payload & j & e & Hdecode & Hjti & Hne & Hexp & Hnow
                                 & -> & ->).
  split; [done|]. exists payload, j, e. do 3 (split; [done|]).
  assert (Hlisted : forall later, later < e + local_utc_offset ->
            redis_get later (TOKEN_BLACKLIST_PREFIX ++ j)
              (set_redis (<[TOKEN_BLACKLIST_PREFIX ++ j
                            := ("1", Some (e + local_utc_offset))]> (redis s)) s)
            = Some "1").
  { intros later Hlater. by apply redis_get_insert. }
  split.
  - intros later Hlater. split; [by apply Hlisted|].
    unfold AuthService.is_token_blacklisted, gets. rewrite Hlisted by done.
    by rewrite bool_decide_eq_true_2.
  - intros later Hlater Hsame. unfold AuthService.get_current_user.
    destruct (Security.decode_token token JWT_SECRET_KEY later) as [payload'|] eqn:Hlate;
      [|done].
    rewrite (Hsame payload' eq_refl). destruct j as [|c j]; [done|].
    unfold mbind, M_bind, AuthService.is_token_blacklisted, gets.
    rewrite Hlisted by done. by rewrite bool_decide_eq_true_2.
Qed.

Lemma logged_out_token_has_no_current_user_witness :
  let s := Sample.store [] [] in
  exists s',
    AuthService.logout (ext := Sample.external) "tok" 100 s = (Ok true, s')
    /\ AuthService.get_current_user (ext := Sample.external) "tok" 1999 s' = (Ok None, s').
Proof.
  intros s.
  destruct (AuthService.logout (ext := Sample.external) "tok" 100 s)
    as [[b|] s'] eqn:Hlogout; [|discriminate Hlogout].
  destruct (logged_out_token_has_no_current_user (ext := Sample.external)
              "tok" 100 s s' b Hlogout)
    as (-> & payload & j & e & Hdecode & Hjti & Hexp & _ & Hnone).
  exists s'. split; [reflexivity|].
  injection Hdecode as <-. injection Hjti as <-. injection Hexp as <-.
  apply Hnone; [reflexivity|].
  intros payload' [= <-]. reflexivity.
Defined.

(** ** Failed logins and the account lock *)

Section Lockout.
Context {ext : External}.

Lemma redis_get_later (now later : Z) (key : string) (s : Store) :
  redis_get now key s = None -> now <= later -> redis_get later key s = None.
Proof.
  unfold redis_get. destruct (redis s !! key) as [[v [expires_at|]]|]; try done.
  destruct (now <? expires_at) eqn:Hnow; [done|]. intros _ Hlater.
  by replace (later <? expires_at) with false by lia.
Qed.

Lemma last_cons_default {A} (a d : A) (l : list A) :
  List.last (a :: l) d = List.last l a.
Proof.
  revert a d. induction l as [|b l IH]; intros a d; [done|].
  change (List.last (a :: b :: l) d) with (List.last (b :: l) d).
  by rewrite (IH b d), (IH b a).
Qed.

Lemma lock_key_ne_attempt_key (username : string) :
  "account_locked:" ++ username <> "login_attempts:" ++ username.
Proof. discriminate. Qed.

Lemma pretty_small_nonempty (k : Z) : 1 <= k < MAX_LOGIN_ATTEMPTS -> pretty k <> "".
Proof.
  unfold MAX_LOGIN_ATTEMPTS. intros Hk.
  assert (k = 1 \/ k = 2 \/ k = 3 \/ k = 4) as [-> | [-> | [-> | ->]]] by lia;
    vm_compute; discriminate.
Qed.

(** One attempt with credentials that are not accepted, on an account that
    is not locked, the counter standing at [k]. *)
Lemma failed_login_step (username password token_hex : string) (now k : Z) (s : Store) :
  rejected_credentials username password s ->
  redis_get now ("account_locked:" ++ username) s = None ->
  match redis_get now ("login_attempts:" ++ username) s with
  | None | Some "" => Some 0
  | Some str => py_int str
  end = Some k ->
  let counted :=
    <["login_attempts:" ++ username := (pretty (k + 1), Some (now + LOCKOUT_DURATION))]>
      (redis s) in
  AuthService.login username password now token_hex s
  = (Raise Unauthorized,
     set_redis
       (if MAX_LOGIN_ATTEMPTS <=? k + 1
        then <["account_locked:" ++ username := ("1", Some (now + LOCKOUT_DURATION))]>
               counted
        else counted) s).
Proof.
  intros Hrejected Hunlocked Hcount counted.
  assert (Hfailed : AuthService.handle_failed_login username now s
                    = (Ok (MAX_LOGIN_ATTEMPTS <=? k + 1),
                       set_redis
                         (if MAX_LOGIN_ATTEMPTS <=? k + 1
                          then <["account_locked:" ++ username
                                 := ("1", Some (now + LOCKOUT_DURATION))]> counted
                          else counted) s)).
  { unfold AuthService.handle_failed_login, mbind, M_bind, gets.
    rewrite Hcount. unfold redis_set, LOCKOUT_DURATION. simpl.
    unfold modify. fold counted.
    destruct (MAX_LOGIN_ATTEMPTS <=? k + 1); reflexivity. }
  unfold AuthService.login, AuthService.is_account_locked, mbind at 1, M_bind at 1, gets.
  rewrite Hunlocked. rewrite bool_decide_eq_false_2 by (by intros [? ?]).
  unfold mbind at 1, M_bind at 1.
  unfold rejected_credentials in Hrejected.
  destruct (find _ (users s)) as [user|].
  - rewrite Hrejected. simpl. unfold mbind, M_bind. by rewrite Hfailed.
  - unfold mbind, M_bind. by rewrite Hfailed.
Qed.

Lemma failed_logins_chain (username password token_hex : string) (times : list Z) :
  (forall k, 1 <= k < MAX_LOGIN_ATTEMPTS -> py_int (pretty k) = Some k) ->
  forall (k t : Z) (s : Store),
    1 <= k <= MAX_LOGIN_ATTEMPTS ->
    Z.of_nat (length times) = MAX_LOGIN_ATTEMPTS - k ->
    within_lockout_window t times ->
    rejected_credentials username password s ->
    counter_at username k t s ->
    exists s',
      login_attempts username password token_hex times s
      = (replicate (length times) (Raise Unauthorized), s')
      /\ users s' = users s
      /\ counter_at username MAX_LOGIN_ATTEMPTS (List.last times t) s'.
Proof.
  intros Hint. induction times as [|t' rest IH]; intros k t s Hk Hlen Hwindow Hrej Hat.
  - simpl in *. assert (k = MAX_LOGIN_ATTEMPTS) as -> by lia. by exists s.
  - simpl in Hlen. destruct Hwindow as [Ht' Hwindow].
    unfold counter_at in Hat. replace (MAX_LOGIN_ATTEMPTS <=? k) with false in Hat by lia.
    destruct Hat as [Hcount Hunlocked].
    assert (Hread : match redis_get t' ("login_attempts:" ++ username) s with
                    | None | Some "" => Some 0
                    | Some str => py_int str
                    end = Some k).
    { unfold redis_get. rewrite Hcount.
      replace (t' <? t + LOCKOUT_DURATION) with true by lia.
      pose proof (pretty_small_nonempty k ltac:(lia)) as Hne.
      destruct (pretty k) as [|c str] eqn:Hpretty; [done|].
      rewrite <- Hpretty. apply Hint. lia. }
    pose proof (failed_login_step username password token_hex t' k s Hrej
                  (Hunlocked t' ltac:(lia)) Hread) as Hstep.
    cbv zeta in Hstep.
    set (s1 := set_redis _ s) in Hstep.
    destruct (IH (k + 1) t' s1) as (s' & Hrest & Husers & Hlocked).
    + lia.
    + lia.
    + done.
    + done.
    + unfold counter_at, s1. destruct (MAX_LOGIN_ATTEMPTS <=? k + 1) eqn:Hmax; simpl.
      * by rewrite lookup_insert_eq.
      * split; [by rewrite lookup_insert_eq|].
        intros later Hlater. rewrite redis_get_insert_ne by apply lock_key_ne_attempt_key.
        apply Hunlocked. lia.
    + exists s'. split; [|split].
      * cbn [login_attempts length replicate]. rewrite Hstep, Hrest. done.
      * by rewrite Husers.
      * by rewrite last_cons_default.
Qed.
End Lockout.

(** X15.  Let [int] read the decimal numerals 1 to 4 as these numbers.  On
    an account that is not locked and has no failed attempt on record, five
    login attempts in a row with credentials that are not accepted (no such
    user, or a password that does not verify), none going back in time and
    each less than fifteen minutes after the one before, are each answered
    with Unauthorized; and from the fifth on, for fifteen minutes, every
    login for that user name is answered with Unauthorized, whatever the
    password, and changes nothing. *)
Theorem five_failed_logins_lock_the_account {ext : External}
    (username password token_hex : string) (first : Z) (times : list Z) (s : Store) :
  (forall k, 1 <= k < MAX_LOGIN_ATTEMPTS -> py_int (pretty k) = Some k) ->
  rejected_credentials username password s ->
  redis_get first ("account_locked:" ++ username) s = None ->
  redis_get first ("login_attempts:" ++ username) s = None ->
  Z.of_nat (length (first :: times)) = MAX_LOGIN_ATTEMPTS ->
  within_lockout_window first times ->
  exists s',
    login_attempts username password token_hex (first :: times) s
    = (replicate 5 (Raise Unauthorized), s')
    /\ users s' = users s
    /\ forall now any_password any_hex,
         now < List.last times first + LOCKOUT_DURATION ->
         AuthService.login username any_password now any_hex s'
         = (Raise Unauthorized, s').
Proof.
  intros Hint Hrej Hunlocked Hfresh Hlen Hwindow.
  pose proof (failed_login_step username password token_hex first 0 s Hrej Hunlocked)
    as Hstep.
  rewrite Hfresh in Hstep. specialize (Hstep eq_refl). cbv zeta in Hstep.
  change (MAX_LOGIN_ATTEMPTS <=? 0 + 1) with false in Hstep. cbv iota in Hstep.
  set (s1 := set_redis _ s) in Hstep.
  destruct (failed_logins_chain username password token_hex times Hint 1 first s1)
    as (s' & Hrest & Husers & Hlocked).
  - unfold MAX_LOGIN_ATTEMPTS. lia.
  - simpl in Hlen. lia.
  - done.
  - done.
  - unfold counter_at, s1. change (MAX_LOGIN_ATTEMPTS <=? 1) with false. cbv iota. simpl.
    split; [by rewrite lookup_insert_eq|].
    intros later Hlater. rewrite redis_get_insert_ne by apply lock_key_ne_attempt_key.
    by eapply redis_get_later.
  - exists s'. split; [|split].
    + cbn [login_attempts]. rewrite Hstep, Hrest.
      assert (length times = 4%nat) as -> by (simpl in Hlen; unfold MAX_LOGIN_ATTEMPTS in Hlen; lia).
      done.
    + by rewrite Husers.
    + intros now any_password any_hex Hnow.
      unfold counter_at in Hlocked.
      change (MAX_LOGIN_ATTEMPTS <=? MAX_LOGIN_ATTEMPTS) with true in Hlocked.
      cbv iota in Hlocked.
      unfold AuthService.login, AuthService.is_account_locked, mbind, M_bind, gets.
      unfold redis_get. rewrite Hlocked.
      replace (now <? List.last times first + LOCKOUT_DURATION) with true by lia.
      by rewrite bool_decide_eq_true_2.
Qed.

Lemma five_failed_logins_lock_the_account_witness :
  let s := Sample.store [] [UserSite.mk 1 1 1 "user" 0] in
  exists s',
    login_attempts (ext := Sample.external) "alice" "guess" "0f" [10; 20; 30; 40; 50] s
    = (replicate 5 (Raise Unauthorized), s')
    /\ AuthService.login (ext := Sample.external) "alice" "pw" 60 "0f" s'
       = (Raise Unauthorized, s').
Proof.
  intros s.
  destruct (five_failed_logins_lock_the_account (ext := Sample.external)
              "alice" "guess" "0f" 10 [20; 30; 40; 50] s) as (s' & Hrun & _ & Hlocked).
  - intros k Hk. unfold MAX_LOGIN_ATTEMPTS in Hk.
    assert (k = 1 \/ k = 2 \/ k = 3 \/ k = 4) as [-> | [-> | [-> | ->]]] by lia;
      vm_compute; reflexivity.
  - reflexivity.
  - reflexivity.
  - reflexivity.
  - reflexivity.
  - cbn [within_lockout_window]. unfold LOCKOUT_DURATION. lia.
  - exists s'. split; [exact Hrun|]. apply Hlocked.
    cbn [List.last]. unfold LOCKOUT_DURATION. lia.
Defined.

(** ** A successful login *)

Section LoginSuccess.
Context {ext : External}.

Lemma redis_get_delete (now : Z) (key : string) (s : Store) :
  redis_get now key (set_redis (delete key (redis s)) s) = None.
Proof. unfold redis_get. simpl. by rewrite lookup_delete_eq. Qed.

Lemma redis_get_delete_None (now : Z) (key key' : string) (s : Store) :
  redis_get now key s = None ->
  redis_get now key (set_redis (delete key' (redis s)) s) = None.
Proof.
  unfold redis_get. simpl. intros Hnone.
  destruct (decide (key = key')) as [->|Hne].
  - by rewrite lookup_delete_eq.
  - by rewrite lookup_delete_ne.
Qed.

(** Each site [get_user_sites] lists is an active site of a membership of
    the user. *)
Lemma get_user_sites_spec (user : User.t) (s s' : Store) (infos : list SiteInfo) :
  AuthService.get_user_sites user s = (Ok infos, s') ->
  s' = s
  /\ forall info, info ∈ infos ->
       exists m site,
         m ∈ user_sites s /\ site ∈ sites s
         /\ UserSite.user_id m = User.id user
         /\ Site.site_id site = UserSite.site_id m
         /\ Site.is_active site = true
         /\ info = mkSiteInfo (Site.site_id site) (Site.name site) (UserSite.role m)
                     (Site.description site).
Proof.
  unfold AuthService.get_user_sites, gets. intros [= <- <-]. split; [done|].
  intros info Hinfo.
  apply list_elem_of_In, in_flat_map in Hinfo as (m & Hm & Hinfo).
  destruct (UserSite.user_id m =? User.id user) eqn:Hu; [|done].
  apply in_map_iff in Hinfo as (site & <- & Hsite).
  apply filter_In in Hsite as [Hsite Hcond].
  apply andb_true_iff in Hcond as [Hid Hactive].
  exists m, site. rewrite <- !list_elem_of_In in *.
  repeat split; try done; lia.
Qed.

Lemma get_site_ids_elem (user : User.t) (s : Store) (m : UserSite.t) :
  m ∈ user_sites s -> UserSite.user_id m = User.id user ->
  UserSite.site_id m ∈ get_site_ids user s.
Proof.
  intros Hm Hu. unfold get_site_ids. apply list_elem_of_fmap. exists m. split; [done|].
  apply filter_bool_elem. split; [done | lia].
Qed.
End LoginSuccess.

(** X16.  A completed [login] found a user of the given name on an account
    that was not locked, with a password that verifies and at least one
    membership.  It returns that user with the time of the call as last
    login; the token it returns is the signed payload of the user's id and
    name and, under [sites], the site ids of all the user's memberships,
    expiring 24 hours later; the sites it lists are active sites of the
    user's memberships.  It has cleared the failed-attempt counter and the
    lock of the user name and changed, in the tables, only the last login of
    that user. *)
Theorem successful_login_resets_the_counter_and_lists_the_memberships
    {ext : External} (username password token_hex : string) (now : Z)
    (s s' : Store) (result : LoginResult) :
  AuthService.login username password now token_hex s = (Ok result, s') ->
  exists user,
    find (fun u => String.eqb (User.username u) username) (users s) = Some user
    /\ checkpw password (User.password_hash user) = true
    /\ redis_get now ("account_locked:" ++ username) s = None
    /\ lr_user result = User.set_last_login (Some now) user
    /\ get_site_ids user s <> []
    /\ lr_token result
       = jwt_encode
           (mkClaims (Some (User.id user)) None (Some (get_site_ids user s))
              (Some (User.username user)) (Some (now + 24 * 3600)) (Some now)
              (Some token_hex))
           JWT_SECRET_KEY
    /\ (forall info, info ∈ lr_sites result ->
          si_id info ∈ get_site_ids user s
          /\ exists site, site ∈ sites s /\ Site.site_id site = si_id info
                          /\ Site.is_active site = true)
    /\ (forall t,
          redis_get t ("login_attempts:" ++ username) s' = None
          /\ redis_get t ("account_locked:" ++ username) s' = None)
    /\ Permutation (user :: users s') (lr_user result :: users s)
    /\ user_sites s' = user_sites s
    /\ sites s' = sites s
    /\ interactions s' = interactions s
    /\ TOKEN_BLACKLIST s' = TOKEN_BLACKLIST s.
Proof.
  unfold AuthService.login, AuthService.is_account_locked, mbind at 1, M_bind at 1, gets.
  destruct (redis_get now ("account_locked:" ++ username) s) as [v|] eqn:Hlock.
  { by rewrite bool_decide_eq_true_2 by eauto. }
  rewrite bool_decide_eq_false_2 by (by intros [? ?]).
  unfold mbind at 1, M_bind at 1.
  destruct (find _ (users s)) as [user|] eqn:Hfind.
  2:{ unfold mbind, M_bind, raise.
      by destruct (AuthService.handle_failed_login username now s) as [[?|?] ?]. }
  destruct (checkpw password (User.password_hash user)) eqn:Hpw; simpl.
  2:{ unfold mbind, M_bind, raise.
      by destruct (AuthService.handle_failed_login username now s) as [[?|?] ?]. }
  unfold mbind, M_bind, AuthService._reset_failed_login_attempts, redis_delete, modify.
  unfold mbind, M_bind. simpl.
  set (user' := User.set_last_login (Some now) user).
  set (s1 := set_users _ _).
  change (get_site_ids user' s1) with (get_site_ids user s).
  destruct (get_site_ids user s) as [|first rest] eqn:Hsites; [done|].
  destruct (get_user_sites_spec user s s _ eq_refl) as [_ Hinfos].
  unfold mret, M_ret. intros [= <- <-]. exists user.
  cbn [lr_user lr_token lr_sites]. rewrite Hsites.
  do 5 (split; [done|]). split; [reflexivity|]. split; [|split; [|split]].
  - intros info Hinfo.
    destruct (Hinfos info Hinfo) as (m & site & Hm & Hsite & Hu & Hid & Hactive & ->).
    simpl. split.
    + rewrite Hid, <- Hsites. by apply get_site_ids_elem.
    + by exists site.
  - intros t. unfold redis_get, s1. simpl. split.
    + rewrite lookup_delete_ne by discriminate. by rewrite lookup_delete_eq.
    + by rewrite lookup_delete_eq.
  - by apply replace_first_Permutation.
  - done.
Qed.

Lemma successful_login_resets_the_counter_and_lists_the_memberships_witness :
  let s := set_redis {["login_attempts:alice" := ("3", Some 900)]}
             (Sample.store [] [UserSite.mk 1 1 1 "user" 0; UserSite.mk 2 1 2 "admin" 0]) in
  exists result s',
    AuthService.login (ext := Sample.external) "alice" "pw" 100 "0f" s = (Ok result, s')
    /\ redis_get 101 "login_attempts:alice" s' = None
    /\ User.last_login (lr_user result) = Some 100.
Proof.
  intros s.
  destruct (AuthService.login (ext := Sample.external) "alice" "pw" 100 "0f" s)
    as [[result|] s'] eqn:Hlogin; [|vm_compute in Hlogin; discriminate Hlogin].
  destruct (successful_login_resets_the_counter_and_lists_the_memberships
              (ext := Sample.external) "alice" "pw" "0f" 100 s s' result Hlogin)
    as (user & Hfind & _ & _ & Huser & _ & _ & _ & Hreset & _).
  exists result, s'. split; [reflexivity|]. split; [apply Hreset|].
  rewrite Huser. reflexivity.
Defined.

(** ** Issued tokens and the middleware *)

Section IssuedTokens.
Context {ext : External}.

Lemma login_token (username password token_hex : string) (now : Z)
    (s s' : Store) (result : LoginResult) :
  AuthService.login username password now token_hex s = (Ok result, s') ->
  lr_token result
  = jwt_encode (login_payload (lr_user result) now token_hex s) JWT_SECRET_KEY.
Proof.
  unfold AuthService.login, AuthService.is_account_locked, mbind at 1, M_bind at 1, gets.
  destruct (bool_decide _); [done|].
  unfold mbind at 1, M_bind at 1.
  destruct (find _ (users s)) as [user|] eqn:Hfind.
  2:{ unfold mbind, M_bind, raise.
      by destruct (AuthService.handle_failed_login username now s) as [[?|?] ?]. }
  destruct (checkpw password (User.password_hash user)) eqn:Hpw; simpl.
  2:{ unfold mbind, M_bind, raise.
      by destruct (AuthService.handle_failed_login username now s) as [[?|?] ?]. }
  unfold mbind, M_bind, AuthService._reset_failed_login_attempts, redis_delete, modify.
  unfold mbind, M_bind. simpl.
  set (user' := User.set_last_login (Some now) user).
  set (s1 := set_users _ _).
  change (get_site_ids user' s1) with (get_site_ids user' s).
  destruct (get_site_ids user' s) as [|first rest] eqn:Hsites; [done|].
  unfold mret, M_ret. intros [= <- <-]. cbn [lr_user lr_token].
  unfold login_payload. by rewrite Hsites.
Qed.

(** A payload without [site_ids] is turned away by the middleware. *)
Lemma auth_middleware_without_site_ids (request : Request) (now : Z) (s : Store)
    (token : string) :
  endpoint request ∉ map Some PUBLIC_ROUTES ->
  AuthUtils.get_token_from_request request = Some token ->
  (forall token_data,
     Security.decode_token token JWT_SECRET_KEY now = Some token_data ->
     site_ids token_data = None) ->
  AuthMiddleware.auth_middleware request now s = (Raise (HTTPAbort 401), s)
  \/ AuthMiddleware.auth_middleware request now s = (Raise (HTTPAbort 403), s).
Proof.
  intros Hroute Htoken Hnone. unfold AuthMiddleware.auth_middleware.
  rewrite bool_decide_eq_false_2 by done. rewrite Htoken.
  destruct token as [|c token']; [by left|].
  unfold mbind, M_bind, AuthUtils.validate_auth_token, gets.
  case_bool_decide; [by left|].
  destruct (Security.decode_token _ _ _) as [token_data|] eqn:Hdecode; [|by left].
  specialize (Hnone token_data eq_refl).
  unfold AuthUtils.get_user_from_token.
  destruct (sub token_data) as [[|p|p]|]; try (by left); simpl;
    (destruct (find _ (users s)) as [user|]; [|by left]);
    (destruct (User.is_active user); simpl; [|by left]);
    unfold AuthUtils.get_site_context; rewrite Hnone; by right.
Qed.
End IssuedTokens.

(** X17.  Let PyJWT decode the token of a completed [login] to nothing but
    the payload that was signed.  That payload carries the site ids under
    [sites] and has no [site_ids] entry, which is the one [get_site_context]
    reads: so whatever the time and the store, the middleware answers a
    request to a protected route that presents the token with 401 or 403
    and never sets a user or a site context for it. *)
Theorem token_issued_by_login_passes_no_protected_route {ext : External}
    (username password token_hex : string) (now : Z) (s s' : Store)
    (result : LoginResult) :
  AuthService.login username password now token_hex s = (Ok result, s') ->
  (forall later token_data,
     jwt_decode (lr_token result) JWT_SECRET_KEY later = JwtPayload token_data ->
     token_data = login_payload (lr_user result) now token_hex s) ->
  site_ids (login_payload (lr_user result) now token_hex s) = None
  /\ claim_sites (login_payload (lr_user result) now token_hex s)
     = Some (get_site_ids (lr_user result) s)
  /\ (forall token_data site_id,
        token_data = login_payload (lr_user result) now token_hex s ->
        AuthUtils.get_site_context token_data site_id = None)
  /\ forall request later store,
       endpoint request ∉ map Some PUBLIC_ROUTES ->
       AuthUtils.get_token_from_request request = Some (lr_token result) ->
       AuthMiddleware.auth_middleware request later store
       = (Raise (HTTPAbort 401), store)
       \/ AuthMiddleware.auth_middleware request later store
          = (Raise (HTTPAbort 403), store).
Proof.
  intros Hlogin Hsigned. split; [done|]. split; [done|]. split.
  - intros token_data site_id ->. done.
  - intros request later store Hroute Htoken.
    apply (auth_middleware_without_site_ids request later store (lr_token result));
      [done..|].
    intros token_data. unfold Security.decode_token.
    destruct (jwt_decode _ _ _) as [payload| |] eqn:Hdecode; try done.
    destruct (negb _); [done|]. intros [= <-].
    by rewrite (Hsigned later payload Hdecode).
Qed.

Lemma token_issued_by_login_passes_no_protected_route_witness :
  let s := Sample.store [] [UserSite.mk 1 1 1 "user" 0] in
  let payload :=
    mkClaims (Some 1) None (Some [1]) (Some "alice") (Some 86500) (Some 100) (Some "0f") in
  let request := mkRequest (Some "interactions.list") (Some "Bearer tok") None None in
  exists result s',
    AuthService.login (ext := Sample.external_for payload) "alice" "pw" 100 "0f" s
    = (Ok result, s')
    /\ AuthMiddleware.auth_middleware (ext := Sample.external_for payload) request 200 s'
       = (Raise (HTTPAbort 403), s').
Proof.
  intros s payload request.
  destruct (AuthService.login (ext := Sample.external_for payload) "alice" "pw" 100 "0f" s)
    as [[result|] s'] eqn:Hlogin; [|vm_compute in Hlogin; discriminate Hlogin].
  pose proof Hlogin as Hrun. vm_compute in Hrun. injection Hrun as <- <-.
  destruct (token_issued_by_login_passes_no_protected_route
              (ext := Sample.external_for payload) "alice" "pw" "0f" 100 s _ _ Hlogin)
    as (_ & _ & _ & Hreject).
  - intros later token_data. cbn. unfold Sample.decode_as. cbn.
    destruct (later <? 86500); [|done]. by intros [= <-].
  - eexists _, _. split; [reflexivity|].
    match goal with
    | |- AuthMiddleware.auth_middleware _ _ ?store = _ =>
        destruct (Hreject request 200 store) as [H401|H403]
    end;
      [compute_done | reflexivity | vm_compute in H401; discriminate H401 | exact H403].
Defined.

(** X18.  Let PyJWT decode, at some time, the token [create_auth_token]
    made for a user and a list of sites to the payload that was signed (the
    user as [sub], the list as [site_ids], and the [exp], [iat] and [jti]
    that [generate_token] adds).  Then, the token not being blacklisted,
    [validate_auth_token] returns that payload; [get_site_context] accepts
    exactly the sites of the list; and for a stored active user with that
    id and a non-empty list the middleware lets a request to a protected
    route that presents the token through, as that user, in the first site
    of the list when the request names no site. *)
Theorem auth_token_is_accepted_for_its_user_and_sites {ext : External}
    (user_id : Z) (site_ids : list Z) (expiration_hours now later : Z)
    (token_hex : string) (s : Store) :
  let token :=
    AuthUtils.create_auth_token user_id site_ids expiration_hours now token_hex in
  let payload := auth_token_payload user_id site_ids expiration_hours now token_hex in
  jwt_decode token JWT_SECRET_KEY later = JwtPayload payload ->
  token ∉ TOKEN_BLACKLIST s ->
  token = jwt_encode payload JWT_SECRET_KEY
  /\ AuthUtils.validate_auth_token token later s = (Ok (Some payload), s)
  /\ (forall site_id,
        AuthUtils.get_site_context payload (Some (SiteInt site_id))
        = if bool_decide (site_id ∈ site_ids)
          then Some (mkSiteContext site_id site_ids) else None)
  /\ (forall request user first rest,
        site_ids = first :: rest ->
        endpoint request ∉ map Some PUBLIC_ROUTES ->
        AuthUtils.get_token_from_request request = Some token ->
        token <> "" ->
        arg_site_id request = None ->
        user_id <> 0 ->
        find (fun u => User.id u =? user_id) (users s) = Some user ->
        User.is_active user = true ->
        AuthMiddleware.auth_middleware request later s
        = (Ok (Some (user, mkSiteContext first site_ids)), s)).
Proof.
  intros token payload Hdecode Hfree.
  assert (Hvalid : AuthUtils.validate_auth_token token later s = (Ok (Some payload), s)).
  { unfold AuthUtils.validate_auth_token, gets.
    rewrite bool_decide_eq_false_2 by done.
    unfold Security.decode_token. by rewrite Hdecode. }
  split; [done|]. split; [done|]. split.
  - intros site_id. unfold AuthUtils.get_site_context. simpl.
    destruct site_ids as [|first rest]; [|done].
    by rewrite bool_decide_eq_false_2 by apply not_elem_of_nil.
  - intros request user first rest Hids Hroute Htoken Hne Harg Hid Hfind Hactive.
    unfold AuthMiddleware.auth_middleware.
    rewrite bool_decide_eq_false_2 by done. rewrite Htoken.
    destruct token as [|c token'] eqn:Htok; [done|].
    unfold mbind, M_bind. rewrite Hvalid.
    unfold AuthUtils.get_user_from_token, payload, auth_token_payload, gets.
    cbn [sub]. destruct user_id as [|p|p]; [done| |];
      rewrite Hfind, Hactive; simpl;
      unfold AuthMiddleware.requested_site, AuthUtils.get_site_context;
      rewrite Harg, Hids; reflexivity.
Qed.

Lemma auth_token_is_accepted_for_its_user_and_sites_witness :
  let ext := Sample.external_for (auth_token_payload 1 [2; 1] 1 0 "j1") in
  let s := Sample.store [] [] in
  let request := mkRequest (Some "interactions.list") (Some "Bearer tok") None None in
  AuthUtils.validate_auth_token (ext := ext)
    (AuthUtils.create_auth_token (ext := ext) 1 [2; 1] 1 0 "j1") 100 s
  = (Ok (Some (auth_token_payload 1 [2; 1] 1 0 "j1")), s)
  /\ AuthMiddleware.auth_middleware (ext := ext) request 100 s
     = (Ok (Some (Sample.alice, mkSiteContext 2 [2; 1])), s).
Proof.
  intros ext s request.
  destruct (auth_token_is_accepted_for_its_user_and_sites (ext := ext)
              1 [2; 1] 1 0 100 "j1" s) as (_ & Hvalid & _ & Hpass).
  - reflexivity.
  - compute_done.
  - split; [exact Hvalid|].
    apply (Hpass request Sample.alice 2 [1]);
      [reflexivity | compute_done | reflexivity | discriminate | reflexivity
      | discriminate | reflexivity | reflexivity].
Defined.

(** ** The active site of a user *)

Section ActiveSite.

Lemma get_site_ids_inv (user : User.t) (site_id : Z) (s : Store) :
  site_id ∈ get_site_ids user s ->
  exists m, find (SiteRepository.is_pair (User.id user) site_id) (user_sites s) = Some m.
Proof.
  unfold get_site_ids. intros (m & -> & Hm)%list_elem_of_fmap.
  apply filter_bool_elem in Hm as [Hm Hu].
  destruct (find (SiteRepository.is_pair (User.id user) (UserSite.site_id m))
              (user_sites s)) as [m'|] eqn:Hfind; [eauto|].
  apply find_None_Forall with (x := m) in Hfind; [|done].
  unfold SiteRepository.is_pair in Hfind. rewrite Hu, Z.eqb_refl in Hfind. done.
Qed.
End ActiveSite.

(** X19.  [set_site_context] changes nothing.  When it returns, the site
    asked for is a stored, active site, the user has a membership of it, and
    the context carries the site's id and name and, as role, the role of the
    user's first membership of the site (never an absent role).  For a site
    that is not stored or not active, and for a user without a membership
    of the site, it raises Forbidden. *)
Theorem site_context_needs_an_active_site_and_a_membership
    (user : User.t) (site_id : Z) (s : Store) :
  (forall context s',
     AuthService.set_site_context user site_id s = (Ok context, s') ->
     s' = s
     /\ as_site_id context = site_id
     /\ exists site m,
          site ∈ sites s /\ Site.site_id site = site_id /\ Site.is_active site = true
          /\ as_name context = Site.name site
          /\ find (SiteRepository.is_pair (User.id user) site_id) (user_sites s) = Some m
          /\ as_role context = Some (UserSite.role m))
  /\ ((forall site, site ∈ sites s -> Site.site_id site = site_id ->
         Site.is_active site = false) ->
      AuthService.set_site_context user site_id s = (Raise Forbidden, s))
  /\ ((forall m, m ∈ user_sites s -> UserSite.user_id m = User.id user ->
         UserSite.site_id m <> site_id) ->
      AuthService.set_site_context user site_id s = (Raise Forbidden, s)).
Proof.
  unfold AuthService.set_site_context. split; [|split].
  - intros context s'.
    destruct (find _ (sites s)) as [site|] eqn:Hsite; [|done].
    destruct (has_site_access user site_id s) eqn:Haccess; simpl; [|done].
    intros [= <- <-]. simpl.
    apply find_Some_elem in Hsite as [Hin Hcond].
    apply andb_true_iff in Hcond as [Hid%Z.eqb_eq Hactive].
    apply bool_decide_eq_true, get_site_ids_inv in Haccess as [m Hm].
    split; [done|]. split; [done|]. exists site, m. rewrite Hm. done.
  - intros Hinactive.
    replace (find _ (sites s)) with (@None Site.t); [done|].
    symmetry. apply find_None_Forall. intros site Hsite.
    destruct (Z.eqb_spec (Site.site_id site) site_id) as [Hid|]; [|done].
    by rewrite (Hinactive site Hsite Hid).
  - intros Hnone. destruct (find _ (sites s)); [|done].
    replace (has_site_access user site_id s) with false; [done|].
    symmetry. apply bool_decide_eq_false. unfold get_site_ids.
    intros (m & -> & Hm)%list_elem_of_fmap.
    apply filter_bool_elem in Hm as [Hm Hu]. apply (Hnone m); [done | lia | done].
Qed.

(** ** Creating a user, and the first login *)

Section NewUser.
Context {ext : External} {bc : Bcrypt}.

(** What a completed [create_user] has checked and stored. *)
Lemma create_user_Ok (user_data : UserData) (salt : string) (s s' : Store)
    (user : User.t) :
  AuthService.create_user user_data salt s = (Ok user, s') ->
  exists username email password,
    user_data = mkUserData (Some username) (Some email) (Some password)
    /\ username <> "" /\ email <> "" /\ password <> ""
    /\ find (fun u => String.eqb (User.username u) username) (users s) = None
    /\ find (fun u => String.eqb (User.email u) email) (users s) = None
    /\ (Security.validate_password_strength password).1 = true
    /\ user = User.mk (fresh_id (map User.id (users s))) username email
                (hashpw password salt) None true
    /\ s' = set_users (users s ++ [user]) s.
Proof.
  unfold AuthService.create_user. destruct user_data as [[[|c1 u]|] [[|c2 e]|] [[|c3 p]|]];
    try done.
  cbn [ud_username ud_email ud_password]. unfold mbind, M_bind, gets, raise.
  destruct (find _ (users s)) eqn:Hname; [done|].
  destruct (find (fun u0 => String.eqb (User.email u0) _) (users s)) eqn:Hemail; [done|].
  destruct (Security.validate_password_strength (String c3 p)).1 eqn:Hstrong; [|done].
  simpl. intros [= <- <-]. eexists _, _, _. repeat split; done.
Qed.

Lemma has_char_elem (p : ascii -> bool) (s : string) :
  Security.has_char p s = true -> exists c, c ∈ list_ascii_of_string s /\ p c = true.
Proof.
  induction s as [|c s IH]; simpl; [done|].
  destruct (p c) eqn:Hc; simpl.
  - intros _. exists c. split; [left | done].
  - intros (c' & Hin & Hc')%IH. exists c'. split; [by right | done].
Qed.

Lemma first_line_elem (s : string) (c : ascii) :
  c ∈ list_ascii_of_string (Security.first_line s) -> c ∈ list_ascii_of_string s.
Proof.
  induction s as [|a s IH]; simpl; [done|].
  destruct (Ascii.eqb a "010"); simpl; [by intros ?%elem_of_nil|].
  intros [->|Hin]%elem_of_cons; [left | right; auto].
Qed.

(** A password that passes has eight characters or more and holds a small
    letter, a capital letter, a digit and one of the special characters. *)
Lemma validate_password_strength_sound (password : string) :
  (Security.validate_password_strength password).1 = true ->
  8 <= Z.of_nat (String.length password)
  /\ forall class,
       class ∈ [Security.is_lower; Security.is_upper; Security.is_digit;
                Security.is_special] ->
       exists c, c ∈ list_ascii_of_string password /\ class c = true.
Proof.
  unfold Security.validate_password_strength, Security.PASSWORD_MIN_LENGTH.
  destruct (Z.of_nat (String.length password) <? 8) eqn:Hlen; [done|].
  destruct (Security.matches_PASSWORD_REGEX password) eqn:Hmatch; [|done].
  intros _. split; [lia|].
  unfold Security.matches_PASSWORD_REGEX in Hmatch.
  repeat (apply andb_true_iff in Hmatch as [Hmatch ?]).
  intros class Hclass.
  assert (Security.has_char class (Security.first_line password) = true) as Hhas.
  { repeat (apply elem_of_cons in Hclass as [->|Hclass]; [done|]).
    by apply elem_of_nil in Hclass. }
  apply has_char_elem in Hhas as (c & Hin & Hc).
  exists c. split; [by apply first_line_elem | done].
Qed.

Lemma get_site_ids_nil (user : User.t) (s : Store) :
  (forall m, m ∈ user_sites s -> UserSite.user_id m <> User.id user) ->
  get_site_ids user s = [].
Proof.
  intros Hnone. unfold get_site_ids.
  rewrite filter_nil_Forall; [done|].
  intros m Hm Hu. apply (Hnone m Hm). lia.
Qed.

(** [login] with credentials that are accepted, on an account that is not
    locked. *)
Lemma login_accepted (username password token_hex : string) (now : Z)
    (s : Store) (user : User.t) :
  redis_get now ("account_locked:" ++ username) s = None ->
  find (fun u => String.eqb (User.username u) username) (users s) = Some user ->
  checkpw password (User.password_hash user) = true ->
  let user' := User.set_last_login (Some now) user in
  exists s1,
    (get_site_ids user s = [] ->
     AuthService.login username password now token_hex s = (Raise Forbidden, s1))
    /\ (get_site_ids user s <> [] ->
        exists infos,
          AuthService.login username password now token_hex s
          = (Ok (mkLoginResult
                   (jwt_encode (login_payload user' now token_hex s) JWT_SECRET_KEY)
                   user' infos), s1)).
Proof.
  intros Hunlocked Hfind Hpw user'.
  unfold AuthService.login, AuthService.is_account_locked, mbind, M_bind, gets.
  rewrite Hunlocked. simpl. rewrite Hfind, Hpw. simpl. fold user'.
  change (get_site_ids user' _) with (get_site_ids user s).
  unfold login_payload.
  change (get_site_ids user' s) with (get_site_ids user s).
  destruct (get_site_ids user s) as [|first rest].
  - eexists. split; [reflexivity | done].
  - eexists. split; [done|]. intros _. eexists. reflexivity.
Qed.
End NewUser.

(** X20.  A completed [create_user] was given a user name and an e-mail
    address no stored user had and a password of eight characters or more
    with a small letter, a capital letter, a digit and a special character;
    it has stored, under a new id, an active user with the hash of that
    password and nothing else.  Memberships referring to stored users only
    and bcrypt verifying a password against its own hash: the new user's
    login, on an account that is not locked, is answered Forbidden as long
    as the user has no membership, and once [associate_user_with_site] has
    given one, it returns the user and a token for the site. *)
Theorem new_user_logs_in_once_a_member {ext : External} {bc : Bcrypt}
    (user_data : UserData) (salt : string) (s s1 : Store) (user : User.t) :
  AuthService.create_user user_data salt s = (Ok user, s1) ->
  (forall m, m ∈ user_sites s -> UserSite.user_id m ∈ map User.id (users s)) ->
  (forall password, checkpw password (hashpw password salt) = true) ->
  exists username email password,
    user_data = mkUserData (Some username) (Some email) (Some password)
    /\ user = User.mk (fresh_id (map User.id (users s))) username email
                (hashpw password salt) None true
    /\ (User.id user ∉ map User.id (users s))
    /\ (username ∉ map User.username (users s))
    /\ (email ∉ map User.email (users s))
    /\ 8 <= Z.of_nat (String.length password)
    /\ (forall class,
          class ∈ [Security.is_lower; Security.is_upper; Security.is_digit;
                   Security.is_special] ->
          exists c, c ∈ list_ascii_of_string password /\ class c = true)
    /\ s1 = set_users (users s ++ [user]) s
    /\ (forall now token_hex,
          redis_get now ("account_locked:" ++ username) s1 = None ->
          exists s2,
            AuthService.login username password now token_hex s1 = (Raise Forbidden, s2))
    /\ (forall site_id role assigned now token_hex membership s2,
          AuthService.associate_user_with_site (User.id user) site_id role assigned s1
          = (Ok membership, s2) ->
          redis_get now ("account_locked:" ++ username) s2 = None ->
          exists result s3,
            AuthService.login username password now token_hex s2 = (Ok result, s3)
            /\ User.id (lr_user result) = User.id user
            /\ lr_token result
               = jwt_encode
                   (mkClaims (Some (User.id user)) None (Some [site_id]) (Some username)
                      (Some (now + 24 * 3600)) (Some now) (Some token_hex))
                   JWT_SECRET_KEY).
Proof.
  intros Hcreate Hfk Hbcrypt.
  apply create_user_Ok in Hcreate
    as (username & email & password & -> & Hu & He & Hp & Hname & Hemail & Hstrong
        & -> & ->).
  set (user := User.mk _ username email _ None true).
  apply validate_password_strength_sound in Hstrong as [Hlen Hclasses].
  assert (Hfresh : User.id user ∉ map User.id (users s)).
  { intros Hin. apply fresh_id_gt in Hin. simpl in Hin. lia. }
  assert (Hnew_name : username ∉ map User.username (users s)).
  { intros (u & Hequ & Hin)%list_elem_of_fmap.
    apply find_None_Forall with (x := u) in Hname; [|done].
    apply String.eqb_neq in Hname. congruence. }
  assert (Hnew_email : email ∉ map User.email (users s)).
  { intros (u & Hequ & Hin)%list_elem_of_fmap.
    apply find_None_Forall with (x := u) in Hemail; [|done].
    apply String.eqb_neq in Hemail. congruence. }
  exists username, email, password. do 8 (split; [done|]).
  set (s1 := set_users (users s ++ [user]) s).
  assert (Hfound : find (fun u => String.eqb (User.username u) username) (users s1)
                   = Some user).
  { unfold s1. simpl. rewrite find_app, Hname. simpl. by rewrite String.eqb_refl. }
  assert (Hnomember : forall m, m ∈ user_sites s -> UserSite.user_id m <> User.id user).
  { intros m Hm Heq. apply Hfresh. rewrite <- Heq. by apply Hfk. }
  split.
  - intros now token_hex Hunlocked.
    destruct (login_accepted username password token_hex now s1 user Hunlocked Hfound
                (Hbcrypt password)) as (s2 & Hnone & _).
    exists s2. apply Hnone. apply get_site_ids_nil. exact Hnomember.
  - intros site_id role assigned now token_hex membership s2 Hassoc Hunlocked.
    revert Hassoc Hunlocked. unfold AuthService.associate_user_with_site.
    destruct (find (fun u => User.id u =? User.id user) (users s1)); [|done].
    destruct (find (fun x => Site.site_id x =? site_id) (sites s1)); [|done].
    replace (find (SiteRepository.is_pair (User.id user) site_id) (user_sites s1))
      with (@None UserSite.t).
    2:{ symmetry. apply find_None_Forall. intros m Hm.
        unfold SiteRepository.is_pair. apply andb_false_iff. left.
        apply Z.eqb_neq. by apply Hnomember. }
    intros [= <- <-].
    set (s2 := set_user_sites _ s1). intros Hunlocked.
    assert (Hids : get_site_ids user s2 = [site_id]).
    { unfold get_site_ids, s2. cbn [user_sites set_user_sites s1 set_users].
      rewrite List.filter_app, map_app.
      rewrite filter_nil_Forall.
      2:{ intros m Hm Hum. apply (Hnomember m Hm). lia. }
      simpl. by rewrite Z.eqb_refl. }
    destruct (login_accepted username password token_hex now s2 user Hunlocked Hfound
                (Hbcrypt password)) as (s3 & _ & Hsome).
    destruct Hsome as [infos Hlogin]; [by rewrite Hids|].
    eexists _, s3. split; [exact Hlogin|]. split; [done|].
    cbn [lr_token]. unfold login_payload.
    change (get_site_ids (User.set_last_login (Some now) user) s2)
      with (get_site_ids user s2).
    by rewrite Hids.
Qed.

Lemma new_user_logs_in_once_a_member_witness :
  let s := Sample.store [] [UserSite.mk 1 1 1 "user" 0] in
  let data := mkUserData (Some "carol") (Some "carol@example.org") (Some "Secret!12") in
  exists user s1 s2,
    AuthService.create_user (bc := Sample.bcrypt) data "salt" s = (Ok user, s1)
    /\ User.id user = 3
    /\ AuthService.login (ext := Sample.external) "carol" "Secret!12" 100 "0f" s1
       = (Raise Forbidden, s2).
Proof.
  intros s data.
  destruct (AuthService.create_user (bc := Sample.bcrypt) data "salt" s)
    as [[user|] s1] eqn:Hcreate; [|vm_compute in Hcreate; discriminate Hcreate].
  destruct (new_user_logs_in_once_a_member (ext := Sample.external) (bc := Sample.bcrypt)
              data "salt" s s1 user Hcreate)
    as (username & email & password & Hdata & Huser & _ & _ & _ & _ & _ & _ & Hlogin & _).
  - simpl. intros m ->%list_elem_of_singleton. simpl. compute_done.
  - intros password. apply String.eqb_refl.
  - injection Hdata as <- <- <-.
    destruct (Hlogin 100 "0f") as [s2 Hforbidden].
    + vm_compute in Hcreate. injection Hcreate as <- <-. reflexivity.
    + exists user, s1, s2. split; [reflexivity|]. split; [|exact Hforbidden].
      rewrite Huser. reflexivity.
Defined.

(** ** Resetting a password *)

Lemma pretty_N_go_nonempty (x : N) (s : string) : s <> "" -> pretty_N_go x s <> "".
Proof.
  revert s. induction (N.lt_wf_0 x) as [x _ IH]; intros s Hs.
  destruct (decide (x = 0)%N) as [->|Hx]; [by rewrite pretty_N_go_0|].
  rewrite pretty_N_go_step by lia. apply IH; [apply N.div_lt; lia | done].
Qed.

Lemma pretty_Z_nonempty (z : Z) : pretty z <> "".
Proof.
  destruct z as [|p|p]; [done| |done].
  unfold pretty, pretty_Z, pretty, pretty_positive, pretty, pretty_N.
  rewrite decide_False by done.
  rewrite pretty_N_go_step by lia. by apply pretty_N_go_nonempty.
Qed.

Lemma find_unique_key {A} (key : A -> Z) (l : list A) (x : A) :
  NoDup (map key l) -> x ∈ l -> find (fun y => key y =? key x) l = Some x.
Proof.
  induction l as [|a l IH]; simpl; intros Hnd Hx; [by apply elem_of_nil in Hx|].
  apply NoDup_cons in Hnd as [Ha Hnd].
  destruct (Z.eqb_spec (key a) (key x)) as [Heq|Hne].
  - apply elem_of_cons in Hx as [->|Hx]; [done|]. exfalso. apply Ha.
    rewrite Heq. by apply list_elem_of_fmap_2.
  - apply elem_of_cons in Hx as [->|Hx]; [done | auto].
Qed.

Section PasswordReset.
Context {ext : External} {bc : Bcrypt}.

Lemma reset_password_without_token (token new_password salt : string) (now : Z)
    (s : Store) :
  redis_get now (RESET_TOKEN_PREFIX ++ token) s = None ->
  AuthService.reset_password token new_password salt now s = (Raise BadRequest, s).
Proof.
  intros Hnone. unfold AuthService.reset_password, mbind, M_bind, gets.
  by rewrite Hnone.
Qed.
End PasswordReset.

(** X21.  For a stored user with the given e-mail address (user ids being
    the primary key, and [int] reading the numeral of the user's id as that
    id), [request_password_reset] returns the token drawn and keeps it in
    Redis for thirty minutes.  After these, [reset_password] with the token
    raises BadRequest.  Within them, it raises BadRequest for a password
    that is not strong enough, leaving the token usable; for a strong one it
    returns True, has stored the hash of the new password for that user and
    changed no other row, and has removed the token: every further
    [reset_password] with it raises BadRequest.  For an e-mail address no
    stored user has, [request_password_reset] returns None and changes
    nothing. *)
Theorem password_reset_token_works_once {ext : External} {bc : Bcrypt}
    (email reset_token : string) (now : Z) (s : Store) (user : User.t) :
  find (fun u => String.eqb (User.email u) email) (users s) = Some user ->
  NoDup (map User.id (users s)) ->
  py_int (pretty (User.id user)) = Some (User.id user) ->
  let s1 :=
    set_redis (<[RESET_TOKEN_PREFIX ++ reset_token
                 := (pretty (User.id user), Some (now + 30 * 60))]> (redis s)) s in
  AuthService.request_password_reset email reset_token now s = (Ok (Some reset_token), s1)
  /\ (forall later new_password salt,
        now + 30 * 60 <= later ->
        AuthService.reset_password reset_token new_password salt later s1
        = (Raise BadRequest, s1))
  /\ (forall later new_password salt,
        later < now + 30 * 60 ->
        (Security.validate_password_strength new_password).1 = false ->
        AuthService.reset_password reset_token new_password salt later s1
        = (Raise BadRequest, s1))
  /\ (forall later new_password salt,
        later < now + 30 * 60 ->
        (Security.validate_password_strength new_password).1 = true ->
        let user' :=
          User.mk (User.id user) (User.username user) (User.email user)
                  (hashpw new_password salt) (User.last_login user)
                  (User.is_active user) in
        exists s2,
          AuthService.reset_password reset_token new_password salt later s1
          = (Ok true, s2)
          /\ find (fun u => User.id u =? User.id user) (users s2) = Some user'
          /\ Permutation (user :: users s2) (user' :: users s)
          /\ user_sites s2 = user_sites s
          /\ (forall t any_password any_salt,
                AuthService.reset_password reset_token any_password any_salt t s2
                = (Raise BadRequest, s2)))
  /\ (forall other any_token t s0,
        find (fun u => String.eqb (User.email u) other) (users s0) = None ->
        AuthService.request_password_reset other any_token t s0 = (Ok None, s0)).
Proof.
  intros Hfind Hpk Hint s1.
  assert (Hin : user ∈ users s) by by apply find_Some_elem in Hfind as [? _].
  assert (Hbyid : find (fun u => User.id u =? User.id user) (users s) = Some user)
    by by apply find_unique_key.
  assert (Hlive : forall later, later < now + 30 * 60 ->
            redis_get later (RESET_TOKEN_PREFIX ++ reset_token) s1
            = Some (pretty (User.id user))).
  { intros later Hlater. by apply redis_get_insert. }
  split; [|split; [|split; [|split]]].
  - unfold AuthService.request_password_reset, mbind, M_bind, gets. by rewrite Hfind.
  - intros later new_password salt Hlate. apply reset_password_without_token.
    unfold redis_get, s1. simpl. rewrite lookup_insert_eq.
    by replace (later <? now + 30 * 60) with false by lia.
  - intros later new_password salt Hlater Hweak.
    unfold AuthService.reset_password, mbind, M_bind, gets. rewrite Hlive by done.
    pose proof (pretty_Z_nonempty (User.id user)) as Hne.
    destruct (pretty (User.id user)) as [|c str] eqn:Hpretty; [done|].
    rewrite Hint. simpl. rewrite Hbyid, Hweak. done.
  - intros later new_password salt Hlater Hstrong user'.
    unfold AuthService.reset_password, mbind, M_bind, gets. rewrite Hlive by done.
    pose proof (pretty_Z_nonempty (User.id user)) as Hne.
    destruct (pretty (User.id user)) as [|c str] eqn:Hpretty; [done|].
    rewrite Hint. simpl. rewrite Hbyid, Hstrong. simpl.
    unfold AuthService.set_password_hash, Security.hash_password, modify, redis_delete,
      modify, mret, M_ret.
    fold user'. eexists. split; [reflexivity|]. simpl.
    split; [|split; [|split]].
    + apply find_replace_first; [rewrite Hbyid; eauto | apply Z.eqb_refl].
    + by apply replace_first_Permutation.
    + done.
    + intros t any_password any_salt. apply reset_password_without_token.
      unfold redis_get. simpl. by rewrite lookup_delete_eq.
  - intros other any_token t s0 Hnone.
    unfold AuthService.request_password_reset, mbind, M_bind, gets. by rewrite Hnone.
Qed.

Lemma password_reset_token_works_once_witness :
  let s := Sample.store [] [] in
  exists s1 s2,
    AuthService.request_password_reset "bob@example.org" "r-1" 100 s
    = (Ok (Some "r-1"), s1)
    /\ AuthService.reset_password (ext := Sample.external) (bc := Sample.bcrypt)
         "r-1" "Secret!12" "salt" 200 s1 = (Ok true, s2)
    /\ AuthService.reset_password (ext := Sample.external) (bc := Sample.bcrypt)
         "r-1" "Other!345" "salt" 300 s2 = (Raise BadRequest, s2).
Proof.
  intros s.
  destruct (password_reset_token_works_once (ext := Sample.external) (bc := Sample.bcrypt)
              "bob@example.org" "r-1" 100 s Sample.bob)
    as (Hrequest & _ & _ & Hreset & _).
  - reflexivity.
  - simpl. compute_done.
  - vm_compute. reflexivity.
  - destruct (Hreset 200 "Secret!12" "salt") as (s2 & Hok & _ & _ & _ & Honce).
    + lia.
    + reflexivity.
    + eexists _, s2. split; [exact Hrequest|]. split; [exact Hok|]. apply Honce.
Defined.

(** ** Changing a password *)

Lemma find_unique_string_key {A} (key : A -> string) (l : list A) (x : A) :
  NoDup (map key l) -> x ∈ l -> find (fun y => String.eqb (key y) (key x)) l = Some x.
Proof.
  induction l as [|a l IH]; simpl; intros Hnd Hx; [by apply elem_of_nil in Hx|].
  apply NoDup_cons in Hnd as [Ha Hnd].
  destruct (String.eqb_spec (key a) (key x)) as [Heq|Hne].
  - apply elem_of_cons in Hx as [->|Hx]; [done|]. exfalso. apply Ha.
    rewrite Heq. by apply list_elem_of_fmap_2.
  - apply elem_of_cons in Hx as [->|Hx]; [done | auto].
Qed.

Lemma find_replace_first_same_row {A} (p q : A -> bool) (l : list A) (x new : A) :
  find p l = Some x -> find q l = Some x -> p new = true ->
  find p (replace_first q new l) = Some new.
Proof.
  intros Hp Hq Hnew.
  assert (Hpx : p x = true) by by apply find_some in Hp as [_ ?].
  assert (Hqx : q x = true) by by apply find_some in Hq as [_ ?].
  induction l as [|a l IH]; simpl in *; [done|].
  destruct (p a) eqn:Hpa, (q a) eqn:Hqa; simpl.
  - by rewrite Hnew.
  - injection Hp as ->. congruence.
  - injection Hq as ->. congruence.
  - rewrite Hpa. auto.
Qed.

Section ChangePassword.
Context {ext : External} {bc : Bcrypt}.

Lemma login_rejected_gives_no_result (username password token_hex : string) (now : Z)
    (s : Store) (user : User.t) :
  find (fun u => String.eqb (User.username u) username) (users s) = Some user ->
  checkpw password (User.password_hash user) = false ->
  forall result, (AuthService.login username password now token_hex s).1 <> Ok result.
Proof.
  intros Hfind Hpw result.
  unfold AuthService.login, AuthService.is_account_locked, mbind at 1, M_bind at 1, gets.
  destruct (bool_decide _); [done|].
  unfold mbind at 1, M_bind at 1. rewrite Hfind, Hpw. simpl.
  unfold mbind, M_bind.
  by destruct (AuthService.handle_failed_login username now s) as [[?|?] ?].
Qed.
End ChangePassword.

(** X22.  [change_password] for a stored user (user ids and user names
    being unique): with a current password that does not check against the
    stored hash it raises Unauthorized, with a new password that is not
    strong enough BadRequest, and in both cases nothing is changed.
    Otherwise it returns True and has stored the hash of the new password in
    that user's row, changing no other row; from then on [login] under the
    user's name returns no result for any password that does not check
    against the new hash, and for one that does (the account not being
    locked) it ends in a token or, without a site, in Forbidden. *)
Theorem changed_password_is_the_one_login_checks {ext : External} {bc : Bcrypt}
    (user : User.t) (current_password new_password salt : string) (s : Store) :
  user ∈ users s ->
  NoDup (map User.id (users s)) ->
  NoDup (map User.username (users s)) ->
  let user' :=
    User.mk (User.id user) (User.username user) (User.email user)
            (hashpw new_password salt) (User.last_login user) (User.is_active user) in
  (checkpw current_password (User.password_hash user) = false ->
   AuthService.change_password user current_password new_password salt s
   = (Raise Unauthorized, s))
  /\ (checkpw current_password (User.password_hash user) = true ->
      (Security.validate_password_strength new_password).1 = false ->
      AuthService.change_password user current_password new_password salt s
      = (Raise BadRequest, s))
  /\ (checkpw current_password (User.password_hash user) = true ->
      (Security.validate_password_strength new_password).1 = true ->
      exists s1,
        AuthService.change_password user current_password new_password salt s
        = (Ok true, s1)
        /\ find (fun u => User.id u =? User.id user) (users s1) = Some user'
        /\ Permutation (user :: users s1) (user' :: users s)
        /\ (forall password now token_hex result,
              checkpw password (hashpw new_password salt) = false ->
              (AuthService.login (User.username user) password now token_hex s1).1
              <> Ok result)
        /\ (forall password now token_hex,
              checkpw password (hashpw new_password salt) = true ->
              redis_get now ("account_locked:" ++ User.username user) s1 = None ->
              (AuthService.login (User.username user) password now token_hex s1).1
              = Raise Forbidden
              \/ exists token infos,
                   (AuthService.login (User.username user) password now token_hex s1).1
                   = Ok (mkLoginResult token
                           (User.set_last_login (Some now) user') infos))).
Proof.
  intros Hin Hids Hnames user'.
  pose proof (find_unique_key User.id _ _ Hids Hin) as Hbyid.
  pose proof (find_unique_string_key User.username _ _ Hnames Hin) as Hbyname.
  unfold AuthService.change_password.
  split; [|split].
  - by intros ->.
  - by intros -> ->.
  - intros -> ->. simpl.
    unfold AuthService.set_password_hash, Security.hash_password, mbind, M_bind, modify,
      mret, M_ret.
    fold user'. eexists. split; [reflexivity|]. simpl.
    assert (Hbyname' :
      find (fun u => String.eqb (User.username u) (User.username user))
           (replace_first (fun u => User.id u =? User.id user) user' (users s))
      = Some user').
    { eapply find_replace_first_same_row; [exact Hbyname | exact Hbyid |].
      apply String.eqb_refl. }
    split; [|split; [|split]].
    + apply find_replace_first; [rewrite Hbyid; eauto | apply Z.eqb_refl].
    + by apply replace_first_Permutation.
    + intros password now token_hex result Hpw.
      by eapply login_rejected_gives_no_result; [exact Hbyname'|].
    + intros password now token_hex Hpw Hunlocked.
      destruct (login_accepted (User.username user) password token_hex now _ user'
                  Hunlocked Hbyname' Hpw) as (s2 & Hnone & Hsome).
      destruct (decide (get_site_ids user'
                  (set_users
                     (replace_first (fun u => User.id u =? User.id user) user' (users s))
                     s) = [])) as [Hnil|Hcons].
      * left. by rewrite (Hnone Hnil).
      * right. destruct (Hsome Hcons) as (infos & ->). eauto.
Qed.

Lemma changed_password_is_the_one_login_checks_witness :
  exists s1,
    AuthService.change_password (ext := Sample.external) (bc := Sample.bcrypt)
      Sample.bob "pw2" "Secret!12" "salt" (Sample.store [] []) = (Ok true, s1)
    /\ forall now token_hex result,
         (AuthService.login (ext := Sample.external) "bob" "pw2" now token_hex s1).1
         <> Ok result.
Proof.
  destruct (changed_password_is_the_one_login_checks
              (ext := Sample.external) (bc := Sample.bcrypt)
              Sample.bob "pw2" "Secret!12" "salt" (Sample.store [] []))
    as (_ & _ & Hchanged).
  - simpl. apply list_elem_of_further, list_elem_of_here.
  - simpl. compute_done.
  - simpl. compute_done.
  - destruct Hchanged as (s1 & Hok & _ & _ & Hrejected & _); [reflexivity..|].
    exists s1. split; [exact Hok|].
    intros now token_hex result. by apply Hrejected.
Defined.

(** ** The membership table under the service's operations *)

Section MembershipRows.
Context {A : Type}.
Implicit Types (p : A -> bool) (l : list A).

Lemma remove_first_sublist p l : sublist (remove_first p l) l.
Proof.
  induction l as [|a l IH]; simpl; [done|].
  destruct (p a); [by apply sublist_cons | by apply sublist_skip].
Qed.

Lemma remove_first_NoDup_map {B} (f : A -> B) p l :
  NoDup (map f l) -> NoDup (map f (remove_first p l)).
Proof.
  intros Hnd. eapply sublist_NoDup; [exact Hnd|].
  apply (fmap_sublist f), remove_first_sublist.
Qed.

Lemma replace_first_Forall (P : A -> Prop) p l new :
  P new -> Forall P l -> Forall P (replace_first p new l).
Proof.
  intros Hnew. induction 1 as [|a l Ha Hl IH]; simpl; [done|].
  destruct (p a); by constructor.
Qed.
End MembershipRows.

Section MembershipInvariant.
Context {ext : External}.

Lemma repository_remove_consistent (user_id site_id : Z) (s : Store) :
  memberships_consistent s ->
  memberships_consistent (SiteRepository.remove_user_from_site user_id site_id s).2.
Proof.
  intros (Hids & Hpairs & Hroles). unfold SiteRepository.remove_user_from_site.
  destruct (find _ (user_sites s)); [|done]. simpl.
  split; [|split]; simpl.
  - by apply remove_first_NoDup_map.
  - by apply remove_first_NoDup_map.
  - rewrite Forall_forall in Hroles |- *. intros m Hm. apply Hroles.
    eapply elem_of_sublist; [exact Hm | apply remove_first_sublist].
Qed.

Lemma repository_update_consistent (user_id site_id : Z) (role : string) (s : Store) :
  SiteService.valid_role role = true ->
  memberships_consistent s ->
  memberships_consistent (SiteRepository.update_user_site_role user_id site_id role s).2.
Proof.
  intros Hrole%bool_decide_eq_true (Hids & Hpairs & Hroles).
  unfold SiteRepository.update_user_site_role.
  destruct (find _ (user_sites s)) as [m|] eqn:Hfind; [|done]. simpl.
  split; [|split]; simpl.
  - by rewrite (replace_first_map UserSite.id _ _ m).
  - by rewrite (replace_first_map (fun m => (UserSite.user_id m, UserSite.site_id m)) _ _ m).
  - by apply replace_first_Forall.
Qed.

Lemma repository_add_consistent (user_id site_id : Z) (role : string) (now : Z)
    (s : Store) :
  SiteService.valid_role role = true ->
  memberships_consistent s ->
  memberships_consistent (SiteRepository.add_user_to_site user_id site_id role now s).2.
Proof.
  intros Hrole%bool_decide_eq_true (Hids & Hpairs & Hroles).
  unfold SiteRepository.add_user_to_site.
  destruct (find _ (user_sites s)) as [m|] eqn:Hfind; [done|]. simpl.
  rewrite find_None_Forall in Hfind.
  split; [|split]; simpl; rewrite ?map_app; simpl.
  - apply NoDup_app. split; [done|]. split; [|apply NoDup_singleton].
    intros x Hx ->%list_elem_of_singleton.
    apply fresh_id_gt in Hx. lia.
  - apply NoDup_app. split; [done|]. split; [|apply NoDup_singleton].
    intros x Hx ->%list_elem_of_singleton.
    apply list_elem_of_fmap in Hx as (m & Hpair & Hm).
    apply Hfind in Hm. unfold SiteRepository.is_pair in Hm.
    injection Hpair as Hu Hs. rewrite <- Hu, <- Hs, !Z.eqb_refl in Hm. done.
  - apply Forall_app. split; [done|]. by constructor.
Qed.

Lemma membership_step_consistent (s s' : Store) :
  membership_step s s' -> memberships_consistent s -> memberships_consistent s'.
Proof.
  intros Hstep Hok. destruct Hstep as [user_id site_id role now s|user_id site_id s|
                                       user_id site_id new_role s].
  - unfold SiteService.add_user_to_site, mbind, M_bind, SiteRepository.get_site_by_id, gets.
    destruct (find _ (sites s)); [|done].
    destruct (SiteService.valid_role (lower role)) eqn:Hrole; [|done]. simpl.
    by apply repository_add_consistent.
  - rewrite remove_user_from_site_spec.
    destruct (find _ (sites s)); [|done].
    destruct (bool_decide _ && _); [done|].
    by apply repository_remove_consistent.
  - rewrite update_user_site_role_spec.
    destruct (find _ (sites s)); [|done]. simpl.
    destruct (SiteService.valid_role (lower new_role)) eqn:Hrole; [|done]. simpl.
    destruct (bool_decide _ && _ && _); [done|].
    by apply repository_update_consistent.
Qed.
End MembershipInvariant.

(** X23.  The membership operations of [SiteService] ([add_user_to_site],
    [remove_user_from_site], [update_user_site_role]), in any number and
    order and whatever they return or raise, keep the membership table
    consistent: no two rows with the same id, no two rows for the same user
    and site, and no role other than "user" and "admin". *)
Theorem membership_operations_keep_the_table_consistent {ext : External}
    (s s' : Store) :
  rtc membership_step s s' ->
  memberships_consistent s ->
  memberships_consistent s'.
Proof.
  induction 1 as [s|s s1 s' Hstep _ IH]; [done|].
  intros Hok. by apply IH, (membership_step_consistent s).
Qed.

Lemma membership_operations_keep_the_table_consistent_witness :
  let s := Sample.store [] [] in
  let s1 := (SiteService.add_user_to_site 1 1 "Admin" 5 s).2 in
  let s2 := (SiteService.add_user_to_site 2 1 "USER" 6 s1).2 in
  let s3 := (SiteService.update_user_site_role (ext := Sample.external) 2 1 "owner" s2).2 in
  let s4 := (SiteService.remove_user_from_site (ext := Sample.external) 2 1 s3).2 in
  map UserSite.role (user_sites s2) = ["admin"; "user"]
  /\ memberships_consistent s4.
Proof.
  intros s s1 s2 s3 s4. split; [reflexivity|].
  apply (membership_operations_keep_the_table_consistent (ext := Sample.external) s).
  - eapply rtc_l; [apply (step_add_user_to_site 1 1 "Admin" 5)|].
    eapply rtc_l; [apply (step_add_user_to_site 2 1 "USER" 6)|].
    eapply rtc_l; [apply (step_update_user_site_role 2 1 "owner")|].
    eapply rtc_l; [apply (step_remove_user_from_site 2 1)|].
    apply rtc_refl.
  - repeat split; simpl; constructor.
Defined.

(** ** The access checks and the removal of a member *)

Section AccessChecks.
Implicit Types (l : list UserSite.t).

Lemma filter_is_pair (user_id site_id : Z) l :
  List.filter (SiteRepository.is_pair user_id site_id) l
  = List.filter (fun m => UserSite.site_id m =? site_id)
      (List.filter (fun m => UserSite.user_id m =? user_id) l).
Proof.
  induction l as [|m l IH]; simpl; [done|]. unfold SiteRepository.is_pair at 1.
  destruct (UserSite.user_id m =? user_id); simpl; [|done].
  destruct (UserSite.site_id m =? site_id); simpl; by rewrite IH.
Qed.

Lemma find_is_pair_filter (user_id site_id : Z) l :
  find (SiteRepository.is_pair user_id site_id) l
  = find (fun m => UserSite.site_id m =? site_id)
      (List.filter (fun m => UserSite.user_id m =? user_id) l).
Proof.
  induction l as [|m l IH]; simpl; [done|]. unfold SiteRepository.is_pair at 1.
  destruct (UserSite.user_id m =? user_id); simpl; [|done].
  by destruct (UserSite.site_id m =? site_id).
Qed.

Lemma count_positive_find {A} (p : A -> bool) (rows : list A) :
  (0 <? Z.of_nat (length (List.filter p rows))) = bool_decide (is_Some (find p rows)).
Proof.
  induction rows as [|a rows IH]; [done|]. cbn [List.filter find].
  destruct (p a); [|done].
  transitivity true; [apply Z.ltb_lt; cbn [length]; lia|].
  symmetry. apply bool_decide_eq_true_2. eauto.
Qed.

Lemma elem_site_ids_find (site_id : Z) l :
  site_id ∈ map UserSite.site_id l
  <-> is_Some (find (fun m => UserSite.site_id m =? site_id) l).
Proof.
  induction l as [|m l IH]; simpl.
  - split; [by intros ?%elem_of_nil | by intros [? ?]].
  - destruct (Z.eqb_spec (UserSite.site_id m) site_id) as [->|Hne].
    + split; [eauto | intros _; apply list_elem_of_here].
    + rewrite <- IH. rewrite elem_of_cons.
      split; [intros [Heq|Hin]; [by destruct Hne | done] | by right].
Qed.

Lemma has_site_access_find (user : User.t) (site_id : Z) (s : Store) :
  has_site_access user site_id s
  = bool_decide (is_Some (find (SiteRepository.is_pair (User.id user) site_id)
                            (user_sites s))).
Proof.
  unfold has_site_access, get_site_ids. rewrite find_is_pair_filter.
  apply bool_decide_ext, elem_site_ids_find.
Qed.

Lemma filter_bool_all_elem {A} (p : A -> bool) (rows : list A) :
  (forall x, x ∈ rows -> p x = true) -> List.filter p rows = rows.
Proof.
  induction rows as [|a rows IH]; simpl; intros Hall; [done|].
  rewrite Hall by apply list_elem_of_here. f_equal. apply IH.
  intros x Hx. apply Hall. by apply list_elem_of_further.
Qed.

Lemma remove_first_unique_pair (user_id site_id : Z) l :
  NoDup (map (fun m => (UserSite.user_id m, UserSite.site_id m)) l) ->
  remove_first (SiteRepository.is_pair user_id site_id) l
  = List.filter (fun m => negb (SiteRepository.is_pair user_id site_id m)) l.
Proof.
  induction l as [|m l IH]; simpl; [done|]. intros [Hm Hnd]%NoDup_cons.
  destruct (SiteRepository.is_pair user_id site_id m) eqn:Hpair; simpl.
  - symmetry. apply filter_bool_all_elem. intros m' Hm'.
    destruct (SiteRepository.is_pair user_id site_id m') eqn:Hpair'; [|done].
    exfalso. apply Hm. apply list_elem_of_fmap. exists m'. split; [|done].
    unfold SiteRepository.is_pair in Hpair, Hpair'.
    apply andb_true_iff in Hpair as [?%Z.eqb_eq ?%Z.eqb_eq].
    apply andb_true_iff in Hpair' as [?%Z.eqb_eq ?%Z.eqb_eq]. congruence.
  - f_equal. auto.
Qed.

Lemma find_filter_other {A} (p q : A -> bool) (rows : list A) :
  (forall x, p x = true -> q x = true) ->
  find p (List.filter q rows) = find p rows.
Proof.
  intros Hpq. induction rows as [|a rows IH]; simpl; [done|].
  destruct (q a) eqn:Hq; simpl.
  - by rewrite IH.
  - destruct (p a) eqn:Hp; [|done]. apply Hpq in Hp. congruence.
Qed.

Lemma find_filter_negb {A} (p : A -> bool) (rows : list A) :
  find p (List.filter (fun x => negb (p x)) rows) = None.
Proof.
  induction rows as [|a rows IH]; simpl; [done|].
  destruct (p a) eqn:Hp; simpl; [done|]. by rewrite Hp.
Qed.
End AccessChecks.

Lemma repository_access_checks (user : User.t) (site_id : Z) (s : Store) :
  SiteService.verify_user_site_access (User.id user) site_id s
  = (Ok (has_site_access user site_id s), s)
  /\ SiteService.get_user_site_role (User.id user) site_id s
     = (Ok (get_role_for_site user site_id s), s).
Proof.
  split.
  - unfold SiteService.verify_user_site_access, SiteRepository.user_has_site_access, gets.
    by rewrite count_positive_find, has_site_access_find.
  - unfold SiteService.get_user_site_role, SiteRepository.get_user_role_for_site, gets,
      get_role_for_site.
    by rewrite find_is_pair_filter.
Qed.

(** X24.  The ways of asking whether a user belongs to a site agree in
    every store: [verify_user_site_access] of the site service (a count of
    membership rows) returns what [User.has_site_access] says,
    [get_user_site_role] returns what [User.get_role_for_site] says, a role
    is reported exactly when there is access, and [is_user_site_admin] holds
    exactly when that role is "admin".  The default site of a user is one
    the user has access to, and there is none only for a user without any
    site. *)
Theorem access_checks_agree (user : User.t) (site_id : Z) (s : Store) :
  SiteService.verify_user_site_access (User.id user) site_id s
  = (Ok (has_site_access user site_id s), s)
  /\ SiteService.get_user_site_role (User.id user) site_id s
     = (Ok (get_role_for_site user site_id s), s)
  /\ (has_site_access user site_id s = true
      <-> is_Some (get_role_for_site user site_id s))
  /\ SiteService.is_user_site_admin (User.id user) site_id s
     = (Ok (bool_decide (get_role_for_site user site_id s = Some ADMIN_ROLE)), s)
  /\ match get_default_site_for_user user s with
     | Some default_site => has_site_access user default_site s = true
     | None => forall site, has_site_access user site s = false
     end.
Proof.
  assert (Hrole : option_map UserSite.role
                    (find (SiteRepository.is_pair (User.id user) site_id) (user_sites s))
                  = get_role_for_site user site_id s).
  { unfold get_role_for_site. by rewrite find_is_pair_filter. }
  split; [|split; [|split; [|split]]].
  - apply repository_access_checks.
  - apply repository_access_checks.
  - rewrite has_site_access_find, bool_decide_eq_true, <- Hrole.
    destruct (find _ (user_sites s)); simpl; split; intros [? ?]; eauto; done.
  - unfold SiteService.is_user_site_admin, SiteService.get_user_site_role,
      SiteRepository.get_user_role_for_site, mbind, M_bind, gets, mret, M_ret.
    by rewrite Hrole.
  - unfold get_default_site_for_user, has_site_access.
    destruct (get_site_ids user s) as [|first rest].
    + intros site. apply bool_decide_eq_false_2, not_elem_of_nil.
    + apply bool_decide_eq_true_2, list_elem_of_here.
Qed.

Section Removal.
Context {ext : External}.

Lemma has_site_access_other (user other : User.t) (site_id site : Z) (s : Store) :
  (User.id other, site) <> (User.id user, site_id) ->
  let s' :=
    set_user_sites
      (List.filter (fun m => negb (SiteRepository.is_pair (User.id user) site_id m))
         (user_sites s)) s in
  find (SiteRepository.is_pair (User.id other) site) (user_sites s')
  = find (SiteRepository.is_pair (User.id other) site) (user_sites s).
Proof.
  intros Hother s'. simpl. apply find_filter_other.
  intros m Hm. unfold SiteRepository.is_pair in *.
  apply andb_true_iff in Hm as [Hu%Z.eqb_eq Hs%Z.eqb_eq].
  apply negb_true_iff, andb_false_iff.
  destruct (Z.eqb_spec (UserSite.user_id m) (User.id user)) as [Hu'|]; [|by left].
  destruct (Z.eqb_spec (UserSite.site_id m) site_id) as [Hs'|]; [|by right].
  exfalso. apply Hother. congruence.
Qed.
End Removal.

(** X25.  With one membership row per user and site,
    [SiteService.remove_user_from_site] never raises: it either returns
    False and changes nothing, or returns True for a user who had access to
    the site, and then that user has no access to it any more -
    [has_site_access], [verify_user_site_access] and [get_user_site_role]
    say so, and [set_site_context] raises Forbidden for it - while every
    other membership, with its role, and the other tables are as before. *)
Theorem removed_member_has_no_access {ext : External}
    (user : User.t) (site_id : Z) (s : Store) :
  NoDup (map (fun m => (UserSite.user_id m, UserSite.site_id m)) (user_sites s)) ->
  let outcome := SiteService.remove_user_from_site (User.id user) site_id s in
  let s' := outcome.2 in
  outcome = (Ok false, s)
  \/ (outcome.1 = Ok true
      /\ has_site_access user site_id s = true
      /\ has_site_access user site_id s' = false
      /\ SiteService.verify_user_site_access (User.id user) site_id s' = (Ok false, s')
      /\ SiteService.get_user_site_role (User.id user) site_id s' = (Ok None, s')
      /\ AuthService.set_site_context user site_id s' = (Raise Forbidden, s')
      /\ (forall other site,
            (User.id other, site) <> (User.id user, site_id) ->
            has_site_access other site s' = has_site_access other site s
            /\ get_role_for_site other site s' = get_role_for_site other site s)
      /\ sites s' = sites s /\ users s' = users s /\ interactions s' = interactions s).
Proof.
  intros Hpairs outcome s'. subst s' outcome.
  rewrite remove_user_from_site_spec.
  destruct (find _ (sites s)) as [site|]; [|by left].
  destruct (bool_decide _ && _); [by left|].
  unfold SiteRepository.remove_user_from_site.
  destruct (find (SiteRepository.is_pair (User.id user) site_id) (user_sites s))
    as [m|] eqn:Hfind; [|by left].
  right. cbn [fst snd]. rewrite remove_first_unique_pair by done.
  set (s' := set_user_sites _ s).
  assert (Hgone : find (SiteRepository.is_pair (User.id user) site_id) (user_sites s')
                  = None) by apply find_filter_negb.
  assert (Hnone : has_site_access user site_id s' = false).
  { rewrite has_site_access_find, Hgone. by apply bool_decide_eq_false_2; intros [? ?]. }
  destruct (repository_access_checks user site_id s') as [Hverify Hrole].
  split; [done|]. split.
  { rewrite has_site_access_find, Hfind. apply bool_decide_eq_true_2. eauto. }
  split; [done|]. split; [by rewrite Hverify, Hnone|]. split.
  { rewrite Hrole. unfold get_role_for_site.
    by rewrite <- find_is_pair_filter, Hgone. }
  split.
  { unfold AuthService.set_site_context. destruct (find _ (sites s')); [|done].
    by rewrite Hnone. }
  split; [|done].
  intros other site' Hother.
  pose proof (has_site_access_other user other site_id site' s Hother) as Hsame.
  cbn zeta in Hsame. fold s' in Hsame.
  split.
  - by rewrite !has_site_access_find, Hsame.
  - unfold get_role_for_site. by rewrite <- !find_is_pair_filter, Hsame.
Qed.

Lemma removed_member_has_no_access_witness :
  let s := Sample.store [] [UserSite.mk 1 1 1 "admin" 0; UserSite.mk 2 2 1 "user" 0] in
  let s' := (SiteService.remove_user_from_site (ext := Sample.external) 2 1 s).2 in
  has_site_access Sample.bob 1 s = true
  /\ has_site_access Sample.bob 1 s' = false
  /\ has_site_access Sample.alice 1 s' = true.
Proof.
  intros s s'.
  destruct (removed_member_has_no_access (ext := Sample.external) Sample.bob 1 s)
    as [Hkept|(_ & Hhad & Hnone & _ & _ & _ & Hothers & _)].
  - simpl. compute_done.
  - vm_compute in Hkept. discriminate Hkept.
  - split; [exact Hhad|]. split; [exact Hnone|].
    destruct (Hothers Sample.alice 1) as [Hsame _]; [simpl; intros [= ?]|].
    etransitivity; [exact Hsame | reflexivity].
Defined.

(** ** Updating a site *)

Section ReplaceRows.
Context {A B : Type}.
Implicit Types (p : A -> bool) (l : list A) (f : A -> B).

Lemma replace_first_elem p l new y :
  y ∈ replace_first p new l -> y = new \/ y ∈ l.
Proof.
  induction l as [|a l IH]; simpl; [by intros ?%elem_of_nil|].
  destruct (p a).
  - intros [->|Hy]%elem_of_cons; [by left | right; by apply list_elem_of_further].
  - intros [->|Hy]%elem_of_cons; [right; apply list_elem_of_here|].
    destruct (IH Hy) as [->|Hin]; [by left | right; by apply list_elem_of_further].
Qed.

Lemma replace_first_NoDup_map f p l x new :
  NoDup (map f l) -> find p l = Some x ->
  f new = f x \/ f new ∉ map f l ->
  NoDup (map f (replace_first p new l)).
Proof.
  induction l as [|a l IH]; simpl; [done|].
  intros [Ha Hnd]%NoDup_cons Hfind Hnew.
  destruct (p a) eqn:Hpa; simpl; apply NoDup_cons.
  - injection Hfind as ->. split; [|done].
    destruct Hnew as [->|Hnew]; [done|].
    intros Hin. apply Hnew. by apply list_elem_of_further.
  - split.
    + intros (y & Hfy & Hy)%list_elem_of_fmap.
      destruct (replace_first_elem _ _ _ _ Hy) as [->|Hin].
      * destruct Hnew as [Hnew|Hnew].
        -- apply Ha. rewrite Hfy, Hnew. apply list_elem_of_fmap_2.
           by apply find_Some_elem in Hfind as [? _].
        -- apply Hnew. rewrite <- Hfy. apply list_elem_of_here.
      * apply Ha. rewrite Hfy. by apply list_elem_of_fmap_2.
    + apply IH; [done..|].
      destruct Hnew as [Hnew|Hnew]; [by left | right].
      intros Hin. apply Hnew. by apply list_elem_of_further.
Qed.
End ReplaceRows.

Section UpdateSite.

Lemma repository_update_site_Ok (site_id : Z) (site_data : SiteUpdate) (s : Store)
    (site : Site.t) :
  find (fun x => Site.site_id x =? site_id) (sites s) = Some site ->
  without_nulls site_data ->
  Site.name (updated_site site_data site) = Site.name site
  \/ Site.name (updated_site site_data site) ∉ map Site.name (sites s) ->
  SiteRepository.update_site site_id site_data s
  = (Ok (Some (updated_site site_data site)),
     set_sites
       (replace_first (fun x => Site.site_id x =? site_id) (updated_site site_data site)
          (sites s)) s).
Proof.
  intros Hfind [Hname Hactive] Hfree.
  unfold SiteRepository.update_site, updated_site in *. rewrite Hfind.
  destruct (su_name site_data) as [[name|]|], (su_is_active site_data) as [[is_active|]|];
    try done; simpl in *.
  all: try (rewrite String.eqb_refl; done).
  all: destruct (String.eqb_spec name (Site.name site)) as [->|Hne]; simpl; [done|];
       destruct Hfree as [?|Hfree]; [done|]; by rewrite bool_decide_eq_false_2.
Qed.

Lemma updated_site_consistent (site_id : Z) (site_data : SiteUpdate) (s : Store)
    (site : Site.t) :
  find (fun x => Site.site_id x =? site_id) (sites s) = Some site ->
  Site.name (updated_site site_data site) = Site.name site
  \/ Site.name (updated_site site_data site) ∉ map Site.name (sites s) ->
  sites_consistent s ->
  sites_consistent
    (set_sites
       (replace_first (fun x => Site.site_id x =? site_id) (updated_site site_data site)
          (sites s)) s).
Proof.
  intros Hfind Hfree [Hids Hnames]. split; simpl.
  - by rewrite (replace_first_map Site.site_id _ _ site).
  - by apply (replace_first_NoDup_map Site.name _ _ site).
Qed.

Lemma find_by_name_None (name : string) (rows : list Site.t) :
  find (fun x => String.eqb (Site.name x) name) rows = None ->
  name ∉ map Site.name rows.
Proof.
  rewrite find_None_Forall. intros Hall (x & -> & Hx)%list_elem_of_fmap.
  apply Hall in Hx. by rewrite String.eqb_refl in Hx.
Qed.

Lemma same_id_same_row (rows : list Site.t) (x y : Site.t) :
  NoDup (map Site.site_id rows) -> x ∈ rows -> y ∈ rows ->
  Site.site_id x = Site.site_id y -> x = y.
Proof.
  intros Hnd Hx Hy Hid.
  pose proof (find_unique_key Site.site_id rows x Hnd Hx) as Hfx.
  pose proof (find_unique_key Site.site_id rows y Hnd Hy) as Hfy.
  rewrite Hid in Hfx. congruence.
Qed.
End UpdateSite.

(** X26.  [SiteService.update_site] on a table of sites with one row per
    id and per name, for a payload without [None] for the name or the active
    flag, never fails in the database.  It returns None and changes nothing
    when no site has the id; it raises ValueError and changes nothing when
    the payload names another site's name; and otherwise it returns the row
    of the site with the payload's values in place of the old ones (id and
    creation time kept), has replaced that row and no other, and the table
    still has one row per id and per name. *)
Theorem update_site_keeps_names_unique (site_id : Z) (site_data : SiteUpdate)
    (s : Store) :
  sites_consistent s ->
  without_nulls site_data ->
  match SiteService.update_site site_id site_data s with
  | (Ok None, s') =>
      s' = s /\ forall x, x ∈ sites s -> Site.site_id x <> site_id
  | (Ok (Some site'), s') =>
      exists site,
        site ∈ sites s /\ Site.site_id site = site_id
        /\ site' = updated_site site_data site
        /\ s' = set_sites
                  (replace_first (fun x => Site.site_id x =? site_id) site' (sites s)) s
        /\ Permutation (site :: sites s') (site' :: sites s)
        /\ sites_consistent s'
  | (Raise (ValueError _), s') =>
      s' = s
      /\ exists site other,
           site ∈ sites s /\ Site.site_id site = site_id
           /\ other ∈ sites s /\ Site.site_id other <> site_id
           /\ su_name site_data = Some (Some (Site.name other))
  | (Raise _, _) => False
  end.
Proof.
  intros [Hids Hnames] Hnn.
  unfold SiteService.update_site, mbind, M_bind, SiteRepository.get_site_by_id, gets.
  destruct (find (fun x => Site.site_id x =? site_id) (sites s)) as [site|] eqn:Hfind.
  2:{ split; [done|]. rewrite find_None_Forall in Hfind.
      intros x Hx Heq. apply Hfind in Hx. by rewrite Heq, Z.eqb_refl in Hx. }
  pose proof Hfind as [Hsite Hid%Z.eqb_eq]%find_Some_elem.
  assert (Hupdate : forall s0,
    s0 = s ->
    Site.name (updated_site site_data site) = Site.name site
    \/ Site.name (updated_site site_data site) ∉ map Site.name (sites s) ->
    match SiteRepository.update_site site_id site_data s0 with
    | (Ok None, s') => s' = s /\ forall x, x ∈ sites s -> Site.site_id x <> site_id
    | (Ok (Some site'), s') =>
        exists site,
          site ∈ sites s /\ Site.site_id site = site_id
          /\ site' = updated_site site_data site
          /\ s' = set_sites
                    (replace_first (fun x => Site.site_id x =? site_id) site' (sites s)) s
          /\ Permutation (site :: sites s') (site' :: sites s)
          /\ sites_consistent s'
    | (Raise (ValueError _), s') =>
        s' = s
        /\ exists site other,
             site ∈ sites s /\ Site.site_id site = site_id
             /\ other ∈ sites s /\ Site.site_id other <> site_id
             /\ su_name site_data = Some (Some (Site.name other))
    | (Raise _, _) => False
    end).
  { intros s0 -> Hfree. rewrite (repository_update_site_Ok _ _ _ site) by done.
    exists site. repeat split; try done.
    - by apply replace_first_Permutation.
    - by apply updated_site_consistent.
    - by apply updated_site_consistent. }
  destruct (su_name site_data) as [[name|]|] eqn:Hname.
  - case_bool_decide as Hchanged.
    + unfold SiteRepository.get_site_by_name, gets.
      destruct (find (fun x => String.eqb (Site.name x) name) (sites s))
        as [existing|] eqn:Hexisting.
      * pose proof Hexisting as [Hin Hsame%String.eqb_eq]%find_Some_elem.
        destruct (Z.eqb_spec (Site.site_id existing) site_id) as [Heq|Hne]; simpl.
        -- exfalso. apply Hchanged. f_equal. rewrite <- Hsame. f_equal.
           apply (same_id_same_row (sites s)); [done..|congruence].
        -- split; [done|]. exists site, existing. by rewrite Hsame.
      * apply Hupdate; [done|]. right. unfold updated_site. rewrite Hname. simpl.
        by apply find_by_name_None.
    + apply Hupdate; [done|]. left. unfold updated_site. rewrite Hname. simpl.
      congruence.
  - by destruct Hnn as [? _].
  - apply Hupdate; [done|]. left. unfold updated_site. by rewrite Hname.
Qed.

Lemma update_site_keeps_names_unique_witness :
  let s := Sample.store [] [] in
  (SiteService.update_site 2 (mkSiteUpdate (Some (Some "HQ")) None None) s).1
  = Raise (ValueError "Site with name 'HQ' already exists")
  /\ exists site' s',
       SiteService.update_site 2 (mkSiteUpdate (Some (Some "Depot")) None (Some (Some false))) s
       = (Ok (Some site'), s')
       /\ sites_consistent s'.
Proof.
  intros s. split; [reflexivity|].
  assert (Hok : sites_consistent s) by (split; simpl; compute_done).
  pose proof (update_site_keeps_names_unique 2
                (mkSiteUpdate (Some (Some "Depot")) None (Some (Some false))) s Hok)
    as Hrun.
  destruct (SiteService.update_site _ _ s) as [[[site'|]|e] s'] eqn:Hupdate;
    try (vm_compute in Hupdate; discriminate Hupdate).
  destruct Hrun as (site & _ & _ & _ & _ & _ & Hkept); [by split|].
  by exists site', s'.
Defined.

(** ** Listing and deleting sites *)

Section SiteListings.
Context {sql : SqlText}.

Lemma unique_by_NoDup {A} (key : A -> Z) (seen : list Z) (l : list A) :
  NoDup (map key l) -> (forall x, x ∈ l -> key x ∉ seen) ->
  unique_by key seen l = l.
Proof.
  revert seen. induction l as [|a l IH]; intros seen; simpl; [done|].
  intros [Ha Hnd]%NoDup_cons Hseen.
  rewrite bool_decide_eq_false_2 by (apply Hseen, list_elem_of_here).
  f_equal. apply IH; [done|].
  intros x Hx [Heq|Hin]%elem_of_cons.
  - apply Ha. rewrite <- Heq. by apply list_elem_of_fmap_2.
  - by apply (Hseen x); [apply list_elem_of_further|].
Qed.

Lemma get_all_sites_all (active_only : bool) (s : Store) :
  exists r,
    SiteRepository.get_all_sites None active_only s = (Ok r, s)
    /\ PaginatedResult.items r
       = unique_by Site.site_id []
           (order_by_name
              (if active_only then List.filter Site.is_active (sites s) else sites s))
    /\ PaginatedResult.total r
       = Z.of_nat (length (if active_only then List.filter Site.is_active (sites s)
                           else sites s)).
Proof.
  unfold SiteRepository.get_all_sites, PaginatedResult.init.
  set (rows := order_by_name _).
  assert (Hlen : length rows
                 = length (if active_only then List.filter Site.is_active (sites s)
                           else sites s))
    by apply Permutation_length, order_by_name_Permutation.
  destruct ((0 <? Z.of_nat (length rows))
            && (Z.of_nat (length (unique_by Site.site_id [] rows)) =? 0)) eqn:Hzero.
  - exfalso. apply andb_true_iff in Hzero as [Hpos Hnone].
    assert (unique_by Site.site_id [] rows = []) as Hnil
      by (apply length_zero_iff_nil; lia).
    apply unique_by_nil in Hnil. rewrite Hnil in Hpos. discriminate Hpos.
  - eexists. split; [reflexivity|]. split; [reflexivity|]. simpl. by rewrite Hlen.
Qed.

Lemma listed_site_is_active (s : Store) (r : PaginatedResult.t Site.t) (x : Site.t) :
  SiteRepository.get_all_sites None true s = (Ok r, s) ->
  x ∈ PaginatedResult.items r -> x ∈ sites s /\ Site.is_active x = true.
Proof.
  destruct (get_all_sites_all true s) as (r' & -> & Hitems & _).
  intros [= <-]. rewrite Hitems. intros Hx.
  apply unique_by_spec in Hx as [_ Hx].
  rewrite order_by_name_Permutation in Hx.
  apply filter_bool_elem in Hx. done.
Qed.

Lemma user_site_rows_elem (user_id : Z) (s : Store) (x : Site.t) :
  x ∈ SiteRepository.user_site_rows user_id s
  <-> x ∈ sites s
      /\ is_Some (find (SiteRepository.is_pair user_id (Site.site_id x)) (user_sites s)).
Proof.
  unfold SiteRepository.user_site_rows. rewrite list_elem_of_In, in_flat_map.
  split.
  - intros (y & Hy%list_elem_of_In & Hx%list_elem_of_In).
    apply list_elem_of_fmap in Hx as (m & -> & Hm).
    split; [done|]. apply filter_bool_elem in Hm as [Hm Hpair].
    destruct (find _ (user_sites s)) eqn:Hfind; [eauto|].
    rewrite find_None_Forall in Hfind. apply Hfind in Hm. congruence.
  - intros [Hx [m Hm]]. exists x. split; [by apply list_elem_of_In|].
    apply list_elem_of_In, list_elem_of_fmap. exists m. split; [done|].
    apply find_Some_elem in Hm as [Hm Hpair]. by apply filter_bool_elem.
Qed.
End SiteListings.

Section DeleteSite.
Context {ext : External} {orm : SessionDelete}.

Lemma get_site_users_total (site_id : Z) (s : Store) :
  exists r, SiteRepository.get_site_users site_id None s = (Ok r, s)
            /\ PaginatedResult.total r
               = Z.of_nat (length (SiteRepository.site_user_rows site_id s)).
Proof.
  unfold SiteRepository.get_site_users, PaginatedResult.init.
  set (rows := order_by_username _).
  assert (Hlen : length rows = length (SiteRepository.site_user_rows site_id s))
    by apply Permutation_length, order_by_username_Permutation.
  destruct ((0 <? Z.of_nat (length rows))
            && (Z.of_nat (length (unique_by User.id [] rows)) =? 0)) eqn:Hzero.
  - exfalso. apply andb_true_iff in Hzero as [Hpos Hnone].
    assert (unique_by User.id [] rows = []) as Hnil
      by (apply length_zero_iff_nil; lia).
    apply unique_by_nil in Hnil. rewrite Hnil in Hpos. discriminate Hpos.
  - eexists. split; [reflexivity|]. simpl. by rewrite Hlen.
Qed.

Lemma site_user_rows_member (site_id : Z) (s : Store) (m : UserSite.t) (user : User.t) :
  m ∈ user_sites s -> UserSite.site_id m = site_id ->
  user ∈ users s -> User.id user = UserSite.user_id m ->
  user ∈ SiteRepository.site_user_rows site_id s.
Proof.
  intros Hm Hsite Huser Hid. unfold SiteRepository.site_user_rows.
  apply list_elem_of_In, in_flat_map. exists user. split; [by apply list_elem_of_In|].
  apply list_elem_of_In, list_elem_of_fmap. exists m. split; [done|].
  apply filter_bool_elem. split; [done|].
  unfold SiteRepository.is_pair. by rewrite Hid, Hsite, !Z.eqb_refl.
Qed.

Lemma length_pos_elem {A} (l : list A) (x : A) : x ∈ l -> 0 < Z.of_nat (length l).
Proof. destruct l; [by intros ?%elem_of_nil | simpl; lia]. Qed.

Lemma deactivated_only_row (site_id : Z) (s : Store) (site x : Site.t) :
  NoDup (map Site.site_id (sites s)) ->
  find (fun x => Site.site_id x =? site_id) (sites s) = Some site ->
  x ∈ replace_first (fun x => Site.site_id x =? site_id) (deactivated site) (sites s) ->
  Site.site_id x = site_id ->
  x = deactivated site.
Proof.
  intros Hnd Hfind Hx Hid.
  pose proof Hfind as [_ Hsite%Z.eqb_eq]%find_Some_elem.
  eapply same_id_same_row; [|exact Hx| |].
  - by rewrite (replace_first_map Site.site_id _ _ site).
  - apply replace_first_new. rewrite Hfind. eauto.
  - simpl. congruence.
Qed.
End DeleteSite.

(** X27.  [SiteService.delete_site] on a table of sites with one row per
    id, whatever deleting a row does in the database.  For an id no site
    has, it returns False and changes nothing.  Without [hard_delete], for
    a stored site it returns True and has only cleared the active flag of
    that row: the site is still found by its id, but it is in no listing of
    the active sites or of a user's active sites, and [set_site_context]
    raises Forbidden for it; the memberships and the interactions stay.
    With [hard_delete], it returns False and changes nothing as long as a
    stored user is a member of the site or an interaction belongs to it. *)
Theorem soft_delete_hides_the_site_and_hard_delete_needs_it_empty
    {ext : External} {orm : SessionDelete} {sql : SqlText} (site_id : Z) (s : Store) :
  NoDup (map Site.site_id (sites s)) ->
  ((forall x, x ∈ sites s -> Site.site_id x <> site_id) ->
   forall hard_delete, SiteService.delete_site site_id hard_delete s = (Ok false, s))
  /\ (forall site,
        site ∈ sites s -> Site.site_id site = site_id ->
        let s' :=
          set_sites
            (replace_first (fun x => Site.site_id x =? site_id) (deactivated site)
               (sites s)) s in
        SiteService.delete_site site_id false s = (Ok true, s')
        /\ SiteRepository.get_site_by_id site_id s' = (Ok (Some (deactivated site)), s')
        /\ Permutation (site :: sites s') (deactivated site :: sites s)
        /\ (forall r x,
              SiteService.get_sites None true s' = (Ok r, s') ->
              x ∈ PaginatedResult.items r -> Site.site_id x <> site_id)
        /\ (forall user_id listed x,
              SiteService.get_user_sites user_id true s' = (Ok listed, s') ->
              x ∈ listed -> Site.site_id x <> site_id)
        /\ (forall user,
              AuthService.set_site_context user site_id s' = (Raise Forbidden, s'))
        /\ user_sites s' = user_sites s
        /\ interactions s' = interactions s)
  /\ (forall site,
        site ∈ sites s -> Site.site_id site = site_id ->
        (exists m user,
           m ∈ user_sites s /\ UserSite.site_id m = site_id
           /\ user ∈ users s /\ User.id user = UserSite.user_id m)
        \/ (exists i, i ∈ interactions s /\ Interaction.site_id i = site_id) ->
        SiteService.delete_site site_id true s = (Ok false, s)).
Proof.
  intros Hnd.
  assert (Hfound : forall site, site ∈ sites s -> Site.site_id site = site_id ->
            find (fun x => Site.site_id x =? site_id) (sites s) = Some site).
  { intros site Hin <-. by apply find_unique_key. }
  split; [|split].
  - intros Hnone hard_delete.
    unfold SiteService.delete_site, mbind, M_bind, SiteRepository.get_site_by_id, gets.
    assert (find (fun x => Site.site_id x =? site_id) (sites s) = None) as ->; [|done].
    apply find_None_Forall. intros x Hx. apply Z.eqb_neq. by apply Hnone.
  - intros site Hin Hid s'. pose proof (Hfound site Hin Hid) as Hfind.
    assert (Hfind' : find (fun x => Site.site_id x =? site_id) (sites s')
                     = Some (deactivated site)).
    { apply find_replace_first; [rewrite Hfind; eauto|]. simpl. by apply Z.eqb_eq. }
    assert (Honly : forall x, x ∈ sites s' -> Site.site_id x = site_id ->
                      Site.is_active x = false).
    { intros x Hx Hxid. by rewrite (deactivated_only_row site_id s site x). }
    split; [|split; [|split; [|split; [|split; [|split; [|split]]]]]]; try done.
    + unfold SiteService.delete_site, mbind, M_bind, SiteRepository.get_site_by_id, gets,
        SiteRepository.delete_site.
      rewrite Hfind. cbv beta. by rewrite Hfind.
    + unfold SiteRepository.get_site_by_id, gets. by rewrite Hfind'.
    + by apply replace_first_Permutation.
    + intros r x Hlisted Hx Hxid.
      destruct (listed_site_is_active s' r x Hlisted Hx) as [Hrow Hactive].
      rewrite (Honly x Hrow Hxid) in Hactive. done.
    + unfold SiteService.get_user_sites, SiteRepository.get_user_sites, gets.
      intros user_id listed x [= <-] Hx Hxid.
      apply unique_by_spec in Hx as [_ Hx].
      rewrite order_by_name_Permutation in Hx.
      apply filter_bool_elem in Hx as [Hx Hactive].
      apply user_site_rows_elem in Hx as [Hrow _].
      rewrite (Honly x Hrow Hxid) in Hactive. done.
    + intros user. unfold AuthService.set_site_context.
      assert (find (fun x => (Site.site_id x =? site_id) && Site.is_active x) (sites s')
              = None) as ->; [|done].
      apply find_None_Forall. intros x Hx.
      destruct (Z.eqb_spec (Site.site_id x) site_id) as [Hxid|]; [|done].
      by rewrite (Honly x Hx Hxid).
  - intros site Hin Hid Hrelated. pose proof (Hfound site Hin Hid) as Hfind.
    unfold SiteService.delete_site, mbind, M_bind, SiteRepository.get_site_by_id, gets.
    rewrite Hfind.
    destruct (get_site_users_total site_id s) as (r & -> & Htotal).
    destruct (0 <? PaginatedResult.total r) eqn:Hmembers; [done|].
    destruct (0 <? Z.of_nat (length (List.filter
                (fun i => Interaction.site_id i =? Site.site_id site) (interactions s))))
      eqn:Hrows; [done|].
    exfalso. apply Z.ltb_ge in Hmembers, Hrows.
    destruct Hrelated as [(m & user & Hm & Hsite & Huser & Huid)|(i & Hi & Hsite)].
    + pose proof (site_user_rows_member site_id s m user Hm Hsite Huser Huid) as Hrow.
      apply length_pos_elem in Hrow. lia.
    + assert (Hrow : i ∈ List.filter
                (fun i => Interaction.site_id i =? Site.site_id site) (interactions s)).
      { apply filter_bool_elem. split; [done|]. apply Z.eqb_eq. congruence. }
      apply length_pos_elem in Hrow. lia.
Qed.

Lemma soft_delete_hides_the_site_and_hard_delete_needs_it_empty_witness :
  let s := Sample.store [Sample.interaction 7 2] [UserSite.mk 1 1 1 "admin" 0] in
  SiteService.delete_site (ext := Sample.external) (orm := Sample.orm) 1 true s
  = (Ok false, s)
  /\ SiteService.delete_site (ext := Sample.external) (orm := Sample.orm) 2 true s
     = (Ok false, s)
  /\ forall user,
       AuthService.set_site_context user 1
         (SiteService.delete_site (ext := Sample.external) (orm := Sample.orm) 1 false s).2
       = (Raise Forbidden,
          (SiteService.delete_site (ext := Sample.external) (orm := Sample.orm)
             1 false s).2).
Proof.
  intros s.
  assert (Hnd : NoDup (map Site.site_id (sites s))) by (simpl; compute_done).
  destruct (soft_delete_hides_the_site_and_hard_delete_needs_it_empty
              (ext := Sample.external) (orm := Sample.orm) (sql := Sample.sql) 1 s Hnd)
    as (_ & Hsoft & Hhard).
  destruct (soft_delete_hides_the_site_and_hard_delete_needs_it_empty
              (ext := Sample.external) (orm := Sample.orm) (sql := Sample.sql) 2 s Hnd)
    as (_ & _ & Hhard2).
  split; [|split].
  - apply (Hhard Sample.hq); [apply list_elem_of_here | reflexivity |].
    left. exists (UserSite.mk 1 1 1 "admin" 0), Sample.alice.
    repeat split; apply list_elem_of_here.
  - apply (Hhard2 Sample.annex);
      [apply list_elem_of_further, list_elem_of_here | reflexivity |].
    right. exists (Sample.interaction 7 2). split; [apply list_elem_of_here | reflexivity].
  - intros user.
    destruct (Hsoft Sample.hq) as (Hrun & _ & _ & _ & _ & Hcontext & _);
      [apply list_elem_of_here | reflexivity |].
    rewrite Hrun. apply Hcontext.
Defined.

Section ListedOnce.
Context {A : Type} (key : A -> Z).

Lemma filter_bool_sublist (p : A -> bool) (l : list A) : sublist (List.filter p l) l.
Proof.
  induction l as [|a l IH]; simpl; [done|].
  destruct (p a); [by apply sublist_skip | by apply sublist_cons].
Qed.

Lemma unique_by_keeps (seen : list Z) (l : list A) (x : A) :
  (forall y z, y ∈ l -> z ∈ l -> key y = key z -> y = z) ->
  x ∈ l -> key x ∉ seen -> x ∈ unique_by key seen l.
Proof.
  revert seen. induction l as [|a l IH]; intros seen Hinj Hx Hseen; simpl.
  - by apply elem_of_nil in Hx.
  - assert (Hinj' : forall y z, y ∈ l -> z ∈ l -> key y = key z -> y = z).
    { intros y z Hy Hz. apply Hinj; by apply list_elem_of_further. }
    apply elem_of_cons in Hx as [->|Hx].
    + rewrite bool_decide_eq_false_2 by done. apply list_elem_of_here.
    + case_bool_decide as Ha; [by apply IH|].
      destruct (decide (key x = key a)) as [Heq|Hne].
      * rewrite (Hinj x a); [apply list_elem_of_here | | apply list_elem_of_here | done].
        by apply list_elem_of_further.
      * apply list_elem_of_further, IH; [done..|].
        by intros [?|?]%elem_of_cons.
Qed.
End ListedOnce.

Lemma math_ceil_div_same (n : Z) : 0 < n -> math_ceil_div n n = 1.
Proof.
  intros Hn. unfold math_ceil_div.
  replace (- n) with (-1 * n) by lia. rewrite Z.div_mul by lia. done.
Qed.

(** X28.  On a table of sites with one row per id, [get_sites] without
    pagination parameters never raises and returns, on a single page, each
    site of the table once - each active site, when only the active ones
    are asked for - with their number as the total; and [get_user_sites]
    returns, each once, exactly the sites (the active ones, when asked for)
    that [User.has_site_access] grants the user.  Neither changes the
    store. *)
Theorem site_listings_hold_each_site_once {sql : SqlText}
    (active_only : bool) (s : Store) :
  NoDup (map Site.site_id (sites s)) ->
  let asked_for :=
    if active_only then List.filter Site.is_active (sites s) else sites s in
  (exists r,
     SiteService.get_sites None active_only s = (Ok r, s)
     /\ Permutation (PaginatedResult.items r) asked_for
     /\ PaginatedResult.total r = Z.of_nat (length (PaginatedResult.items r))
     /\ PaginatedResult.page r = 1
     /\ PaginatedResult.total_pages r = 1
     /\ PaginatedResult.has_next r = false
     /\ PaginatedResult.has_prev r = false)
  /\ (forall user,
        exists listed,
          SiteService.get_user_sites (User.id user) active_only s = (Ok listed, s)
          /\ NoDup listed
          /\ forall x,
               x ∈ listed
               <-> x ∈ asked_for /\ has_site_access user (Site.site_id x) s = true).
Proof.
  intros Hnd asked_for.
  assert (Hasked : NoDup (map Site.site_id asked_for)).
  { subst asked_for. destruct active_only; [|done].
    eapply sublist_NoDup; [exact Hnd|].
    apply (fmap_sublist Site.site_id), filter_bool_sublist. }
  assert (Hinj : forall y z, y ∈ sites s -> z ∈ sites s ->
                   Site.site_id y = Site.site_id z -> y = z)
    by (intros y z; by apply same_id_same_row).
  split.
  - unfold SiteService.get_sites, SiteRepository.get_all_sites, PaginatedResult.init.
    fold asked_for.
    assert (Hunique : unique_by Site.site_id [] (order_by_name asked_for)
                      = order_by_name asked_for).
    { apply unique_by_NoDup; [|intros x _; apply not_elem_of_nil].
      by rewrite (order_by_name_Permutation asked_for). }
    rewrite Hunique.
    destruct (0 <? Z.of_nat (length (order_by_name asked_for))) eqn:Hpos.
    + apply Z.ltb_lt in Hpos. rewrite (proj2 (Z.eqb_neq _ 0)) by lia.
      eexists. split; [reflexivity|]. cbn.
      rewrite math_ceil_div_same by done.
      repeat split. apply order_by_name_Permutation.
    + eexists. split; [reflexivity|]. cbn.
      repeat split. apply order_by_name_Permutation.
  - intros user.
    set (rows :=
      if active_only
      then List.filter Site.is_active (SiteRepository.user_site_rows (User.id user) s)
      else SiteRepository.user_site_rows (User.id user) s).
    exists (unique_by Site.site_id [] (order_by_name rows)). split; [reflexivity|].
    split.
    + eapply NoDup_fmap_1. apply (unique_by_spec Site.site_id).
    + intros x.
      assert (Hrows : x ∈ rows
                      <-> x ∈ asked_for
                          /\ has_site_access user (Site.site_id x) s = true).
      { subst rows asked_for. rewrite has_site_access_find, bool_decide_eq_true.
        destruct active_only.
        - rewrite !filter_bool_elem, user_site_rows_elem. tauto.
        - apply user_site_rows_elem. }
      rewrite <- Hrows. split.
      * intros Hx. apply unique_by_spec in Hx as [_ Hx].
        by rewrite order_by_name_Permutation in Hx.
      * intros Hx. apply unique_by_keeps; [| |apply not_elem_of_nil].
        -- intros y z Hy Hz. rewrite order_by_name_Permutation in Hy, Hz.
           apply Hinj.
           ++ subst rows. destruct active_only;
                [apply filter_bool_elem in Hy as [Hy _]|];
                by apply user_site_rows_elem in Hy as [? _].
           ++ subst rows. destruct active_only;
                [apply filter_bool_elem in Hz as [Hz _]|];
                by apply user_site_rows_elem in Hz as [? _].
        -- by rewrite order_by_name_Permutation.
Qed.

Lemma site_listings_hold_each_site_once_witness :
  let s := Sample.store [] [UserSite.mk 1 1 2 "admin" 0; UserSite.mk 2 1 2 "user" 0] in
  exists listed,
    SiteService.get_user_sites (sql := Sample.sql) 1 true s = (Ok listed, s)
    /\ (Sample.annex ∈ listed /\ Sample.hq ∉ listed).
Proof.
  intros s.
  destruct (site_listings_hold_each_site_once (sql := Sample.sql) true s)
    as [_ Husers].
  - simpl. compute_done.
  - destruct (Husers Sample.alice) as (listed & Hrun & _ & Hlisted).
    exists listed. split; [exact Hrun|]. split.
    + apply Hlisted. split; [|reflexivity].
      simpl. apply list_elem_of_further, list_elem_of_here.
    + intros [_ Haccess]%Hlisted. vm_compute in Haccess. discriminate Haccess.
Defined.

(** ** The users of a site *)

Section SiteUsers.
Context {ext : External}.

Lemma same_key_same_row {A} (key : A -> Z) (rows : list A) (x y : A) :
  NoDup (map key rows) -> x ∈ rows -> y ∈ rows -> key x = key y -> x = y.
Proof.
  intros Hnd Hx Hy Hkey.
  pose proof (find_unique_key key rows x Hnd Hx) as Hfx.
  pose proof (find_unique_key key rows y Hnd Hy) as Hfy.
  rewrite Hkey in Hfx. congruence.
Qed.

Lemma site_user_rows_elem (site_id : Z) (s : Store) (user : User.t) :
  user ∈ SiteRepository.site_user_rows site_id s
  <-> user ∈ users s /\ has_site_access user site_id s = true.
Proof.
  rewrite has_site_access_find, bool_decide_eq_true.
  unfold SiteRepository.site_user_rows. rewrite list_elem_of_In, in_flat_map.
  split.
  - intros (y & Hy%list_elem_of_In & Hx%list_elem_of_In).
    apply list_elem_of_fmap in Hx as (m & -> & Hm).
    split; [done|]. apply filter_bool_elem in Hm as [Hm Hpair].
    destruct (find _ (user_sites s)) eqn:Hfind; [eauto|].
    rewrite find_None_Forall in Hfind. apply Hfind in Hm. congruence.
  - intros [Hx [m Hm]]. exists user. split; [by apply list_elem_of_In|].
    apply list_elem_of_In, list_elem_of_fmap. exists m. split; [done|].
    apply find_Some_elem in Hm as [Hm Hpair]. by apply filter_bool_elem.
Qed.

Lemma one_row_per_pair (user_id site_id : Z) (rows : list UserSite.t) :
  NoDup (map (fun m => (UserSite.user_id m, UserSite.site_id m)) rows) ->
  (length (List.filter (SiteRepository.is_pair user_id site_id) rows) <= 1)%nat.
Proof.
  induction rows as [|m rows IH]; simpl; [lia|]. intros [Hm Hnd]%NoDup_cons.
  destruct (SiteRepository.is_pair user_id site_id m) eqn:Hpair; [|auto].
  rewrite filter_nil_Forall; [simpl; lia|].
  intros m' Hm' Hpair'. apply Hm. apply list_elem_of_fmap. exists m'. split; [|done].
  unfold SiteRepository.is_pair in Hpair, Hpair'.
  apply andb_true_iff in Hpair as [?%Z.eqb_eq ?%Z.eqb_eq].
  apply andb_true_iff in Hpair' as [?%Z.eqb_eq ?%Z.eqb_eq]. congruence.
Qed.

Lemma site_user_rows_NoDup (site_id : Z) (s : Store) :
  NoDup (map User.id (users s)) ->
  NoDup (map (fun m => (UserSite.user_id m, UserSite.site_id m)) (user_sites s)) ->
  NoDup (map User.id (SiteRepository.site_user_rows site_id s)).
Proof.
  intros Hids Hpairs. unfold SiteRepository.site_user_rows.
  induction (users s) as [|u rows IH]; simpl; [constructor|].
  apply NoDup_cons in Hids as [Hu Hids]. rewrite map_app.
  pose proof (one_row_per_pair (User.id u) site_id (user_sites s) Hpairs) as Hone.
  destruct (List.filter (SiteRepository.is_pair (User.id u) site_id) (user_sites s))
    as [|m [|m' rest]]; simpl in *; [by apply IH| |lia].
  apply NoDup_cons. split; [|by apply IH].
  intros (x & Hid & Hx)%list_elem_of_fmap.
  apply list_elem_of_In, in_flat_map in Hx as (y & Hy%list_elem_of_In & Hx%list_elem_of_In).
  apply list_elem_of_fmap in Hx as (? & -> & _).
  apply Hu. rewrite Hid. by apply list_elem_of_fmap_2.
Qed.
End SiteUsers.

(** X29.  [SiteService.get_site_users]: for an id no site has it returns,
    whatever the pagination parameters, an empty page with total 0; for a
    stored site and no pagination parameters (user ids being unique) it
    returns, each once, exactly the stored users that [User.has_site_access]
    grants the site.  The total it reports is the number of membership rows
    joined, which is the number of users listed when there is one
    membership row per user and site.  The store is not changed. *)
Theorem site_users_are_the_members_listed_once {ext : External}
    (site_id : Z) (s : Store) :
  NoDup (map User.id (users s)) ->
  ((forall x, x ∈ sites s -> Site.site_id x <> site_id) ->
   forall pagination_params,
     exists r,
       SiteService.get_site_users site_id pagination_params s = (Ok r, s)
       /\ PaginatedResult.items r = []
       /\ PaginatedResult.total r = 0
       /\ PaginatedResult.total_pages r = 1
       /\ PaginatedResult.has_next r = false)
  /\ (forall site,
        site ∈ sites s -> Site.site_id site = site_id ->
        exists r,
          SiteService.get_site_users site_id None s = (Ok r, s)
          /\ NoDup (PaginatedResult.items r)
          /\ (forall user,
                user ∈ PaginatedResult.items r
                <-> user ∈ users s /\ has_site_access user site_id s = true)
          /\ (NoDup (map (fun m => (UserSite.user_id m, UserSite.site_id m))
                       (user_sites s)) ->
              PaginatedResult.total r = Z.of_nat (length (PaginatedResult.items r)))).
Proof.
  intros Hids. split.
  - intros Hnone pagination_params.
    unfold SiteService.get_site_users, mbind, M_bind, SiteRepository.get_site_by_id, gets.
    assert (find (fun x => Site.site_id x =? site_id) (sites s) = None) as ->.
    { apply find_None_Forall. intros x Hx. apply Z.eqb_neq. by apply Hnone. }
    eexists. split; [reflexivity|]. done.
  - intros site Hin Hid.
    unfold SiteService.get_site_users, mbind, M_bind, SiteRepository.get_site_by_id, gets.
    assert (is_Some (find (fun x => Site.site_id x =? site_id) (sites s))) as [? ->].
    { destruct (find _ (sites s)) eqn:Hfind; [eauto|].
      rewrite find_None_Forall in Hfind. apply Hfind in Hin.
      by rewrite Hid, Z.eqb_refl in Hin. }
    destruct (get_site_users_all site_id s) as (r & Hrun & Hitems).
    destruct (get_site_users_total site_id s) as (r' & Hrun' & Htotal).
    rewrite Hrun in Hrun'. injection Hrun' as <-.
    exists r. split; [done|]. rewrite Hitems. unfold listed_users.
    split; [|split].
    + eapply NoDup_fmap_1. apply (unique_by_spec User.id).
    + intros user. rewrite <- site_user_rows_elem. split.
      * intros Hx. apply unique_by_spec in Hx as [_ Hx].
        by rewrite order_by_username_Permutation in Hx.
      * intros Hx. apply unique_by_keeps; [| |apply not_elem_of_nil].
        -- intros y z Hy Hz. rewrite order_by_username_Permutation in Hy, Hz.
           apply site_user_rows_elem in Hy as [Hy _], Hz as [Hz _].
           by apply (same_key_same_row User.id (users s)).
        -- by rewrite order_by_username_Permutation.
    + intros Hpairs. rewrite Htotal, unique_by_NoDup.
      * f_equal. symmetry. apply Permutation_length, order_by_username_Permutation.
      * rewrite (order_by_username_Permutation _). by apply site_user_rows_NoDup.
      * intros listed _. apply not_elem_of_nil.
Qed.

Lemma site_users_are_the_members_listed_once_witness :
  let s := Sample.store [] [UserSite.mk 1 1 1 "admin" 0; UserSite.mk 2 1 1 "user" 0] in
  exists r,
    SiteService.get_site_users (ext := Sample.external) 1 None s = (Ok r, s)
    /\ Sample.alice ∈ PaginatedResult.items r
    /\ (Sample.bob ∉ PaginatedResult.items r)
    /\ PaginatedResult.total r = 2.
Proof.
  intros s.
  destruct (site_users_are_the_members_listed_once (ext := Sample.external) 1 s)
    as [_ Hknown].
  - simpl. compute_done.
  - destruct (Hknown Sample.hq) as (r & Hrun & _ & Hlisted & _);
      [apply list_elem_of_here | reflexivity |].
    exists r. split; [exact Hrun|]. split; [|split].
    + apply Hlisted. split; [apply list_elem_of_here | reflexivity].
    + intros [_ Haccess]%Hlisted. vm_compute in Haccess. discriminate Haccess.
    + vm_compute in Hrun. by injection Hrun as <-.
Defined.
